(* ===== verification/_CoqProject ===== *)
-Q . S2P
Prelude.v
JsString.v
KnowledgeNode.v
Badge.v
Formatter.v
DefaultContent.v
Sidebar.v
Traversal.v
ContentArea.v
Header.v
Layout.v
LayoutView.v
Progress.v
InOrder.v
Safety.v
TailwindConfig.v
Theme.v
