(* ===== verification/Prelude.v ===== *)
(** * A verification development for the cricket learning website

    The program (repository llaper/cricket-learning-website) is a React
    single-page site: a sidebar shows a tree of cricket topics, a content
    panel shows the text of the selected topic.  Its parts, under
    [src/src/components/], and how they interact:

    - [Sidebar.tsx]: fetches [/data/knowledge-tree.json] once at mount,
      keeps the tree, the set of expanded node ids and a loading flag,
      renders the tree recursively ([renderNode]) and turns a click on a
      row into either [toggleExpanded] (a node with children) or a call
      of the parent's [onNodeSelect] callback (a leaf).
    - [ContentArea.tsx]: on every change of the selected node starts
      [loadContent], which fetches [/data/cricket-content.json], looks
      the node id up and stores the text, or a placeholder made by
      [generateDefaultContent]; [formatContent] turns the text into
      display blocks line by line; [getBreadcrumbs] builds the trail.
    - [Layout.tsx]: owns the selected node, the mobile-menu flag and the
      search text; it passes [handleNodeSelect] to the sidebar and the
      selected node to the content panel.
    - [Header.tsx]: a search form (its submit calls [onSearch] with the
      trimmed text when it is not blank) and the menu button.
    - [ui/badge.tsx]: the badge variants; [App.tsx]: the router;
      [tailwind.config.js]: the theme the class names refer to.

    Files of this development, in dependency order:

    - [Prelude] (this file): the notation scope [cricket_scope], the hint
      and rewrite databases [cricket] and [cricket_str], the shared
      tactics and the generic lemmas on strings and lists.
    - [JsString]: the ECMAScript string built-ins the code calls
      ([startsWith], [endsWith], [substring], [trim], [split], [join]),
      over [String.string] read as UTF-8 bytes, with their laws: the
      split/join round trip, the prefix and suffix characterisations,
      and [trim] on the JavaScript white-space set.
    - [KnowledgeNode]: the [KnowledgeNode] interface as a nested
      inductive, its induction principle, decidable equality, the
      [hasChildren]/[isLeaf] tests and the ids of a forest.
    - [Badge]: [badgeVariants] of [ui/badge.tsx] as class-variance-authority
      evaluates it, and [Badge]; every level names a variant with its own
      classes, so [variant={node.level}] is well typed (C28).
    - [Formatter]: [formatContent] of [ContentArea.tsx] (lines 284-307),
      an abstract declarative specification [formats_as] of a line's
      block and the refinement theorem that [formatLine] implements it
      (C1), the one-block-per-line and key theorems (C6, C11), and what a
      text with Windows line endings gives: every line but the last keeps
      its carriage return, so none of them is a note (C22).

    - [DefaultContent]: [generateDefaultContent] and its unused copy
      [generateMockContent] (ContentArea.tsx 56-252) with the template
      literals copied line for line, and [getBreadcrumbs] (254-282).
      Theorems: the level label of a ['content'] node, a missing level
      included (C15), the line structure of the overview with absent and
      empty children (C16), the rendered heading (C17), and that the
      breadcrumb trail depends on the node's type only (C25).
    - [Sidebar]: the sidebar's state and [loadKnowledgeTree] after its
      awaits (success, failure, a document without [categories]),
      [toggleExpanded], the row click [onRowClick] returning the calls
      it makes, [renderNode] and the view.  A typeclass [SelectionSink]
      states what the sidebar expects of its parent's callback.
      Theorems: the click on a leaf and on a parent (C2, C3), the rows on
      screen exactly the nodes whose
      ancestors are all expanded (C9), the three load outcomes (C18-C20),
      the selection highlight (C24).
    - [Traversal]: an explicit stack traversal of the tree, the
      alternative the spec (section 9) allows, and the equivalence of the
      code's recursive [renderNode] with it (C35); the rows on screen as a
      sublist of the tree's nodes, so that with unique ids at most one
      row is highlighted (C32).
    - [ContentArea]: the panel's state, [loadContent] split at its
      [await] into [loadContent_start] and [loadContent_finish], the
      JavaScript property read [contentData[node.id]] (keys inherited
      from [Object.prototype] included) and the view.  Theorems: a hit
      shows the entry (C14), a miss equals a failed fetch (C10), an
      inherited key crashes the panel (C21).
    - [Header]: the search box, the menu button and the view; submit
      trims and skips blank text.
    - [Layout]: the page as one record (the components' states plus the
      in-flight fetches, each content load tagged by a ticket), [step]
      applying a user event or the settlement of any in-flight fetch in
      any order, [reachable] its closure from the mounted page, and
      [run] executing a list of events.  Theorems by induction on
      [reachable]: the selected node is a leaf of the loaded tree (C5),
      loads are only in flight for leaves after a selection, with
      distinct tickets (C13).  Step theorems: a leaf click selects and
      loads (C12), a re-click does not reload (C23), a settlement
      overwrites the panel whatever is selected (C8), search changes
      nothing (C27); and the race, the selected topic showing the text
      of the previously clicked one, is reachable (C7).
    - [LayoutView]: what the page shows (the header's view, the drawer,
      the overlay and the sliding panel by the menu flag) and the router
      of [App.tsx].  Theorems: the transition table of the menu flag over
      all events (C33), the controlled search input's round trip (C34).
    - [Progress]: a generic [eventually] over a step that names all its
      outcomes, and for the page: the skeletons shown exactly while their
      fetches are in flight (C30), and liveness: whatever the fetches return,
      settling them reaches a quiet page with the same selection (C29).
    - [InOrder]: the refinement of the spec's contract for the content
      panel when the server's answer for each node is fixed ([srv]) and
      the loads are delivered in the order they were started: once
      nothing is in flight the panel holds exactly the text resolved from
      [srv] for the selected node (C26).  [out_of_order_breaks] shows the
      race page of [Layout] (C7) failing it with the same server, so the
      divergence lies exactly in out-of-order responses.
    - [Safety]: the converse of the two crashes (C20, C21): when the tree
      document has a [categories] array whose ids are not keys of
      [Object.prototype] and every truthy content entry has a string
      [content], no reachable page has crashed, in any order of
      settlement and whichever fetches fail (C4), by an invariant over
      the step relation restricted to such responses.
    - [TailwindConfig]: the object [tailwind.config.js] exports, field by
      field.
    - [Theme]: Tailwind's default scales, the reading of a class name
      (colour, border width, font size, radius, shadow, animation,
      spacing), every [className] of the components, and the theme check
      (C31): among colours, border widths, plugin utilities and the named
      scales, exactly five class names generate no rule (two colours,
      one border width, and [prose] and [prose-invert], whose plugin is
      not loaded), every other such token is on its scale, every source
      file is scanned, and the configured font families are never
      applied.  Utilities outside these groups ([flex], [max-w-none],
      ...) are Tailwind's fixed ones and are not checked.

    [DefaultContent] also proves the unused [generateMockContent] equal
    to [generateDefaultContent].

    Fuel.  Two definitions take fuel.  [Js.units] splits a string into
    the UTF-8 sequences [trim] inspects; [trim] gives it fuel
    [String.length s].  Every round consumes at least one byte, so any
    fuel of at least that length gives the same units ([Js.units_fuel]);
    whatever the fuel, no byte is lost ([Js.units_concat]).
    [Traversal.visible_stack] pops one node per round; it is given the
    number of nodes of the tree, which bounds the rows it emits
    ([Traversal.shown_order_length]), so it never runs out
    ([Traversal.visible_stack_flat]).

    Not modelled: the CSS class merging of [cn] (tailwind-merge; styles
    are kept as the list of [cn]'s arguments) and [ui/button],
    [ui/input] and [lib/utils], which are not among the sources.  The
    static parts of the views (icons' pixel sizes, the reading-time and
    date texts, the share buttons) are kept only as their class names.
    Tailwind's default palette and scales and the animation plugin's
    utilities are the libraries' (Tailwind v3), written out in [Theme];
    the spacing check reads numeric values only (fractions and keywords
    such as [w-1/3] and [mx-auto] are Tailwind's fixed utilities).  JSON
    parsing is abstracted: a fetch outcome is the already parsed
    document or a failure.  React's [Object.is] test on [selectedNode]
    is structural equality here, which coincides with identity as long
    as the tree's ids are unique (the nodes come from one parsed tree
    and are never copied).  The imports, exports and the prop types of
    the files are not code to model.

    Plan for later work: the search logic the code leaves empty has
    nothing to model; what remains is a finer model of React's
    scheduling of the two state updates after [loadContent]'s await
    (one render in React 18, which the model assumes).

    Strings.  JavaScript strings are sequences of UTF-16 code units; the
    model uses [String.string], the UTF-8 bytes of the same text (the
    templates hold Chinese text).  Every operation the code applies
    looks for or strips ASCII characters ('#', ' ', '-', '*', LF), and
    in valid UTF-8 an ASCII byte never occurs inside a multi-byte
    character, so the byte-level operations agree with the code-unit
    ones.  [trim] is the exception: it recognises every JavaScript
    white-space and line-terminator code point by its UTF-8 encoding. *)

From stdpp Require Import base list strings.
From Stdlib Require Import String Ascii Lia.

Declare Scope cricket_scope.
Delimit Scope cricket_scope with cricket.

(** The line feed, as a character and as a one-character string. *)
Definition LF_char : ascii := "010"%char.
Definition LF : string := String LF_char EmptyString.

(** [a ⏎ b]: the two texts on consecutive lines, as a template literal
    that breaks its line between them. *)
Notation "a ⏎ b" := (String.append a (String.append LF b))
  (at level 60, right associativity) : cricket_scope.

Create HintDb cricket discriminated.
Create Rewrite HintDb cricket_str.

(** ** Generic lemmas on strings *)

(** stdpp makes [String.append] opaque to [simpl]; these are its two
    defining equations, used by the rewriting database. *)
Lemma string_app_nil_l (b : string) : "" +:+ b = b.
Proof. reflexivity. Qed.

Lemma string_app_cons (c : ascii) (a b : string) : String c a +:+ b = String c (a +:+ b).
Proof. reflexivity. Qed.

#[export] Hint Rewrite string_app_nil_l string_app_cons : cricket_str.

Lemma string_app_assoc (a b c : string) : (a +:+ b) +:+ c = a +:+ (b +:+ c).
Proof. induction a as [|x a IH]; rewrite ?string_app_nil_l, ?string_app_cons; congruence. Qed.

Lemma string_app_nil_r (a : string) : a +:+ "" = a.
Proof. induction a as [|x a IH]; rewrite ?string_app_nil_l, ?string_app_cons; congruence. Qed.

Lemma string_length_app (a b : string) :
  String.length (a +:+ b) = String.length a + String.length b.
Proof. induction a as [|x a IH]; rewrite ?string_app_nil_l, ?string_app_cons; simpl; lia. Qed.

#[export] Hint Rewrite string_app_assoc string_app_nil_r string_length_app : cricket_str.

Lemma prefix_app (p t : string) : String.prefix p (p +:+ t) = true.
Proof.
  induction p as [|c p IH]; [by destruct t|]. rewrite string_app_cons; simpl.
  destruct (ascii_dec c c); [exact IH | congruence].
Qed.

Lemma prefix_iff (p s : string) : String.prefix p s = true <-> exists t, s = p +:+ t.
Proof.
  split.
  - revert s; induction p as [|c p IH]; intros s H; simpl in *; [by exists s|].
    destruct s as [|c' s]; [done|]; simpl in H.
    destruct (ascii_dec c c') as [->|]; [|done].
    destruct (IH s H) as [t ->]. by exists t.
  - intros [t ->]. apply prefix_app.
Qed.

Lemma substring_app_skip (p t : string) (m : nat) :
  String.substring (String.length p) m (p +:+ t) = String.substring 0 m t.
Proof. induction p as [|c p IH]; [done|]. rewrite string_app_cons; exact IH. Qed.

Lemma substring_full (t : string) : String.substring 0 (String.length t) t = t.
Proof. induction t as [|c t IH]; simpl; congruence. Qed.

Lemma substring_0_app (a b : string) :
  String.substring 0 (String.length a) (a +:+ b) = a.
Proof.
  induction a as [|c a IH]; [by destruct b|]. rewrite string_app_cons; simpl; congruence.
Qed.

Lemma substring_app_tail (a b : string) :
  String.substring (String.length a) (String.length b) (a +:+ b) = b.
Proof. by rewrite substring_app_skip, substring_full. Qed.

#[export] Hint Rewrite substring_app_skip substring_full substring_0_app : cricket_str.
#[export] Hint Resolve prefix_app : cricket.

(** A string made of one character and its append decomposition. *)
Lemma string_cons_app (c : ascii) (s : string) : String c s = String c "" +:+ s.
Proof. reflexivity. Qed.

(** ** Tactics shared by the development *)

(** Normalise string appends and lengths everywhere. *)
Ltac str_norm := autorewrite with cricket_str in *.

(** Case on the first boolean test of the goal, naming its outcome. *)
Ltac case_if :=
  match goal with
  | |- context [if ?b then _ else _] => let E := fresh "E" in destruct b eqn:E
  end.

(** Turn [bool_decide] tests in the hypotheses into propositions. *)
Ltac bool_decide_hyps :=
  repeat match goal with
  | H : bool_decide _ = true |- _ => apply bool_decide_eq_true in H
  | H : bool_decide _ = false |- _ => apply bool_decide_eq_false in H
  end.
