(* ===== verification/JsString.v ===== *)
(** * The ECMAScript string built-ins the components call

    [startsWith], [endsWith], [substring], [trim], [split] and [join] of
    [String.prototype] / [Array.prototype], as the ECMAScript
    specification defines them, over [String.string] read as UTF-8
    bytes (see the header of [Prelude]).  With them: the prefix and
    suffix characterisations, [substring]'s clamping and swapping of its
    arguments, the split/join round trip in both directions, and the
    blank test [trim s === ''] as "every code point is white space". *)

From stdpp Require Import base list strings.
From Stdlib Require Import String Ascii ZArith Lia.
From S2P Require Import Prelude.

Module Js.

(** ** startsWith, endsWith *)

(** [s.startsWith(search)]: the first [length search] units of [s] are
    [search]. *)
Definition startsWith (s search : string) : bool := String.prefix search s.

(** [s.endsWith(search)]: with [start = len - searchLength], false when
    [start < 0], else the units from [start] are [search]. *)
Definition endsWith (s search : string) : bool :=
  let len := String.length s in
  let k := String.length search in
  (k <=? len) && String.eqb (String.substring (len - k) k s) search.

(** ** substring *)

(** ToIntegerOrInfinity then clamping into [0, len]. *)
Definition clamp (len : nat) (z : Z) : nat := Z.to_nat (Z.max 0 (Z.min z (Z.of_nat len))).

(** [s.substring(start, end)]: both bounds clamped, then swapped when
    [start > end]. *)
Definition substring (s : string) (start end_ : Z) : string :=
  let len := String.length s in
  let a := clamp len start in
  let b := clamp len end_ in
  String.substring (Nat.min a b) (Nat.max a b - Nat.min a b) s.

(** [s.substring(start)]: the end defaults to the length. *)
Definition substring_from (s : string) (start : Z) : string :=
  substring s start (Z.of_nat (String.length s)).

(** ** trim *)

(** The string of the given bytes. *)
Definition bytes (l : list nat) : string :=
  fold_right (fun n acc => String (ascii_of_nat n) acc) EmptyString l.

(** The UTF-8 encodings of ECMAScript's WhiteSpace (TAB, VT, FF, ZWNBSP
    U+FEFF and the Zs category: U+0020, U+00A0, U+1680, U+2000-U+200A,
    U+202F, U+205F, U+3000) and LineTerminator (LF, CR, U+2028,
    U+2029) code points, which [trim] strips. *)
Definition whitespace_utf8 : list (list nat) :=
  [[9]; [10]; [11]; [12]; [13]; [32]; [194; 160]; [225; 154; 128]]
  ++ map (fun b => [226; 128; b]) (seq 128 11)
  ++ [[226; 128; 168]; [226; 128; 169]; [226; 128; 175]; [226; 129; 159];
      [227; 128; 128]; [239; 187; 191]].

(** Width in bytes of the white-space code point at the head of [s]; 0
    when [s] does not start with one. *)
Definition ws_width (s : string) : nat :=
  match List.find (fun w => String.prefix (bytes w) s) whitespace_utf8 with
  | Some w => List.length w
  | None => 0
  end.

(** [s] without its first [n] bytes. *)
Fixpoint sdrop (n : nat) (s : string) : string :=
  match n, s with
  | 0, _ => s
  | S n', String _ r => sdrop n' r
  | S _, EmptyString => EmptyString
  end.

(** [s] cut into units: each white-space code point is one unit marked
    [true]; every other byte is a unit of its own marked [false].  Each
    round consumes at least one byte, so [String.length s] rounds of
    fuel are enough ([units_fuel]); out of fuel the rest is kept as one
    unit, so no byte is ever lost ([units_concat]). *)
Fixpoint units (fuel : nat) (s : string) : list (bool * string) :=
  match s with
  | EmptyString => []
  | String c r =>
      match fuel with
      | 0 => [(false, s)]
      | S f =>
          match ws_width s with
          | 0 => (false, String c EmptyString) :: units f r
          | w => (true, String.substring 0 w s) :: units f (sdrop w s)
          end
      end
  end.

Definition units_text (u : list (bool * string)) : string :=
  fold_right (fun p acc => snd p +:+ acc) EmptyString u.

(** Drop the leading units marked white space. *)
Fixpoint drop_ws (u : list (bool * string)) : list (bool * string) :=
  match u with
  | (true, _) :: u' => drop_ws u'
  | _ => u
  end.

(** [s.trim()]: the text without its leading and trailing white-space
    code points. *)
Definition trim (s : string) : string :=
  units_text (rev (drop_ws (rev (drop_ws (units (String.length s) s))))).

(** ** split, join *)

(** [s.split(sep)] for a separator of one unit: the pieces between the
    separators, [[""]] for the empty string. *)
Fixpoint split (sep : ascii) (s : string) : list string :=
  match s with
  | EmptyString => [EmptyString]
  | String c r =>
      let rest := split sep r in
      if ascii_dec c sep then EmptyString :: rest
      else match rest with
           | h :: t => String c h :: t
           | [] => [String c EmptyString]
           end
  end.

(** [a.join(sep)]: [String.concat] puts [sep] between the elements and
    gives [""] for the empty array, as [join] does. *)
Definition join (sep : string) (l : list string) : string := String.concat sep l.

(** Occurrences of a character. *)
Fixpoint count_char (c : ascii) (s : string) : nat :=
  match s with
  | EmptyString => 0
  | String d r => (if ascii_dec d c then 1 else 0) + count_char c r
  end.

(** ** Lemmas *)

Lemma startsWith_iff (s p : string) : startsWith s p = true <-> exists t, s = p +:+ t.
Proof. apply prefix_iff. Qed.

Lemma substring_split (n : nat) (s : string) :
  n <= String.length s ->
  s = String.substring 0 n s +:+ String.substring n (String.length s - n) s.
Proof.
  revert n; induction s as [|c s IH]; intros n Hn; [by destruct n|].
  destruct n as [|n]; simpl.
  - rewrite string_app_nil_l. symmetry. apply (substring_full (String c s)).
  - rewrite string_app_cons. f_equal. apply IH. simpl in Hn; lia.
Qed.

Lemma endsWith_iff (s p : string) : endsWith s p = true <-> exists t, s = t +:+ p.
Proof.
  unfold endsWith. rewrite andb_true_iff, Nat.leb_le, String.eqb_eq. split.
  - intros [Hle Hsub]. exists (String.substring 0 (String.length s - String.length p) s).
    rewrite (substring_split (String.length s - String.length p) s) at 1 by lia.
    replace (String.length s - (String.length s - String.length p)) with (String.length p) by lia.
    by rewrite Hsub.
  - intros [t ->]. str_norm. split; [lia|].
    replace (String.length t + String.length p - String.length p) with (String.length t) by lia.
    by rewrite substring_app_skip, substring_full.
Qed.

Lemma clamp_nat (len n : nat) : n <= len -> clamp len (Z.of_nat n) = n.
Proof. unfold clamp. lia. Qed.

(** In range and in order, [substring] is the plain byte substring. *)
Lemma substring_nat (s : string) (a b : nat) :
  a <= b <= String.length s ->
  substring s (Z.of_nat a) (Z.of_nat b) = String.substring a (b - a) s.
Proof.
  intros H. unfold substring. rewrite !clamp_nat by lia.
  by rewrite Nat.min_l, Nat.max_r by lia.
Qed.

Lemma substring_from_prefix (p t : string) :
  substring_from (p +:+ t) (Z.of_nat (String.length p)) = t.
Proof.
  unfold substring_from. rewrite substring_nat by (str_norm; lia). str_norm.
  replace (String.length p + String.length t - String.length p) with (String.length t) by lia.
  apply substring_full.
Qed.

(** [("*" + t + "*").substring(1, length - 1)] is [t]. *)
Lemma substring_inner (c : ascii) (t : string) :
  let s := String c t +:+ String c EmptyString in
  substring s 1 (Z.of_nat (String.length s) - 1) = t.
Proof.
  intros s. assert (Hl : String.length s = S (S (String.length t))).
  { subst s. rewrite string_app_cons. simpl. str_norm. simpl. lia. }
  replace (Z.of_nat (String.length s) - 1)%Z with (Z.of_nat (S (String.length t))) by lia.
  change 1%Z with (Z.of_nat 1). rewrite substring_nat by lia.
  subst s. rewrite string_app_cons. simpl. rewrite Nat.sub_0_r. apply substring_0_app.
Qed.

(** split never returns the empty array. *)
Lemma split_not_nil (sep : ascii) (s : string) : split sep s <> [].
Proof.
  induction s as [|c s IH]; simpl; [done|].
  destruct (ascii_dec c sep); [done|]. by destruct (split sep s).
Qed.

Lemma concat_cons_char (sep : string) (c : ascii) (h : string) (t : list string) :
  String.concat sep (String c h :: t) = String c EmptyString +:+ String.concat sep (h :: t).
Proof. by destruct t. Qed.

Lemma concat_cons_cons (sep x y : string) (l : list string) :
  String.concat sep (x :: y :: l) = x +:+ sep +:+ String.concat sep (y :: l).
Proof. reflexivity. Qed.

(** Round trip: joining the pieces with the separator gives the text back. *)
Lemma join_split (sep : ascii) (s : string) :
  join (String sep EmptyString) (split sep s) = s.
Proof.
  unfold join. induction s as [|c s IH]; simpl; [done|].
  destruct (ascii_dec c sep) as [->|Hne].
  - pose proof (split_not_nil sep s) as Hnn.
    destruct (split sep s) as [|h t] eqn:E; [done|]. by rewrite concat_cons_cons, IH.
  - destruct (split sep s) as [|h t] eqn:E; [by destruct (split_not_nil sep s)|].
    rewrite concat_cons_char, IH. done.
Qed.

(** No piece of a split holds the separator. *)
Lemma split_pieces (sep : ascii) (s : string) :
  Forall (fun piece => count_char sep piece = 0) (split sep s).
Proof.
  induction s as [|c s IH]; simpl; [by repeat constructor|].
  destruct (ascii_dec c sep); [by constructor|].
  destruct (split sep s) as [|h t]; [by repeat constructor; simpl; case_if|].
  inversion IH; subst. constructor; [|done]. simpl. by destruct (ascii_dec c sep).
Qed.

Lemma split_no_sep (sep : ascii) (a : string) : count_char sep a = 0 -> split sep a = [a].
Proof.
  induction a as [|c a IH]; simpl; [done|].
  destruct (ascii_dec c sep); [lia|]. intros H. by rewrite IH.
Qed.

Lemma split_app_sep (sep : ascii) (a b : string) :
  count_char sep a = 0 -> split sep (a +:+ String sep b) = a :: split sep b.
Proof.
  induction a as [|c a IH]; intros H; simpl.
  - by destruct (ascii_dec sep sep).
  - simpl in H. destruct (ascii_dec c sep); [lia|]. by rewrite IH.
Qed.

(** Round trip the other way: pieces free of the separator come back
    from splitting their join. *)
Lemma split_join (sep : ascii) (l : list string) :
  l <> [] -> Forall (fun piece => count_char sep piece = 0) l ->
  split sep (join (String sep EmptyString) l) = l.
Proof.
  unfold join. induction l as [|x [|y l] IH]; intros Hne Hf; [done| |].
  - inversion Hf. by apply split_no_sep.
  - inversion Hf; subst. rewrite concat_cons_cons, string_app_cons, string_app_nil_l, split_app_sep by done. f_equal. by apply IH.
Qed.

(** One more piece than separators. *)
Lemma length_split (sep : ascii) (s : string) :
  List.length (split sep s) = S (count_char sep s).
Proof.
  induction s as [|c s IH]; simpl; [done|].
  destruct (ascii_dec c sep); simpl; [by rewrite IH|].
  pose proof (split_not_nil sep s). destruct (split sep s); [done|]. simpl in *. lia.
Qed.

(** [units] loses no byte. *)
Lemma sdrop_substring (w : nat) (s : string) :
  s = String.substring 0 w s +:+ sdrop w s.
Proof.
  revert s; induction w as [|w IH]; intros s; [by destruct s|].
  destruct s as [|c s]; [done|]. simpl. rewrite string_app_cons. f_equal. apply IH.
Qed.

Lemma units_concat (fuel : nat) (s : string) : units_text (units fuel s) = s.
Proof.
  revert s; induction fuel as [|f IH]; intros s; destruct s as [|c r]; simpl; try done.
  - apply string_app_nil_r.
  - destruct (ws_width (String c r)) as [|w]; simpl; rewrite IH; [done|].
    rewrite string_app_cons. f_equal. symmetry. apply sdrop_substring.
Qed.

(** A unit that is not white space holds at least one byte. *)
Lemma units_nonempty (fuel : nat) (s : string) :
  Forall (fun u => fst u = false -> snd u <> EmptyString) (units fuel s).
Proof.
  revert s; induction fuel as [|f IH]; intros s; destruct s as [|c r]; simpl;
    repeat constructor; try done.
  destruct (ws_width (String c r)); constructor; simpl; try done; apply IH.
Qed.

Lemma bytes_length (l : list nat) : String.length (bytes l) = List.length l.
Proof. induction l as [|n l IH]; simpl; congruence. Qed.

(** A white-space code point at the head of [s] fits in [s]. *)
Lemma ws_width_le (s : string) : ws_width s <= String.length s.
Proof.
  unfold ws_width. destruct (List.find _ _) as [w|] eqn:E; [|lia].
  apply List.find_some in E as [_ Hp]. apply prefix_iff in Hp as [t ->].
  rewrite string_length_app, bytes_length. lia.
Qed.

Lemma sdrop_length (w : nat) (s : string) :
  String.length (sdrop w s) = String.length s - w.
Proof. revert s; induction w as [|w IH]; intros [|c s]; simpl; rewrite ?IH; lia. Qed.

(** The fuel is enough: any fuel of at least [String.length s] rounds,
    in particular the one [trim] gives, cuts [s] into the same units. *)
Lemma units_fuel (f f' : nat) (s : string) :
  String.length s <= f -> String.length s <= f' -> units f s = units f' s.
Proof.
  revert f' s; induction f as [|f IH]; intros f' [|c r] Hf Hf'; simpl in *;
    try (destruct f'; reflexivity); [lia|].
  destruct f' as [|f']; [lia|]. simpl.
  pose proof (ws_width_le (String c r)) as Hw. simpl in Hw.
  destruct (ws_width (String c r)) as [|w] eqn:E.
  - f_equal. apply IH; lia.
  - f_equal. apply IH; rewrite sdrop_length; simpl; lia.
Qed.

Lemma units_text_app (u v : list (bool * string)) :
  units_text (u ++ v) = units_text u +:+ units_text v.
Proof. induction u as [|p u IH]; simpl; [done|]. by rewrite IH, string_app_assoc. Qed.

Lemma drop_ws_all (u : list (bool * string)) :
  forallb fst u = true -> drop_ws u = [].
Proof. induction u as [|[[] x] u IH]; simpl; by auto. Qed.

Lemma drop_ws_suffix (u : list (bool * string)) : exists p, u = p ++ drop_ws u.
Proof.
  induction u as [|[[] x] u IH]; simpl; [by exists []| |by exists []].
  destruct IH as [p Hp]. exists ((true, x) :: p). simpl. congruence.
Qed.

Lemma drop_ws_false (u : list (bool * string)) :
  forallb fst u = false -> exists x w, drop_ws u = (false, x) :: w.
Proof. induction u as [|[[] x] u IH]; simpl; [done|exact IH|by eauto]. Qed.

Lemma drop_ws_snoc_false (l : list (bool * string)) (x : string) :
  exists l', drop_ws (l ++ [(false, x)]) = l' ++ [(false, x)].
Proof.
  induction l as [|[[] y] l IH]; simpl; [by exists []|exact IH|].
  by exists ((false, y) :: l).
Qed.

(** [s.trim() === ''] holds exactly when every code point of [s] is
    white space. *)
Definition is_blank (s : string) : bool := forallb fst (units (String.length s) s).

Lemma trim_empty_iff (s : string) : trim s = EmptyString <-> is_blank s = true.
Proof.
  unfold trim, is_blank. split.
  - intros H. destruct (forallb fst (units (String.length s) s)) eqn:E; [done|].
    destruct (drop_ws_false _ E) as (x & w & Hd). rewrite Hd in H. simpl in H.
    destruct (drop_ws_snoc_false (rev w) x) as [l' Hl']. rewrite Hl', rev_app_distr in H.
    simpl in H. destruct (drop_ws_suffix (units (String.length s) s)) as [p Hp].
    pose proof (units_nonempty (String.length s) s) as Hne.
    rewrite Hp, Hd, Forall_app in Hne. destruct Hne as [_ Hne]. inversion Hne as [|? ? Hx]; subst.
    destruct x; [exfalso; by apply Hx|done].
  - intros H. by rewrite (drop_ws_all _ H).
Qed.

Lemma count_char_app (c : ascii) (a b : string) :
  count_char c (a +:+ b) = count_char c a + count_char c b.
Proof. induction a as [|d a IH]; [done|]. rewrite string_app_cons. simpl. lia. Qed.

(** Joining two non-empty arrays is joining their joins. *)
Lemma join_app (sep : string) (l1 l2 : list string) :
  l1 <> [] -> l2 <> [] -> join sep (l1 ++ l2) = join sep l1 +:+ sep +:+ join sep l2.
Proof.
  unfold join. intros H1 H2. induction l1 as [|x [|y l1] IH]; [done| |].
  - destruct l2; [done|]. reflexivity.
  - change ((x :: y :: l1) ++ l2) with (x :: y :: (l1 ++ l2)).
    change ((y :: l1) ++ l2) with (y :: (l1 ++ l2)) in IH.
    rewrite !concat_cons_cons, IH by done. by rewrite !string_app_assoc.
Qed.

End Js.
