(* ===== verification/KnowledgeNode.v ===== *)
(** * The knowledge tree's data

    The [KnowledgeNode] interface, declared identically in
    [Sidebar.tsx], [ContentArea.tsx] and [Layout.tsx] (lines 6-12 of
    each): an id, a title, one of four types, an optional difficulty
    level and optional children.  [children] is [option (list _)] because
    the code tells an absent field from an empty array
    ([generateDefaultContent] does).  Here also: an induction principle
    that sees through the nested list, decidable equality, the
    [hasChildren]/[isLeaf] tests of [renderNode], the nodes and ids of a
    forest and the uniqueness of ids that the spec assumes. *)

From stdpp Require Import base list strings.
From Stdlib Require Import String.
From S2P Require Import Prelude.

(** ['category' | 'section' | 'subsection' | 'content'] *)
Inductive NodeType := type_category | type_section | type_subsection | type_content.

(** ['beginner' | 'intermediate' | 'advanced'] *)
Inductive Level := beginner | intermediate | advanced.

#[export] Instance NodeType_eq_dec : EqDecision NodeType.
Proof. solve_decision. Defined.
#[export] Instance Level_eq_dec : EqDecision Level.
Proof. solve_decision. Defined.

#[warnings="-register-all"]
Inductive KnowledgeNode := mkNode {
  id : string;
  title : string;
  type : NodeType;
  level : option Level;
  children : option (list KnowledgeNode)
}.

(** The children as a list, [[]] when the field is absent. *)
Definition kids (n : KnowledgeNode) : list KnowledgeNode :=
  match children n with Some l => l | None => [] end.

(** ** Induction through the children *)

Section node_ind.
Variable P : KnowledgeNode -> Prop.
Hypothesis P_node : forall n, Forall P (kids n) -> P n.

Fixpoint node_ind (n : KnowledgeNode) : P n :=
  match n with
  | mkNode i t ty l c =>
      P_node (mkNode i t ty l c)
        (let fix go (ks : list KnowledgeNode) : Forall P ks :=
           match ks with
           | [] => List.Forall_nil P
           | k :: ks' => List.Forall_cons P k ks' (node_ind k) (go ks')
           end in
         match c as c0 return Forall P (match c0 with Some l => l | None => [] end) with
         | Some ks => go ks
         | None => List.Forall_nil P
         end)
  end.
End node_ind.

(** ** Decidable equality *)

Fixpoint node_eqb (x y : KnowledgeNode) : bool :=
  match x, y with
  | mkNode i1 t1 ty1 l1 c1, mkNode i2 t2 ty2 l2 c2 =>
      bool_decide (i1 = i2) && bool_decide (t1 = t2) && bool_decide (ty1 = ty2)
      && bool_decide (l1 = l2)
      && match c1, c2 with
         | None, None => true
         | Some k1, Some k2 =>
             (fix go (a b : list KnowledgeNode) : bool :=
                match a, b with
                | [], [] => true
                | x :: a', y :: b' => node_eqb x y && go a' b'
                | _, _ => false
                end) k1 k2
         | _, _ => false
         end
  end.

Lemma node_eqb_eq (x y : KnowledgeNode) : node_eqb x y = true <-> x = y.
Proof.
  revert y. induction x as [[i1 t1 ty1 l1 c1] IH] using node_ind; intros [i2 t2 ty2 l2 c2].
  simpl. rewrite !andb_true_iff, !bool_decide_eq_true.
  assert (Hc : match c1, c2 with
               | None, None => true
               | Some k1, Some k2 =>
                   (fix go (a b : list KnowledgeNode) : bool :=
                      match a, b with
                      | [], [] => true
                      | x :: a', y :: b' => node_eqb x y && go a' b'
                      | _, _ => false
                      end) k1 k2
               | _, _ => false
               end = true <-> c1 = c2).
  { unfold kids in IH; simpl in IH.
    destruct c1 as [k1|], c2 as [k2|]; try (split; congruence).
    revert k2; induction k1 as [|x k1 IHk]; intros [|y k2]; try (split; congruence).
    inversion IH as [|? ? Hx Hk]; subst. rewrite andb_true_iff, Hx, (IHk Hk).
    split; [intros [-> [=->]]; done|intros [=-> ->]; done]. }
  rewrite Hc. split; [intros [[[[-> ->] ->] ->] ->]; done|intros [=-> -> -> -> ->]; tauto].
Qed.

#[export] Instance KnowledgeNode_eq_dec : EqDecision KnowledgeNode.
Proof.
  intros x y. destruct (node_eqb x y) eqn:E.
  - left. by apply node_eqb_eq.
  - right. intros Hxy. apply node_eqb_eq in Hxy. congruence.
Defined.

(** ** The tests of [renderNode] (Sidebar.tsx lines 66 and 68) *)

(** [node.children && node.children.length > 0] *)
Definition hasChildren (n : KnowledgeNode) : bool :=
  match children n with
  | Some (_ :: _) => true
  | _ => false
  end.

(** [!hasChildren] *)
Definition isLeaf (n : KnowledgeNode) : bool := negb (hasChildren n).

Lemma isLeaf_kids (n : KnowledgeNode) : isLeaf n = true <-> kids n = [].
Proof. unfold isLeaf, hasChildren, kids. destruct (children n) as [[|]|]; naive_solver. Qed.

Lemma hasChildren_kids (n : KnowledgeNode) : hasChildren n = true <-> kids n <> [].
Proof. unfold hasChildren, kids. destruct (children n) as [[|]|]; naive_solver. Qed.

Lemma hasChildren_isLeaf (n : KnowledgeNode) : hasChildren n = negb (isLeaf n).
Proof. unfold isLeaf. by destruct (hasChildren n). Qed.

(** ** Nodes and ids of a forest *)

(** The node and all its descendants, in document order. *)
Fixpoint subtree_nodes (n : KnowledgeNode) : list KnowledgeNode :=
  n :: match children n with
       | Some ks =>
           (fix go (ks : list KnowledgeNode) : list KnowledgeNode :=
              match ks with
              | [] => []
              | k :: ks' => subtree_nodes k ++ go ks'
              end) ks
       | None => []
       end.

Definition forest_nodes (f : list KnowledgeNode) : list KnowledgeNode :=
  flat_map subtree_nodes f.

Lemma subtree_nodes_unfold (n : KnowledgeNode) :
  subtree_nodes n = n :: forest_nodes (kids n).
Proof.
  destruct n as [i t ty l [ks|]]; [|done]. simpl. f_equal.
Qed.

Lemma forest_nodes_cons (n : KnowledgeNode) (f : list KnowledgeNode) :
  forest_nodes (n :: f) = n :: forest_nodes (kids n) ++ forest_nodes f.
Proof. unfold forest_nodes at 1. simpl. by rewrite subtree_nodes_unfold. Qed.

Lemma in_forest_nodes (f : list KnowledgeNode) (x : KnowledgeNode) :
  In x (forest_nodes f) <-> exists r, In r f /\ In x (subtree_nodes r).
Proof. unfold forest_nodes. rewrite in_flat_map. naive_solver. Qed.

(** The children of a node of a subtree are in the subtree. *)
Lemma subtree_nodes_kids (r p n : KnowledgeNode) :
  In p (subtree_nodes r) -> In n (kids p) -> In n (subtree_nodes r).
Proof.
  revert p n. induction r as [r IH] using node_ind. intros p n Hp Hn.
  rewrite subtree_nodes_unfold in Hp |- *. destruct Hp as [<-|Hp]; right.
  - apply in_forest_nodes. exists n. split; [done|]. rewrite subtree_nodes_unfold. by left.
  - apply in_forest_nodes in Hp as [k [Hk Hp]]. apply in_forest_nodes. exists k.
    split; [done|]. rewrite List.Forall_forall in IH. by apply (IH k Hk p).
Qed.

Lemma forest_nodes_kids (f : list KnowledgeNode) (p n : KnowledgeNode) :
  In p (forest_nodes f) -> In n (kids p) -> In n (forest_nodes f).
Proof.
  rewrite !in_forest_nodes. intros [r [Hr Hp]] Hn. exists r. split; [done|].
  by apply (subtree_nodes_kids r p n).
Qed.

Lemma forest_nodes_root (f : list KnowledgeNode) (r : KnowledgeNode) :
  In r f -> In r (forest_nodes f).
Proof. intros H. apply in_forest_nodes. exists r. rewrite subtree_nodes_unfold. by split; [|left]. Qed.

Definition forest_ids (f : list KnowledgeNode) : list string := map id (forest_nodes f).

(** The spec's invariant on the tree document: ids are unique across the
    whole tree. *)
Definition ids_unique (f : list KnowledgeNode) : Prop := NoDup (forest_ids f).

#[export] Instance ids_unique_dec (f : list KnowledgeNode) : Decision (ids_unique f).
Proof. unfold ids_unique. apply _. Defined.

#[export] Hint Resolve isLeaf_kids hasChildren_kids : cricket.
