(* ===== verification/Badge.v ===== *)
(** * The badge primitive (ui/badge.tsx)

    [badgeVariants] (lines 6-30) is built with class-variance-authority:
    a base class string and a table from variant names to class
    strings, with [default] as the default variant.  [Badge] (36-40)
    renders a [div] whose class is [cn(badgeVariants({ variant }),
    className)].  The sidebar rows (Sidebar.tsx 139-145) and the
    article header (ContentArea.tsx 369-372) pass the node's level as
    the variant.

    Here: the table and [cva]'s lookup as the library performs it for
    one variant key ([undefined] takes the default, [null] and unknown
    names add no class), and the fact that each level the tree can carry
    names a variant of the table, each with its own colours, so the
    [variant={node.level}] of the callers is well typed. *)

From stdpp Require Import base list strings.
From Stdlib Require Import String.
From S2P Require Import Prelude KnowledgeNode.

Module Badge.

(** The base classes of every badge (line 7). *)
Definition base_classes : string :=
  "inline-flex items-center rounded-full border px-2.5 py-0.5 text-xs font-semibold transition-colors focus:outline-none focus:ring-2 focus:ring-ring focus:ring-offset-2".

(** [variants.variant] (lines 10-24), in the order of the source. *)
Definition variant_table : list (string * string) :=
  [("default", "border-transparent bg-primary-500 text-white hover:bg-primary-700");
   ("secondary", "border-transparent bg-neutral-700 text-neutral-100 hover:bg-neutral-600");
   ("destructive", "border-transparent bg-destructive text-destructive-foreground hover:bg-destructive/80");
   ("outline", "text-foreground");
   ("beginner", "border-transparent bg-semantic-success/20 text-semantic-success");
   ("intermediate", "border-transparent bg-semantic-warning/20 text-semantic-warning");
   ("advanced", "border-transparent bg-semantic-error/20 text-semantic-error")].

(** [defaultVariants.variant] (line 27). *)
Definition default_variant : string := "default".

(** The value of the [variant] prop: absent ([undefined]), [null], or a
    string. *)
Inductive VariantProp := variant_undefined | variant_null | variant_name (v : string).

(** The first entry of an association list with key [k], as a property
    read on the table object. *)
Fixpoint lookup_key (k : string) (t : list (string * string)) : option string :=
  match t with
  | [] => None
  | (k', v) :: t' => if String.eqb k k' then Some v else lookup_key k t'
  end.

(** [badgeVariants({ variant })]: the base classes, then the class of the
    chosen variant, if any. *)
Definition badgeVariants (variant : VariantProp) : list string :=
  let key := match variant with
             | variant_undefined => Some default_variant
             | variant_null => None
             | variant_name v => Some v
             end in
  base_classes :: match key ≫= fun k => lookup_key k variant_table with
                  | Some c => [c]
                  | None => []
                  end.

(** [<Badge variant={...} className={...}>]: the arguments of [cn]. *)
Definition Badge (variant : VariantProp) (className : option string) : list string :=
  badgeVariants variant ++ option_list className.

(** The string a level is in the JSON document and in the [variant] prop. *)
Definition level_key (l : Level) : string :=
  match l with
  | beginner => "beginner"
  | intermediate => "intermediate"
  | advanced => "advanced"
  end.

(** The badge of a sidebar row (Sidebar.tsx 139-142) and of the article
    header (ContentArea.tsx 369). *)
Definition row_badge (l : Level) : list string :=
  Badge (variant_name (level_key l)) (Some "ml-2 text-xs").

Definition article_badge (l : Level) : list string :=
  Badge (variant_name (level_key l)) None.

(** ** Theorems *)

Lemma level_key_inj (l1 l2 : Level) : level_key l1 = level_key l2 -> l1 = l2.
Proof. by destruct l1, l2. Qed.

(** C28: Every level a node can carry is a variant of the badge's table:
    its badge holds the base classes and exactly one variant class,
    distinct levels get distinct variant classes, and none of them is
    the default variant's. *)
Theorem level_variant_typed (l : Level) :
  exists c, lookup_key (level_key l) variant_table = Some c /\
    badgeVariants (variant_name (level_key l)) = [base_classes; c] /\
    lookup_key default_variant variant_table <> Some c /\
    forall l', lookup_key (level_key l') variant_table = Some c -> l' = l.
Proof.
  destruct l; eexists; (split; [reflexivity|]); (split; [reflexivity|]);
    (split; [discriminate|]); intros []; simpl; congruence.
Qed.

End Badge.
