(* ===== verification/Formatter.v ===== *)
(** * The line-based markup formatter ([formatContent], ContentArea.tsx 284-307)

    [formatContent] splits the text on LF and maps every line to one
    element, the first test that matches deciding its kind: ["# "],
    ["## "], ["### "], ["#### "], ["- "], a blank line, a line that
    starts and ends with ["*"], anything else.  Each element is keyed by
    its line index.

    Here: the [Block]s with their class names, [formatLine] and
    [formatContent] as the code writes them, the declarative
    specification [formats_as] (which block each shape of line denotes)
    and the refinement theorem [formatLine_refines] relating the two,
    the one-element-per-line and unique-key theorems, and what a text
    with Windows line endings (CR LF) gives. *)

From stdpp Require Import base list strings.
From Stdlib Require Import String Ascii ZArith Lia.
From S2P Require Import Prelude JsString.

Module Formatter.

(** The elements [formatContent] produces, by their tag and role. *)
Inductive Block :=
  | h1 (text : string)
  | h2 (text : string)
  | h3 (text : string)
  | h4 (text : string)
  | li (text : string)
  | spacer
  | note (text : string)
  | para (text : string).

#[export] Instance Block_eq_dec : EqDecision Block.
Proof. solve_decision. Defined.

(** The [className] of each element, which carries its visual weight. *)
Definition block_class (b : Block) : string :=
  match b with
  | h1 _ => "text-4xl font-bold text-neutral-50 mb-8 leading-tight"
  | h2 _ => "text-3xl font-bold text-neutral-50 mb-6 mt-12 leading-tight"
  | h3 _ => "text-2xl font-semibold text-neutral-100 mb-4 mt-8"
  | h4 _ => "text-xl font-semibold text-neutral-200 mb-3 mt-6"
  | li _ => "text-neutral-200 mb-2 ml-6"
  | spacer => "mb-4"
  | note _ => "text-neutral-400 italic mt-8 text-sm"
  | para _ => "text-neutral-200 mb-4 leading-relaxed"
  end.

(** The body of the [map] callback: one line to one element. *)
Definition formatLine (line : string) : Block :=
  if Js.startsWith line "# " then h1 (Js.substring_from line 2)
  else if Js.startsWith line "## " then h2 (Js.substring_from line 3)
  else if Js.startsWith line "### " then h3 (Js.substring_from line 4)
  else if Js.startsWith line "#### " then h4 (Js.substring_from line 5)
  else if Js.startsWith line "- " then li (Js.substring_from line 2)
  else if String.eqb (Js.trim line) "" then spacer
  else if Js.startsWith line "*" && Js.endsWith line "*"
  then note (Js.substring line 1 (Z.of_nat (String.length line) - 1))
  else para line.

(** [content.split('\n').map((line, index) => ...)]: each element with
    its [key={index}]. *)
Definition formatContent (content : string) : list (nat * Block) :=
  imap (fun index line => (index, formatLine line)) (Js.split LF_char content).

(** ** The specification of one line *)

Definition starts (p l : string) : Prop := exists t, l = p +:+ t.
Definition ends (p l : string) : Prop := exists t, l = t +:+ p.

(** Which element each shape of line denotes.  A heading or list marker
    is stripped; a blank line (every code point white space) is a
    spacer; a line wrapped in stars loses them, except the line ["*"],
    which [substring(1, 0)] leaves as it is; anything else is a
    paragraph of the line itself. *)
Inductive formats_as : string -> Block -> Prop :=
  | fa_h1 t : formats_as ("# " +:+ t) (h1 t)
  | fa_h2 t : formats_as ("## " +:+ t) (h2 t)
  | fa_h3 t : formats_as ("### " +:+ t) (h3 t)
  | fa_h4 t : formats_as ("#### " +:+ t) (h4 t)
  | fa_li t : formats_as ("- " +:+ t) (li t)
  | fa_spacer l : Js.is_blank l = true -> formats_as l spacer
  | fa_note_star : formats_as "*" (note "*")
  | fa_note t : formats_as ("*" +:+ t +:+ "*") (note t)
  | fa_para l :
      ~ starts "# " l -> ~ starts "## " l -> ~ starts "### " l -> ~ starts "#### " l ->
      ~ starts "- " l -> Js.is_blank l = false -> ~ (starts "*" l /\ ends "*" l) ->
      formats_as l (para l).

(** ** Lemmas *)

(** Decide the [startsWith] tests of a line whose first characters are
    known: a matching prefix by [prefix_app], a mismatch by computation. *)
Ltac decide_prefixes :=
  repeat (match goal with
          | |- context [Js.startsWith (?p +:+ ?t) ?p] =>
              rewrite (prefix_app p t : Js.startsWith (p +:+ t) p = true)
          | |- context [Js.startsWith ?s ?p] =>
              replace (Js.startsWith s p) with false by reflexivity
          end; cbv beta iota).

Lemma substring_from_lit (p t : string) (n : Z) :
  n = Z.of_nat (String.length p) -> Js.substring_from (p +:+ t) n = t.
Proof. intros ->. apply Js.substring_from_prefix. Qed.

Ltac strip_prefix := f_equal; apply substring_from_lit; reflexivity.

Lemma formatLine_h1 (t : string) : formatLine ("# " +:+ t) = h1 t.
Proof. unfold formatLine. decide_prefixes. strip_prefix. Qed.

Lemma formatLine_h2 (t : string) : formatLine ("## " +:+ t) = h2 t.
Proof. unfold formatLine. decide_prefixes. strip_prefix. Qed.

Lemma formatLine_h3 (t : string) : formatLine ("### " +:+ t) = h3 t.
Proof. unfold formatLine. decide_prefixes. strip_prefix. Qed.

Lemma formatLine_h4 (t : string) : formatLine ("#### " +:+ t) = h4 t.
Proof. unfold formatLine. decide_prefixes. strip_prefix. Qed.

Lemma formatLine_li (t : string) : formatLine ("- " +:+ t) = li t.
Proof. unfold formatLine. decide_prefixes. strip_prefix. Qed.

(** A line that starts with a byte that opens no white-space code point
    is not blank. *)
Lemma is_blank_head (c : ascii) (s : string) :
  Js.ws_width (String c s) = 0 -> Js.is_blank (String c s) = false.
Proof. intros Hw. unfold Js.is_blank. simpl. by rewrite Hw. Qed.

Lemma not_blank_hash (s : string) : Js.is_blank (String "#" s) = false.
Proof. by apply is_blank_head. Qed.

Lemma not_blank_dash (s : string) : Js.is_blank (String "-" s) = false.
Proof. by apply is_blank_head. Qed.

Lemma not_blank_star (s : string) : Js.is_blank (String "*" s) = false.
Proof. by apply is_blank_head. Qed.

Lemma trim_blank_b (l : string) : String.eqb (Js.trim l) "" = Js.is_blank l.
Proof.
  apply Bool.eq_true_iff_eq. rewrite String.eqb_eq. apply Js.trim_empty_iff.
Qed.

(** The marker tests fail on a line that does not start with the marker. *)
Lemma startsWith_false (l p : string) : ~ starts p l -> Js.startsWith l p = false.
Proof.
  intros H. destruct (Js.startsWith l p) eqn:E; [|done].
  apply Js.startsWith_iff in E. by destruct H.
Qed.

Lemma startsWith_starts (l p : string) : Js.startsWith l p = true -> starts p l.
Proof. apply Js.startsWith_iff. Qed.

Lemma blank_not_starts (l : string) (c : ascii) (p : string) :
  Js.is_blank l = true -> (forall s, Js.ws_width (String c s) = 0) ->
  ~ starts (String c p) l.
Proof. intros Hb Hw [t ->]. by rewrite string_app_cons, is_blank_head in Hb. Qed.

Lemma formatLine_blank (l : string) : Js.is_blank l = true -> formatLine l = spacer.
Proof.
  intros Hb. unfold formatLine.
  rewrite !startsWith_false by (apply blank_not_starts; [done|intros; reflexivity]).
  by rewrite trim_blank_b, Hb.
Qed.

Lemma formatLine_star : formatLine "*" = note "*".
Proof. reflexivity. Qed.

Lemma formatLine_note (t : string) : formatLine ("*" +:+ t +:+ "*") = note t.
Proof.
  unfold formatLine. decide_prefixes.
  rewrite trim_blank_b, (not_blank_star (t +:+ "*") : Js.is_blank ("*" +:+ t +:+ "*") = false).
  cbv beta iota.
  replace (Js.endsWith ("*" +:+ t +:+ "*") "*") with true
    by (symmetry; apply Js.endsWith_iff; exists ("*" +:+ t); by rewrite string_app_assoc).
  cbv beta iota. f_equal. apply (Js.substring_inner "*" t).
Qed.

(** A line wrapped in stars is ["*"] or ["*" + t + "*"]. *)
Lemma starred_shape (l : string) :
  starts "*" l -> ends "*" l -> l = "*" \/ exists t, l = "*" +:+ t +:+ "*".
Proof.
  intros [r ->] [w Hw]. destruct r as [|c r]; [by left|right].
  destruct w as [|d w]; [discriminate|].
  rewrite !string_app_cons, !string_app_nil_l in Hw. injection Hw as -> Hr. exists w.
  rewrite Hr. reflexivity.
Qed.

Lemma formatLine_para (l : string) :
  ~ starts "# " l -> ~ starts "## " l -> ~ starts "### " l -> ~ starts "#### " l ->
  ~ starts "- " l -> Js.is_blank l = false -> ~ (starts "*" l /\ ends "*" l) ->
  formatLine l = para l.
Proof.
  intros H1 H2 H3 H4 H5 Hb Hn. unfold formatLine.
  rewrite !startsWith_false by done. rewrite trim_blank_b, Hb.
  destruct (Js.startsWith l "*") eqn:Es; [|done].
  destruct (Js.endsWith l "*") eqn:Ee; [|done].
  exfalso. apply Hn. split; [by apply startsWith_starts|by apply Js.endsWith_iff].
Qed.

Lemma not_starts_of_false (l p : string) : Js.startsWith l p = false -> ~ starts p l.
Proof. intros E Hs. apply Js.startsWith_iff in Hs. congruence. Qed.

Lemma not_starred (l : string) :
  Js.startsWith l "*" && Js.endsWith l "*" = false -> ~ (starts "*" l /\ ends "*" l).
Proof.
  intros E [Hs He]. apply Js.startsWith_iff in Hs. apply Js.endsWith_iff in He.
  by rewrite Hs, He in E.
Qed.

(** Case on one marker test of a line: when it holds, the line is the
    marker followed by some text and the given branch lemma applies. *)
Ltac marker_case l p branch :=
  let E := fresh "E" in
  let t := fresh "t" in
  destruct (Js.startsWith l p) eqn:E;
  [destruct (startsWith_starts _ _ E) as [t ->]; rewrite branch; constructor|].

(** ** Refinement: [formatLine] implements [formats_as] *)

(** [formatLine] gives each line a block the specification allows... *)
Lemma formatLine_sound (line : string) : formats_as line (formatLine line).
Proof.
  marker_case line "# " formatLine_h1. marker_case line "## " formatLine_h2.
  marker_case line "### " formatLine_h3. marker_case line "#### " formatLine_h4.
  marker_case line "- " formatLine_li.
  destruct (Js.is_blank line) eqn:Eb; [rewrite formatLine_blank by done; by constructor|].
  destruct (Js.startsWith line "*" && Js.endsWith line "*") eqn:En.
  - apply andb_true_iff in En as [Es Ee].
    destruct (starred_shape line) as [->|[t ->]];
      [by apply startsWith_starts|by apply Js.endsWith_iff| |].
    + rewrite formatLine_star. constructor.
    + rewrite formatLine_note. constructor.
  - rewrite formatLine_para by eauto using not_starts_of_false, not_starred.
    constructor; eauto using not_starts_of_false, not_starred.
Qed.

(** ... and only that one. *)
Lemma formatLine_complete (line : string) (b : Block) :
  formats_as line b -> formatLine line = b.
Proof.
  intros []; eauto using formatLine_h1, formatLine_h2, formatLine_h3, formatLine_h4,
    formatLine_li, formatLine_blank, formatLine_star, formatLine_note, formatLine_para.
Qed.

(** C1: Every line denotes exactly the block [formatLine] gives it: the code
    implements the declarative first-match-wins specification of the
    eight line shapes, in both directions. *)
Theorem formatLine_refines (line : string) (b : Block) :
  formatLine line = b <-> formats_as line b.
Proof.
  split; [intros <-; apply formatLine_sound|apply formatLine_complete].
Qed.

(** ** The whole text *)

(** C6: The element at position [i] has key [i] and is the block that the
    [i]-th line of the text denotes under [formats_as]; there is no
    element past the last line. *)
Theorem formatContent_lines (content : string) (i key : nat) (b : Block) :
  formatContent content !! i = Some (key, b) <->
  key = i /\ exists line, Js.split LF_char content !! i = Some line /\ formats_as line b.
Proof.
  unfold formatContent. rewrite list_lookup_imap.
  destruct (Js.split LF_char content !! i) as [line|]; simpl; [|naive_solver].
  split; [intros [= -> <-]; split; [done|]; exists line; split; [done|apply formatLine_sound]|].
  intros [-> [l [[= <-] Hl]]]. by rewrite (formatLine_complete _ _ Hl).
Qed.

(** C11: One element per line and never more: the keys are exactly [0 .. n]
    where [n] is the number of line feeds, so they are distinct, as
    React's [key] requires. *)
Theorem formatContent_keys (content : string) :
  fst <$> formatContent content = seq 0 (S (Js.count_char LF_char content)).
Proof.
  unfold formatContent. rewrite fmap_imap, <- Js.length_split.
  rewrite (imap_ext _ (fun j _ => id j)) by done.
  by rewrite imap_seq_0, list_fmap_id.
Qed.

Corollary formatContent_keys_NoDup (content : string) : NoDup (fst <$> formatContent content).
Proof. rewrite formatContent_keys. apply NoDup_seq. Qed.

(** ** Windows line endings *)

(** The carriage return and the Windows line ending. *)
Definition CR : string := String "013" EmptyString.
Definition CRLF : string := String "013" LF.

Lemma substring_last (l : string) (c : ascii) :
  String.substring (String.length l) 1 (l +:+ String c EmptyString) = String c EmptyString.
Proof. induction l as [|d l IH]; [done|]. rewrite string_app_cons. exact IH. Qed.

Lemma length_app_cr (l : string) : String.length (l +:+ CR) = S (String.length l).
Proof. induction l as [|d l IH]; [done|]. rewrite string_app_cons. simpl. by rewrite IH. Qed.

(** A line ending in a carriage return never ends with ["*"]. *)
Lemma endsWith_cr (l : string) : Js.endsWith (l +:+ CR) "*" = false.
Proof.
  unfold Js.endsWith. rewrite length_app_cr.
  replace (S (String.length l) - String.length "*") with (String.length l) by (simpl; lia).
  unfold CR. rewrite substring_last. reflexivity.
Qed.

Lemma formatLine_cr_not_note (l t : string) : formatLine (l +:+ CR) <> note t.
Proof. unfold formatLine. rewrite endsWith_cr, andb_false_r. repeat case_match; discriminate. Qed.

Lemma split_crlf (x : string) (l : list string) :
  Js.count_char LF_char x = 0 -> l <> [] ->
  Js.split LF_char (Js.join CRLF (x :: l)) = (x +:+ CR) :: Js.split LF_char (Js.join CRLF l).
Proof.
  intros Hx Hl. destruct l as [|y l]; [done|]. unfold Js.join. rewrite Js.concat_cons_cons.
  replace (x +:+ CRLF +:+ String.concat CRLF (y :: l))
    with ((x +:+ CR) +:+ String LF_char (String.concat CRLF (y :: l)))
    by (rewrite string_app_assoc; reflexivity).
  apply Js.split_app_sep. rewrite Js.count_char_app, Hx. reflexivity.
Qed.

(** Splitting a CR LF text on LF gives every line but the last with its
    carriage return. *)
Lemma split_crlf_lookup (lines : list string) (i : nat) (line : string) :
  Forall (fun l => Js.count_char LF_char l = 0) lines ->
  lines !! i = Some line -> S i < List.length lines ->
  Js.split LF_char (Js.join CRLF lines) !! i = Some (line +:+ CR).
Proof.
  revert i. induction lines as [|x l IH]; intros i Hf Hi Hlen; [done|].
  inversion Hf as [|? ? Hx Hl]; subst.
  rewrite split_crlf by (done || (destruct l; simpl in Hlen; [lia|done])).
  destruct i as [|j]; simpl in Hi |- *; [by injection Hi as ->|].
  apply IH; [done|done|simpl in Hlen; lia].
Qed.

(** C22: In a text with Windows line endings every line but the last
    reaches [formatLine] with its carriage return: the element at
    position [i] is that of line [i] followed by CR, and it is never a
    note, since the line no longer ends with ["*"]: a line ["*note*"]
    shows its stars. *)
Theorem formatContent_crlf (lines : list string) (i : nat) (line : string) :
  Forall (fun l => Js.count_char LF_char l = 0) lines ->
  lines !! i = Some line -> S i < List.length lines ->
  formatContent (Js.join CRLF lines) !! i = Some (i, formatLine (line +:+ CR)) /\
  forall t, formatLine (line +:+ CR) <> note t.
Proof.
  intros Hf Hi Hlen. split; [|apply formatLine_cr_not_note].
  unfold formatContent. rewrite list_lookup_imap. by rewrite (split_crlf_lookup lines i line).
Qed.

Lemma formatContent_crlf_witness :
  formatContent (Js.join CRLF ["*note*"; "# T"]) !! 0 = Some (0, para ("*note*" +:+ CR)).
Proof.
  assert (H : formatContent (Js.join CRLF ["*note*"; "# T"]) !! 0 =
              Some (0, formatLine ("*note*" +:+ CR))).
  { apply (formatContent_crlf ["*note*"; "# T"] 0 "*note*"); [repeat constructor|reflexivity|simpl; lia]. }
  rewrite H. vm_compute. reflexivity.
Defined.

End Formatter.
