(* ===== verification/DefaultContent.v ===== *)
(** * The placeholder text and the breadcrumbs of the content panel

    [generateDefaultContent] (ContentArea.tsx 56-153) builds the text
    shown when the content document has no entry for a node or cannot be
    fetched: a long template for nodes of type ['content'], an overview
    with the list of child titles for the other types.  Lines 155-252
    hold [generateMockContent], a verbatim copy that nothing calls.
    [getBreadcrumbs] (254-282) builds the trail above the article.

    Here: the three definitions as the code writes them (the template
    literals copied line for line, each [${...}] an append), the line
    structure of both templates ([generateDefaultContent_content_lines],
    [generateDefaultContent_overview_lines]), the level label of the
    ['content'] template, the heading of the placeholder through
    [formatContent], the equality of the dead copy, and the trail's
    independence of the tree. *)

From stdpp Require Import base list strings.
From Stdlib Require Import String Ascii Lia.
From S2P Require Import Prelude JsString KnowledgeNode Formatter.

Module DefaultContent.

Import Formatter.

(** [node.level === 'beginner' ? '入门级' : node.level === 'intermediate'
    ? '进阶级' : '专业级'] (lines 57-58): a node without a level falls in
    the last case. *)
Definition levelText_of (level : option Level) : string :=
  match level with
  | Some beginner => "入门级"
  | Some intermediate => "进阶级"
  | _ => "专业级"
  end.

(** [node.children ? node.children.map(child => `- **${child.title}**`)
    .join('\n') : '- 暂无子知识点'] (line 139): an empty array is truthy,
    so it gives the empty string, not the "none" bullet. *)
Definition children_list (node : KnowledgeNode) : string :=
  match children node with
  | Some ks => Js.join LF (map (fun child => "- **" +:+ title child +:+ "**") ks)
  | None => "- 暂无子知识点"
  end.

Definition generateDefaultContent (node : KnowledgeNode) : string :=
  let levelText := levelText_of (level node) in
  if bool_decide (type node = type_content) then
"# " +:+ title node +:+ "

## 概述

" +:+ title node +:+ "是板球学习体系中的重要组成部分。作为" +:+ levelText +:+ "内容，本章节将为您详细介绍相关知识点和实践应用。

## 主要内容

### 1. 基础概念

在深入学习" +:+ title node +:+ "之前，我们需要先了解一些基础概念：

- **核心原理**：解释该技术的根本原理和作用机制
- **应用场景**：说明在什么情况下使用这种技术
- **与其他技术的关系**：分析与其他板球技术的关联

### 2. 技术要点

#### 2.1 关键要素

" +:+ title node +:+ "包含以下几个关键要素：

1. **动作要领**：详细说明正确的动作步骤
2. **常见错误**：列举初学者容易犯的错误
3. **练习方法**：提供有效的练习建议

#### 2.2 实践指导

- **训练计划**：制定循序渐进的训练计划
- **评估标准**：建立技能评估的标准
- **进阶路径**：指明进一步提升的方向

### 3. 高级应用

对于已经掌握基础内容的学员，可以进一步学习：

- **战术应用**：在比赛中的实际运用
- **心理因素**：心理准备和心态调整
- **创新发展**：结合个人特点的个性化发展

## 练习建议

1. **基础练习**：从最基础的动作开始练习
2. **进阶训练**：逐步提高难度和复杂度
3. **实战应用**：在模拟比赛环境中应用所学技能

## 注意事项

- 安全第一：在任何练习中都要注意安全
- 循序渐进：不要急于求成，稳扎稳打
- 持续练习：技能的提升需要持续的练习和积累

## 相关链接

- [板球基础知识](/basics)
- [技术训练方法](/training)
- [战术策略分析](/tactics)

---

*本内容为板球学习指南的一部分，旨在帮助学习者系统掌握板球知识和技能。*"
  else
"# " +:+ title node +:+ "

## 概述

" +:+ title node +:+ "是板球学习体系中的重要组成部分。本章节将为您介绍相关内容概览。

## 主要内容

### 包含的知识点

本章节包含以下主要知识点：

" +:+ children_list node +:+ "

## 学习建议

- 从基础概念开始学习
- 结合实际练习加深理解
- 循序渐进掌握技能

---

*点击左侧导航中的具体知识点开始学习*".

(** The dead copy (lines 155-252). *)
Definition generateMockContent (node : KnowledgeNode) : string :=
  let levelText := levelText_of (level node) in
  if bool_decide (type node = type_content) then
"# " +:+ title node +:+ "

## 概述

" +:+ title node +:+ "是板球学习体系中的重要组成部分。作为" +:+ levelText +:+ "内容，本章节将为您详细介绍相关知识点和实践应用。

## 主要内容

### 1. 基础概念

在深入学习" +:+ title node +:+ "之前，我们需要先了解一些基础概念：

- **核心原理**：解释该技术的根本原理和作用机制
- **应用场景**：说明在什么情况下使用这种技术
- **与其他技术的关系**：分析与其他板球技术的关联

### 2. 技术要点

#### 2.1 关键要素

" +:+ title node +:+ "包含以下几个关键要素：

1. **动作要领**：详细说明正确的动作步骤
2. **常见错误**：列举初学者容易犯的错误
3. **练习方法**：提供有效的练习建议

#### 2.2 实践指导

- **训练计划**：制定循序渐进的训练计划
- **评估标准**：建立技能评估的标准
- **进阶路径**：指明进一步提升的方向

### 3. 高级应用

对于已经掌握基础内容的学员，可以进一步学习：

- **战术应用**：在比赛中的实际运用
- **心理因素**：心理准备和心态调整
- **创新发展**：结合个人特点的个性化发展

## 练习建议

1. **基础练习**：从最基础的动作开始练习
2. **进阶训练**：逐步提高难度和复杂度
3. **实战应用**：在模拟比赛环境中应用所学技能

## 注意事项

- 安全第一：在任何练习中都要注意安全
- 循序渐进：不要急于求成，稳扎稳打
- 持续练习：技能的提升需要持续的练习和积累

## 相关链接

- [板球基础知识](/basics)
- [技术训练方法](/training)
- [战术策略分析](/tactics)

---

*本内容为板球学习指南的一部分，旨在帮助学习者系统掌握板球知识和技能。*"
  else
"# " +:+ title node +:+ "

## 概述

" +:+ title node +:+ "是板球学习体系中的重要组成部分。本章节将为您介绍相关内容概览。

## 主要内容

### 包含的知识点

本章节包含以下主要知识点：

" +:+ children_list node +:+ "

## 学习建议

- 从基础概念开始学习
- 结合实际练习加深理解
- 循序渐进掌握技能

---

*点击左侧导航中的具体知识点开始学习*".

(** ** The lines of the templates *)

Definition content_lines (t lv : string) : list string :=
  ["# " +:+ t;
   "";
   "## 概述";
   "";
   t +:+ "是板球学习体系中的重要组成部分。作为" +:+ lv +:+ "内容，本章节将为您详细介绍相关知识点和实践应用。";
   "";
   "## 主要内容";
   "";
   "### 1. 基础概念";
   "";
   "在深入学习" +:+ t +:+ "之前，我们需要先了解一些基础概念：";
   "";
   "- **核心原理**：解释该技术的根本原理和作用机制";
   "- **应用场景**：说明在什么情况下使用这种技术";
   "- **与其他技术的关系**：分析与其他板球技术的关联";
   "";
   "### 2. 技术要点";
   "";
   "#### 2.1 关键要素";
   "";
   t +:+ "包含以下几个关键要素：";
   "";
   "1. **动作要领**：详细说明正确的动作步骤";
   "2. **常见错误**：列举初学者容易犯的错误";
   "3. **练习方法**：提供有效的练习建议";
   "";
   "#### 2.2 实践指导";
   "";
   "- **训练计划**：制定循序渐进的训练计划";
   "- **评估标准**：建立技能评估的标准";
   "- **进阶路径**：指明进一步提升的方向";
   "";
   "### 3. 高级应用";
   "";
   "对于已经掌握基础内容的学员，可以进一步学习：";
   "";
   "- **战术应用**：在比赛中的实际运用";
   "- **心理因素**：心理准备和心态调整";
   "- **创新发展**：结合个人特点的个性化发展";
   "";
   "## 练习建议";
   "";
   "1. **基础练习**：从最基础的动作开始练习";
   "2. **进阶训练**：逐步提高难度和复杂度";
   "3. **实战应用**：在模拟比赛环境中应用所学技能";
   "";
   "## 注意事项";
   "";
   "- 安全第一：在任何练习中都要注意安全";
   "- 循序渐进：不要急于求成，稳扎稳打";
   "- 持续练习：技能的提升需要持续的练习和积累";
   "";
   "## 相关链接";
   "";
   "- [板球基础知识](/basics)";
   "- [技术训练方法](/training)";
   "- [战术策略分析](/tactics)";
   "";
   "---";
   "";
   "*本内容为板球学习指南的一部分，旨在帮助学习者系统掌握板球知识和技能。*"].

Definition overview_head (t : string) : list string :=
  ["# " +:+ t;
   "";
   "## 概述";
   "";
   t +:+ "是板球学习体系中的重要组成部分。本章节将为您介绍相关内容概览。";
   "";
   "## 主要内容";
   "";
   "### 包含的知识点";
   "";
   "本章节包含以下主要知识点：";
   ""].

Definition overview_tail : list string :=
  ["";
   "## 学习建议";
   "";
   "- 从基础概念开始学习";
   "- 结合实际练习加深理解";
   "- 循序渐进掌握技能";
   "";
   "---";
   "";
   "*点击左侧导航中的具体知识点开始学习*"].

Definition bullet (child : KnowledgeNode) : string := "- **" +:+ title child +:+ "**".

(** The lines that [children_list] spans. *)
Definition child_lines (c : option (list KnowledgeNode)) : list string :=
  match c with
  | Some [] => [""]
  | Some ks => map bullet ks
  | None => ["- 暂无子知识点"]
  end.

(** ** Breadcrumbs (lines 254-282) *)

(** [{ title, id }] *)
Record Crumb := mkCrumb { crumb_title : string; crumb_id : string }.

#[export] Instance Crumb_eq_dec : EqDecision Crumb.
Proof. solve_decision. Defined.

(** The "simplified" trail: fixed ancestors chosen by the node's type
    alone, then the node itself. *)
Definition getBreadcrumbs (node : option KnowledgeNode) : list Crumb :=
  match node with
  | None => []
  | Some node =>
      match type node with
      | type_category => [mkCrumb (title node) (id node)]
      | type_section =>
          [mkCrumb "基础知识" "basic-knowledge"; mkCrumb (title node) (id node)]
      | type_subsection =>
          [mkCrumb "基础知识" "basic-knowledge"; mkCrumb "历史与发展" "history-development";
           mkCrumb (title node) (id node)]
      | type_content =>
          [mkCrumb "基础知识" "basic-knowledge"; mkCrumb "历史与发展" "history-development";
           mkCrumb "起源与演变" "origin-evolution"; mkCrumb (title node) (id node)]
      end
  end.

(** The chain of nodes from a root of the forest down to the node with
    the given id, when there is one: what a trail is meant to show. *)
Fixpoint path_in (target : string) (n : KnowledgeNode) : option (list KnowledgeNode) :=
  if bool_decide (id n = target) then Some [n]
  else match children n with
       | Some ks =>
           (fix go (ks : list KnowledgeNode) : option (list KnowledgeNode) :=
              match ks with
              | [] => None
              | k :: ks' =>
                  match path_in target k with
                  | Some p => Some (n :: p)
                  | None => go ks'
                  end
              end) ks
       | None => None
       end.

Definition path_to (f : list KnowledgeNode) (target : string) : option (list KnowledgeNode) :=
  List.fold_right (fun n acc => match path_in target n with Some p => Some p | None => acc end) None f.

(** ** Lemmas *)

Lemma levelText_no_LF (l : option Level) : Js.count_char LF_char (levelText_of l) = 0.
Proof. by destruct l as [[]|]. Qed.

(** The content template is its lines joined by LF. *)
Lemma generateDefaultContent_content_join (node : KnowledgeNode) :
  type node = type_content ->
  generateDefaultContent node = Js.join LF (content_lines (title node) (levelText_of (level node))).
Proof.
  intros H. unfold generateDefaultContent. rewrite bool_decide_eq_true_2 by done.
  unfold Js.join, content_lines. simpl String.concat. rewrite !string_app_assoc. reflexivity.
Qed.

(** The overview template is its head lines, the child list and its tail
    lines joined by LF. *)
Lemma generateDefaultContent_overview_join (node : KnowledgeNode) :
  type node <> type_content ->
  generateDefaultContent node =
    Js.join LF (overview_head (title node) ++ [children_list node] ++ overview_tail).
Proof.
  intros H. unfold generateDefaultContent. rewrite bool_decide_eq_false_2 by done.
  unfold Js.join, overview_head, overview_tail. simpl String.concat. rewrite !string_app_assoc. reflexivity.
Qed.

Lemma children_list_lines (node : KnowledgeNode) :
  children_list node = Js.join LF (child_lines (children node)).
Proof. unfold children_list. by destruct (children node) as [[|k ks]|]. Qed.

Lemma join_flatten (sep : string) (l1 m l2 : list string) :
  l1 <> [] -> m <> [] -> l2 <> [] ->
  Js.join sep (l1 ++ [Js.join sep m] ++ l2) = Js.join sep (l1 ++ m ++ l2).
Proof.
  intros H1 Hm H2.
  by rewrite !Js.join_app by (try done; by destruct m).
Qed.

Lemma child_lines_not_nil (c : option (list KnowledgeNode)) : child_lines c <> [].
Proof. by destruct c as [[|k ks]|]. Qed.

Lemma child_lines_no_LF (c : option (list KnowledgeNode)) :
  Forall (fun k => Js.count_char LF_char (title k) = 0) (match c with Some ks => ks | None => [] end) ->
  Forall (fun line => Js.count_char LF_char line = 0) (child_lines c).
Proof.
  destruct c as [[|k ks]|]; simpl; intros H; [by repeat constructor| |by repeat constructor].
  change (bullet k :: map bullet ks) with (map bullet (k :: ks)).
  apply List.Forall_map. eapply Forall_impl; [exact H|]. intros x Hx.
  unfold bullet. rewrite !Js.count_char_app, Hx. reflexivity.
Qed.

(** Each line of a template is free of line feeds when the title is. *)
Ltac lines_no_LF Ht :=
  repeat (apply List.Forall_cons;
          [rewrite ?Js.count_char_app, ?Ht, ?levelText_no_LF; reflexivity|]);
  apply List.Forall_nil.

(** The placeholder of a ['content'] node, read line by line, is the 61
    lines of the template with the title and the level text in place
    (when the title holds no line feed). *)
Lemma generateDefaultContent_content_lines (node : KnowledgeNode) :
  type node = type_content -> Js.count_char LF_char (title node) = 0 ->
  Js.split LF_char (generateDefaultContent node) =
    content_lines (title node) (levelText_of (level node)).
Proof.
  intros Hty Ht. rewrite generateDefaultContent_content_join by done.
  apply Js.split_join; [discriminate|]. unfold content_lines. lines_no_LF Ht.
Qed.

(** C15: The level of a ['content'] node is named on line 4 of its
    placeholder: 入门级 for a beginner node, 进阶级 for an intermediate
    one, and 专业级 for an advanced node and for a node without a level. *)
Theorem generateDefaultContent_level_line (node : KnowledgeNode) :
  type node = type_content -> Js.count_char LF_char (title node) = 0 ->
  Js.split LF_char (generateDefaultContent node) !! 4 =
    Some (title node +:+ "是板球学习体系中的重要组成部分。作为" +:+
          match level node with
          | Some beginner => "入门级"
          | Some intermediate => "进阶级"
          | Some advanced | None => "专业级"
          end +:+ "内容，本章节将为您详细介绍相关知识点和实践应用。").
Proof.
  intros Hty Ht. rewrite generateDefaultContent_content_lines by done.
  by destruct (level node) as [[| |]|].
Qed.

(** C16: The placeholder of any other node, read line by line, is the head of
    the overview, the child lines and the tail; the child lines are one
    ["- **title**"] line per child, the "none" bullet when [children] is
    absent, and a single empty line when it is an empty array. *)
Theorem generateDefaultContent_overview_lines (node : KnowledgeNode) :
  type node <> type_content -> Js.count_char LF_char (title node) = 0 ->
  Forall (fun k => Js.count_char LF_char (title k) = 0) (kids node) ->
  Js.split LF_char (generateDefaultContent node) =
    overview_head (title node) ++ child_lines (children node) ++ overview_tail.
Proof.
  intros Hty Ht Hk. rewrite generateDefaultContent_overview_join, children_list_lines by done.
  rewrite join_flatten by (discriminate || apply child_lines_not_nil).
  apply Js.split_join; [discriminate|].
  rewrite !Forall_app. split; [unfold overview_head; lines_no_LF Ht|].
  split; [by apply child_lines_no_LF|unfold overview_tail; lines_no_LF Ht].
Qed.

(** C17: Whatever the node's type, the placeholder's first element is a level-1
    heading holding the node's title verbatim (when the title holds no
    line feed). *)
Theorem generateDefaultContent_heading (node : KnowledgeNode) :
  Js.count_char LF_char (title node) = 0 ->
  formatContent (generateDefaultContent node) !! 0 = Some (0, h1 (title node)).
Proof.
  intros Ht.
  assert (Hsplit : exists rest,
    generateDefaultContent node = ("# " +:+ title node) +:+ String LF_char rest).
  { destruct (decide (type node = type_content)).
    - rewrite generateDefaultContent_content_join by done. eexists. reflexivity.
    - rewrite generateDefaultContent_overview_join by done. eexists. reflexivity. }
  destruct Hsplit as [rest ->]. unfold formatContent.
  rewrite (Js.split_app_sep LF_char ("# " +:+ title node) rest)
    by (rewrite Js.count_char_app, Ht; reflexivity).
  simpl. by rewrite formatLine_h1.
Qed.

(** The spec's test node: its placeholder opens with the heading
    "Bowling" and line 4 carries the beginner label 入门级. *)
Definition bowling : KnowledgeNode := mkNode "x" "Bowling" type_content (Some beginner) None.

Lemma generateDefaultContent_heading_witness :
  Js.count_char LF_char (title bowling) = 0 /\
  formatContent (generateDefaultContent bowling) !! 0 = Some (0, h1 "Bowling").
Proof. split; [reflexivity|]. apply (generateDefaultContent_heading bowling). reflexivity. Defined.

Lemma generateDefaultContent_level_line_witness :
  Js.split LF_char (generateDefaultContent (mkNode "y" "Batting" type_content None None)) !! 4 =
    Some "Batting是板球学习体系中的重要组成部分。作为专业级内容，本章节将为您详细介绍相关知识点和实践应用。".
Proof. apply (generateDefaultContent_level_line (mkNode "y" "Batting" type_content None None)); reflexivity. Defined.
Lemma generateDefaultContent_overview_lines_witness :
  Js.split LF_char (generateDefaultContent (mkNode "basics" "基础知识" type_category None (Some [bowling]))) =
    overview_head "基础知识" ++ ["- **Bowling**"] ++ overview_tail.
Proof.
  apply (generateDefaultContent_overview_lines (mkNode "basics" "基础知识" type_category None (Some [bowling])));
    [discriminate|reflexivity|repeat constructor].
Defined.

(** C25: The trail ignores the tree: any two nodes of the same type get the
    same ancestors, so a node's trail depends on its type only (and its
    own title and id in the last crumb). *)
Theorem getBreadcrumbs_same_ancestors (n1 n2 : KnowledgeNode) :
  type n1 = type n2 ->
  removelast (getBreadcrumbs (Some n1)) = removelast (getBreadcrumbs (Some n2)) /\
  last (getBreadcrumbs (Some n1)) = Some (mkCrumb (title n1) (id n1)).
Proof. intros H. simpl. rewrite H. by destruct (type n2). Qed.

(** A tree where a content node lives under 技术技能 (technique), not
    under 基础知识: its trail still names 基础知识 > 历史与发展 > 起源与演变. *)
Definition straight_drive : KnowledgeNode :=
  mkNode "straight-drive" "直线击球" type_content (Some beginner) None.

Definition technique_tree : list KnowledgeNode :=
  [mkNode "technique" "技术技能" type_category None
     (Some [mkNode "batting" "击球技术" type_section None
       (Some [mkNode "drives" "驱动击球" type_subsection None (Some [straight_drive])])])].

Lemma getBreadcrumbs_same_ancestors_witness :
  type straight_drive = type bowling /\
  removelast (getBreadcrumbs (Some straight_drive)) = removelast (getBreadcrumbs (Some bowling)).
Proof.
  split; [reflexivity|]. apply (proj1 (getBreadcrumbs_same_ancestors straight_drive bowling eq_refl)).
Defined.

Lemma getBreadcrumbs_not_path :
  ids_unique technique_tree /\
  option_map (map id) (path_to technique_tree (id straight_drive)) =
    Some ["technique"; "batting"; "drives"; "straight-drive"] /\
  map crumb_id (getBreadcrumbs (Some straight_drive)) =
    ["basic-knowledge"; "history-development"; "origin-evolution"; "straight-drive"].
Proof.
  split; [apply (@bool_decide_eq_true_1 _ (ids_unique_dec technique_tree)); vm_compute; reflexivity|].
  split; vm_compute; reflexivity.
Qed.

(** [generateMockContent], the unused second copy of the generator, is
    the same function as [generateDefaultContent]: both templates agree
    byte for byte on every node. *)
Lemma generateMockContent_same (node : KnowledgeNode) :
  generateMockContent node = generateDefaultContent node.
Proof. reflexivity. Qed.

End DefaultContent.
