(* ===== verification/Sidebar.v ===== *)
(** * The sidebar: the knowledge tree store and its renderer (Sidebar.tsx)

    State (lines 25-27): the tree ([undefined] is possible, see
    [loadKnowledgeTree]), the set of expanded ids, the loading flag.
    Operations: [loadKnowledgeTree] after its [await]s (29-46),
    [toggleExpanded] (48-56), [handleNodeClick] (58-62), the row's
    [onClick] (115-122), and the view: [renderNode] (64-157) with
    [getNodeIcon] and [getNodeStyles], the skeleton while loading and
    the list of roots (159-180).

    The parent's callback [onNodeSelect] is not run here: a click
    returns the calls it makes, [(callback, node)], and the parent
    ([Layout]) interprets them; so "the callback is invoked exactly once"
    is a statement about that list.  The rendered tree is a rose tree of
    rows whose children are present exactly when the code mounts them. *)

From stdpp Require Import base list strings gmap sets.
From Stdlib Require Import String.
From S2P Require Import Prelude KnowledgeNode.

Module Sidebar.

(** ** State *)

(** The outcome of [fetch('/data/knowledge-tree.json')] and
    [response.json()]: one of them threw (network error, a body that is
    not JSON, a JSON [null]), or an object came back whose [categories]
    field is an array of nodes or is absent. *)
Inductive TreeFetch :=
  | tree_fetch_failed
  | tree_fetched (categories : option (list KnowledgeNode)).

Record SidebarState := mkSidebarState {
  knowledgeTree : option (list KnowledgeNode);
  expandedNodes : gset string;
  loading : bool
}.

(** [useState<KnowledgeNode[]>([])], [useState(new Set())],
    [useState(true)]. *)
Definition initial : SidebarState := mkSidebarState (Some []) ∅ true.

(** The rest of [loadKnowledgeTree] once the fetch has settled.  On
    success the tree is stored and the roots are expanded.  Without a
    [categories] field, [setKnowledgeTree(undefined)] has already run
    when [data.categories.map] throws; the [catch] only logs.  The
    [finally] clears the loading flag in every case. *)
Definition loadKnowledgeTree (r : TreeFetch) (st : SidebarState) : SidebarState :=
  match r with
  | tree_fetch_failed => mkSidebarState (knowledgeTree st) (expandedNodes st) false
  | tree_fetched None => mkSidebarState None (expandedNodes st) false
  | tree_fetched (Some cats) =>
      mkSidebarState (Some cats) (list_to_set (map id cats)) false
  end.

(** [toggleExpanded]: a copy of the set with the id removed when present
    and added when absent. *)
Definition toggle_set (nodeId : string) (s : gset string) : gset string :=
  if bool_decide (nodeId ∈ s) then s ∖ {[nodeId]} else {[nodeId]} ∪ s.

Definition toggleExpanded (nodeId : string) (st : SidebarState) : SidebarState :=
  mkSidebarState (knowledgeTree st) (toggle_set nodeId (expandedNodes st)) (loading st).

(** ** Props and the click handlers *)

Section Props.

(** The parent's callbacks, opaque to the sidebar. *)
Context {Callback : Type}.

Record SidebarProps := mkSidebarProps {
  onNodeSelect : option Callback;
  selectedNodeId : option string
}.

(** [handleNodeClick]: the calls made, [onNodeSelect(node)] when the
    prop is given. *)
Definition handleNodeClick (props : SidebarProps) (node : KnowledgeNode)
    : list (Callback * KnowledgeNode) :=
  match onNodeSelect props with
  | Some cb => [(cb, node)]
  | None => []
  end.

(** The row's [onClick]: toggle when the node has children, then select
    when it is a leaf. *)
Definition onRowClick (props : SidebarProps) (node : KnowledgeNode) (st : SidebarState)
    : SidebarState * list (Callback * KnowledgeNode) :=
  let st' := if hasChildren node then toggleExpanded (id node) st else st in
  let calls := if isLeaf node then handleNodeClick props node else [] in
  (st', calls).

End Props.

Arguments SidebarProps : clear implicits.

(** ** The view *)

(** [getNodeIcon]: the [BookOpen] icon or a dot, by its class names. *)
Inductive NodeIcon := BookOpen (className : string) | Dot (className : string).

Definition getNodeIcon (ty : NodeType) : NodeIcon :=
  match ty with
  | type_category => BookOpen "w-5 h-5 text-primary-500"
  | type_section => Dot "w-4 h-4 rounded-full bg-primary-500"
  | type_subsection => Dot "w-3 h-3 rounded-full bg-primary-300"
  | type_content => Dot "w-2 h-2 rounded-full bg-neutral-300"
  end.

Definition baseStyles : string :=
  "flex items-center w-full px-3 py-2 text-left transition-colors duration-200 rounded-md".

Definition selectedStyles : string :=
  "bg-primary-900/15 border-l-3 border-primary-500 text-primary-500 font-medium".

(** [getNodeStyles]: the arguments given to [cn] that are not [false];
    only a ['content'] row looks at [isSelected]. *)
Definition getNodeStyles (ty : NodeType) (isSelected : bool) : list string :=
  match ty with
  | type_category =>
      [baseStyles; "text-base font-semibold text-neutral-100 hover:bg-neutral-800 cursor-pointer"]
  | type_section =>
      [baseStyles; "text-sm font-medium text-neutral-200 hover:bg-neutral-800 cursor-pointer"]
  | type_subsection =>
      [baseStyles; "text-sm text-neutral-200 hover:bg-neutral-800 cursor-pointer ml-4"]
  | type_content =>
      [baseStyles; "text-sm text-neutral-300 hover:bg-neutral-800 cursor-pointer ml-8"]
      ++ (if isSelected then [selectedStyles] else [])
  end.

(** The badge: its variant is the level, its text 入门 / 进阶 / 高级. *)
Definition badge (level : option Level) : option (Level * string) :=
  match level with
  | Some l =>
      Some (l, match l with beginner => "入门" | intermediate => "进阶" | advanced => "高级" end)
  | None => None
  end.

(** One row: the node it shows, its depth, the chevron ([Some
    isExpanded] when the node has children), icon, classes, badge. *)
Record Row := mkRow {
  row_node : KnowledgeNode;
  row_depth : nat;
  row_chevron : option bool;
  row_icon : NodeIcon;
  row_styles : list string;
  row_badge : option (Level * string)
}.

(** What [renderNode] mounts: the row and, when [hasChildren &&
    isExpanded], the [mt-1] block with the children rendered in order. *)
#[warnings="-register-all"]
Inductive Rendered := RNode (row : Row) (children_block : option (list Rendered)).

Fixpoint renderNode (expanded : gset string) (selectedNodeId : option string)
    (depth : nat) (node : KnowledgeNode) : Rendered :=
  let isExpanded := bool_decide (id node ∈ expanded) in
  let isSelected := bool_decide (selectedNodeId = Some (id node)) in
  let row := mkRow node depth (if hasChildren node then Some isExpanded else None)
               (getNodeIcon (type node)) (getNodeStyles (type node) isSelected)
               (badge (level node)) in
  RNode row
    (if hasChildren node && isExpanded then
       Some match children node with
            | Some ks =>
                (fix go (ks : list KnowledgeNode) : list Rendered :=
                   match ks with
                   | [] => []
                   | k :: ks' => renderNode expanded selectedNodeId (S depth) k :: go ks'
                   end) ks
            | None => []
            end
     else None).

(** The sidebar's output: eight pulsing placeholders while loading, the
    heading and the roots once loaded, or a [TypeError] thrown by
    [knowledgeTree.map] when the tree is [undefined]. *)
Inductive SidebarView :=
  | sidebar_skeleton (rows : nat)
  | sidebar_tree (heading : string) (roots : list Rendered)
  | sidebar_crash.

Definition render {Callback} (props : SidebarProps Callback) (st : SidebarState) : SidebarView :=
  if loading st then sidebar_skeleton 8
  else match knowledgeTree st with
       | Some t => sidebar_tree "板球知识体系" (map (renderNode (expandedNodes st) (selectedNodeId props) 0) t)
       | None => sidebar_crash
       end.

(** The rows on screen, in order. *)
Fixpoint rendered_rows (r : Rendered) : list Row :=
  match r with
  | RNode row None => [row]
  | RNode row (Some rs) =>
      row :: (fix go (rs : list Rendered) : list Row :=
                match rs with
                | [] => []
                | r :: rs' => rendered_rows r ++ go rs'
                end) rs
  end.

Definition view_rows (v : SidebarView) : list Row :=
  match v with
  | sidebar_tree _ roots => flat_map rendered_rows roots
  | _ => []
  end.

(** ** Specification of what is on screen *)

(** A node is shown when it is a root, or a child of a shown node whose
    id is in the expanded set. *)
Inductive shown (expanded : gset string) (roots : list KnowledgeNode) : KnowledgeNode -> Prop :=
  | shown_root n : In n roots -> shown expanded roots n
  | shown_child p n : shown expanded roots p -> id p ∈ expanded -> In n (kids p) ->
      shown expanded roots n.

(** ** Lemmas *)

Lemma toggle_set_spec (i x : string) (s : gset string) :
  x ∈ toggle_set i s <-> (x = i /\ i ∉ s) \/ (x <> i /\ x ∈ s).
Proof. unfold toggle_set. case_bool_decide; set_solver. Qed.

Lemma renderNode_unfold (expanded : gset string) (sel : option string) (d : nat)
    (n : KnowledgeNode) :
  renderNode expanded sel d n =
    RNode (mkRow n d (if hasChildren n then Some (bool_decide (id n ∈ expanded)) else None)
             (getNodeIcon (type n)) (getNodeStyles (type n) (bool_decide (sel = Some (id n))))
             (badge (level n)))
      (if hasChildren n && bool_decide (id n ∈ expanded)
       then Some (map (renderNode expanded sel (S d)) (kids n)) else None).
Proof. destruct n as [i t ty l [ks|]]; reflexivity. Qed.

Lemma rendered_rows_some (row : Row) (rs : list Rendered) :
  rendered_rows (RNode row (Some rs)) = row :: flat_map rendered_rows rs.
Proof. reflexivity. Qed.

(** The nodes of the rows of a rendered subtree, in order. *)
Definition rendered_nodes (r : Rendered) : list KnowledgeNode := map row_node (rendered_rows r).

Lemma rendered_nodes_map (h : KnowledgeNode -> Rendered) (l : list KnowledgeNode) :
  map row_node (flat_map rendered_rows (map h l)) = flat_map (fun k => rendered_nodes (h k)) l.
Proof. induction l as [|k l IH]; [done|]. simpl. by rewrite map_app, IH. Qed.

Lemma renderNode_nodes_eq (expanded : gset string) (sel : option string) (d : nat)
    (n : KnowledgeNode) :
  rendered_nodes (renderNode expanded sel d n) =
    n :: (if hasChildren n && bool_decide (id n ∈ expanded)
          then flat_map (fun k => rendered_nodes (renderNode expanded sel (S d) k)) (kids n)
          else []).
Proof.
  unfold rendered_nodes at 1. rewrite renderNode_unfold.
  destruct (hasChildren n && bool_decide (id n ∈ expanded)); [|done].
  rewrite rendered_rows_some. simpl. by rewrite rendered_nodes_map.
Qed.

(** A node is among the rows of a rendered subtree when it is the root
    of the subtree or among the rows of a child of an expanded root. *)
Lemma renderNode_nodes (expanded : gset string) (sel : option string) (d : nat)
    (n x : KnowledgeNode) :
  In x (rendered_nodes (renderNode expanded sel d n)) <->
  x = n \/ (id n ∈ expanded /\
            exists k, In k (kids n) /\ In x (rendered_nodes (renderNode expanded sel (S d) k))).
Proof.
  rewrite renderNode_nodes_eq. simpl.
  destruct (hasChildren n) eqn:Hc; destruct (bool_decide (id n ∈ expanded)) eqn:He;
    bool_decide_hyps; simpl.
  - rewrite in_flat_map. naive_solver.
  - naive_solver.
  - assert (kids n = []) as Hk by (apply isLeaf_kids; unfold isLeaf; by rewrite Hc).
    rewrite Hk. naive_solver.
  - naive_solver.
Qed.

Lemma rows_shown (expanded : gset string) (roots : list KnowledgeNode)
    (sel : option string) (r : KnowledgeNode) :
  forall d n, shown expanded roots r ->
  In n (rendered_nodes (renderNode expanded sel d r)) -> shown expanded roots n.
Proof.
  induction r as [r IH] using node_ind. intros d n Hr Hn.
  apply renderNode_nodes in Hn as [->|[He [k [Hk Hn]]]]; [done|].
  rewrite List.Forall_forall in IH. apply (IH k Hk (S d)); [|done].
  by apply (shown_child _ _ r k).
Qed.

Lemma rows_extend (expanded : gset string) (sel : option string) (r : KnowledgeNode) :
  forall d p n, In p (rendered_nodes (renderNode expanded sel d r)) ->
  id p ∈ expanded -> In n (kids p) -> In n (rendered_nodes (renderNode expanded sel d r)).
Proof.
  induction r as [r IH] using node_ind. intros d p n Hp He Hn.
  apply renderNode_nodes in Hp as [->|[Hr [k [Hk Hp]]]]; apply renderNode_nodes; right.
  - split; [done|]. exists n. split; [done|]. apply renderNode_nodes. by left.
  - split; [done|]. exists k. split; [done|].
    rewrite List.Forall_forall in IH. by apply (IH k Hk (S d) p).
Qed.

(** C9: Once the tree is loaded, a node is on screen exactly when it is a
    root or a child of an on-screen node whose id is expanded: collapsed
    nodes mount none of their descendants. *)
Theorem render_rows_shown {Callback} (props : SidebarProps Callback) (st : SidebarState)
    (t : list KnowledgeNode) (n : KnowledgeNode) :
  loading st = false -> knowledgeTree st = Some t ->
  In n (map row_node (view_rows (render props st))) <-> shown (expandedNodes st) t n.
Proof.
  intros Hl Ht. unfold render. rewrite Hl, Ht. simpl. rewrite rendered_nodes_map, in_flat_map.
  split.
  - intros [r [Hr Hn]]. eapply rows_shown; [|exact Hn]. by constructor.
  - induction 1 as [n Hn|p n Hp [r [Hr Hpr]] He Hk].
    + exists n. split; [done|]. apply renderNode_nodes. by left.
    + exists r. split; [done|]. by eapply rows_extend.
Qed.

Lemma shown_in_forest (expanded : gset string) (t : list KnowledgeNode) (n : KnowledgeNode) :
  shown expanded t n -> In n (forest_nodes t).
Proof.
  induction 1 as [n Hn|p n _ IH _ Hk]; [by apply forest_nodes_root|].
  by apply (forest_nodes_kids t p n).
Qed.

(** A node on screen is a node of the loaded tree. *)
Lemma visible_in_tree {Callback} (props : SidebarProps Callback) (st : SidebarState)
    (n : KnowledgeNode) :
  In n (map row_node (view_rows (render props st))) ->
  loading st = false /\ exists t, knowledgeTree st = Some t /\ In n (forest_nodes t).
Proof.
  intros H. destruct (loading st) eqn:Hl; [unfold render in H; by rewrite Hl in H|].
  destruct (knowledgeTree st) as [t|] eqn:Ht; [|unfold render in H; by rewrite Hl, Ht in H].
  split; [done|]. exists t. split; [done|].
  unfold render in H. rewrite Hl, Ht in H. simpl in H.
  rewrite rendered_nodes_map, in_flat_map in H. destruct H as [r [Hr Hn]].
  eapply shown_in_forest, rows_shown; [|exact Hn]. by constructor.
Qed.

(** ** The click *)

(** C2: Clicking a leaf row with an [onNodeSelect] callback calls it exactly
    once, with that node, and leaves the expanded set untouched. *)
Theorem onRowClick_leaf {Callback} (props : SidebarProps Callback) (cb : Callback)
    (node : KnowledgeNode) (st : SidebarState) :
  isLeaf node = true -> onNodeSelect props = Some cb ->
  onRowClick props node st = (st, [(cb, node)]).
Proof.
  intros Hl Hcb. unfold onRowClick, handleNodeClick.
  rewrite hasChildren_isLeaf, Hl, Hcb. reflexivity.
Qed.

(** C3: Clicking a row with children makes no call and flips the membership
    of that node's id in the expanded set, every other id keeping its
    membership. *)
Theorem onRowClick_parent {Callback} (props : SidebarProps Callback)
    (node : KnowledgeNode) (st : SidebarState) :
  hasChildren node = true ->
  snd (onRowClick props node st) = [] /\
  knowledgeTree (fst (onRowClick props node st)) = knowledgeTree st /\
  forall x, x ∈ expandedNodes (fst (onRowClick props node st)) <->
            (if decide (x = id node) then x ∉ expandedNodes st else x ∈ expandedNodes st).
Proof.
  intros Hc. unfold onRowClick. rewrite Hc, hasChildren_isLeaf in *.
  apply negb_true_iff in Hc. rewrite Hc. simpl.
  split; [done|split; [done|]]. intros x. rewrite toggle_set_spec.
  case_decide; naive_solver.
Qed.

(** ** Loading the tree *)

(** C18: When the document has a [categories] array, the sidebar stores it,
    stops loading, and the expanded set is exactly the ids of the roots. *)
Theorem loadKnowledgeTree_success (cats : list KnowledgeNode) (st : SidebarState) :
  let st' := loadKnowledgeTree (tree_fetched (Some cats)) st in
  knowledgeTree st' = Some cats /\ loading st' = false /\
  forall x, x ∈ expandedNodes st' <-> exists r, In r cats /\ id r = x.
Proof.
  simpl. split; [done|split; [done|]]. intros x.
  rewrite elem_of_list_to_set, list_elem_of_In, in_map_iff. naive_solver.
Qed.

(** C19: A failed fetch is not retried and leaves the tree as it was: from the
    initial state the sidebar shows its heading and no row; an empty
    [categories] array shows no row either, and neither crashes. *)
Theorem loadKnowledgeTree_empty {Callback} (props : SidebarProps Callback) (st : SidebarState) :
  render props (loadKnowledgeTree tree_fetch_failed initial) = sidebar_tree "板球知识体系" [] /\
  render props (loadKnowledgeTree (tree_fetched (Some [])) st) = sidebar_tree "板球知识体系" [].
Proof. split; reflexivity. Qed.

(** C20: A document without a [categories] field leaves the tree [undefined]
    after loading, and rendering then throws: the sidebar crashes instead
    of showing an empty tree. *)
Theorem loadKnowledgeTree_no_categories {Callback} (props : SidebarProps Callback)
    (st : SidebarState) :
  knowledgeTree (loadKnowledgeTree (tree_fetched None) st) = None /\
  render props (loadKnowledgeTree (tree_fetched None) st) = sidebar_crash.
Proof. split; reflexivity. Qed.

(** ** Highlighting *)

(** C24: A row carries the selected styling exactly when its node is of type
    ['content'] and its id is the selected id: a selected leaf of another
    type is not highlighted. *)
Theorem renderNode_highlight (expanded : gset string) (sel : option string) (d : nat)
    (n : KnowledgeNode) :
  let 'RNode row _ := renderNode expanded sel d n in
  selectedStyles ∈ row_styles row <-> type n = type_content /\ sel = Some (id n).
Proof.
  rewrite renderNode_unfold. simpl.
  destruct (type n); simpl; try case_bool_decide; rewrite ?list_elem_of_In; simpl;
    unfold selectedStyles, baseStyles; intuition (try discriminate; try congruence).
Qed.

(** A click never changes the tree or the loading flag. *)
Lemma onRowClick_tree {Callback} (props : SidebarProps Callback) (node : KnowledgeNode)
    (st : SidebarState) :
  knowledgeTree (fst (onRowClick props node st)) = knowledgeTree st /\
  loading (fst (onRowClick props node st)) = loading st.
Proof. unfold onRowClick. by destruct (hasChildren node). Qed.

(** ** The interface to the parent *)

(** What a parent promises the sidebar about its [onNodeSelect]
    callbacks: delivering a call for a node makes that node the parent's
    selection. *)
Class SelectionSink (Callback Parent : Type) := {
  deliver : Callback -> KnowledgeNode -> Parent -> Parent;
  sink_selection : Parent -> option KnowledgeNode;
  deliver_selects : forall cb node p, sink_selection (deliver cb node p) = Some node
}.

(** The parent after the calls of one click, in the order they are made. *)
Definition run_calls {Callback Parent} `{!SelectionSink Callback Parent}
    (calls : list (Callback * KnowledgeNode)) (p : Parent) : Parent :=
  fold_left (fun p c => deliver c.1 c.2 p) calls p.

(** ** Witnesses *)

Definition sample_leaf : KnowledgeNode := mkNode "rules" "规则" type_content (Some beginner) None.
Definition sample_root : KnowledgeNode :=
  mkNode "basics" "基础知识" type_category None (Some [sample_leaf]).
Definition sample_props : SidebarProps unit := mkSidebarProps (Some tt) (Some "rules").
Definition sample_state : SidebarState := loadKnowledgeTree (tree_fetched (Some [sample_root])) initial.

Lemma onRowClick_leaf_witness :
  isLeaf sample_leaf = true /\ onNodeSelect sample_props = Some tt /\
  onRowClick sample_props sample_leaf sample_state = (sample_state, [(tt, sample_leaf)]).
Proof. split; [done|split; [done|]]. by apply onRowClick_leaf. Defined.

Lemma onRowClick_parent_witness :
  hasChildren sample_root = true /\ snd (onRowClick sample_props sample_root sample_state) = [].
Proof. split; [done|]. apply (onRowClick_parent sample_props sample_root sample_state). done. Defined.

Lemma render_rows_shown_witness :
  loading sample_state = false /\ knowledgeTree sample_state = Some [sample_root] /\
  (In sample_leaf (map row_node (view_rows (render sample_props sample_state))) <->
   shown (expandedNodes sample_state) [sample_root] sample_leaf).
Proof. split; [done|split; [done|]]. by apply render_rows_shown. Defined.

End Sidebar.
