(* ===== verification/Traversal.v ===== *)
(** * The sidebar's rendering order as an explicit stack traversal

    [renderNode] (Sidebar.tsx 64-157) renders the tree by recursion: a
    node's row, then, when it has children and is expanded, the rows of
    its children in order; [knowledgeTree.map] (line 176) does so for the
    roots.  The spec (section 9) allows the same rendering "via explicit
    recursion or an explicit stack-based traversal".

    Here: the stack-based traversal as a reference definition (pop a
    node, emit it, push its open children in front of the rest), with
    fuel, and the theorem that the code's rows are, node for node and in
    order, what the traversal emits when given as fuel the number of
    nodes of the tree; the helper [shown_order] is the plain recursive
    preorder between the two.  Also: the rows on screen are a sublist of
    the tree's nodes, so with the unique ids the spec requires at most
    one row carries the selected styling, and [two_highlights] shows two
    when two leaves share an id. *)

From stdpp Require Import base list strings gmap sets.
From Stdlib Require Import String Lia.
From S2P Require Import Prelude KnowledgeNode Sidebar.

Module Traversal.

Import Sidebar.

(** The children [renderNode] mounts under [n]. *)
Definition open_kids (expanded : gset string) (n : KnowledgeNode) : list KnowledgeNode :=
  if hasChildren n && bool_decide (id n ∈ expanded) then kids n else [].

(** The traversal with an explicit stack; each round pops one node. *)
Fixpoint visible_stack (fuel : nat) (expanded : gset string) (stack : list KnowledgeNode)
    : list KnowledgeNode :=
  match fuel, stack with
  | _, [] => []
  | 0, _ :: _ => []
  | S f, n :: rest => n :: visible_stack f expanded (open_kids expanded n ++ rest)
  end.

(** The recursive preorder of the nodes on screen under [n]. *)
Fixpoint shown_order (expanded : gset string) (n : KnowledgeNode) : list KnowledgeNode :=
  n :: (if hasChildren n && bool_decide (id n ∈ expanded) then
          match children n with
          | Some ks =>
              (fix go (ks : list KnowledgeNode) : list KnowledgeNode :=
                 match ks with
                 | [] => []
                 | k :: ks' => shown_order expanded k ++ go ks'
                 end) ks
          | None => []
          end
        else []).

(** ** Lemmas *)

Lemma shown_order_unfold (expanded : gset string) (n : KnowledgeNode) :
  shown_order expanded n = n :: flat_map (shown_order expanded) (open_kids expanded n).
Proof.
  unfold open_kids. destruct n as [i t ty l c]. simpl.
  destruct (hasChildren _ && bool_decide (i ∈ expanded)); [|done].
  destruct c as [ks|]; [f_equal|done].
Qed.

(** The rows [renderNode] mounts, whatever the depth and selection. *)
Lemma rendered_nodes_shown (expanded : gset string) (sel : option string) (n : KnowledgeNode) :
  forall d, rendered_nodes (renderNode expanded sel d n) = shown_order expanded n.
Proof.
  induction n as [n IH] using node_ind. intros d.
  rewrite renderNode_nodes_eq, shown_order_unfold. f_equal. unfold open_kids.
  destruct (hasChildren n && bool_decide (id n ∈ expanded)); [|done].
  induction IH as [|k ks Hk _ IHks]; [done|]. simpl. by rewrite Hk, IHks.
Qed.

Lemma length_flat_map_le {A B C} (f : A -> list B) (g : A -> list C) (l : list A) :
  Forall (fun x => List.length (f x) <= List.length (g x)) l ->
  List.length (flat_map f l) <= List.length (flat_map g l).
Proof. induction 1; [done|]. simpl. rewrite !length_app. lia. Qed.

(** The nodes on screen under [n] are among the nodes of its subtree. *)
Lemma shown_order_length (expanded : gset string) (n : KnowledgeNode) :
  List.length (shown_order expanded n) <= List.length (subtree_nodes n).
Proof.
  induction n as [n IH] using node_ind.
  rewrite shown_order_unfold, subtree_nodes_unfold. simpl. apply le_n_S.
  unfold open_kids. destruct (hasChildren n && _); [|simpl; lia].
  by apply length_flat_map_le.
Qed.

(** The traversal emits the recursive preorder of its stack when the
    fuel covers it. *)
Lemma visible_stack_flat (expanded : gset string) (f : nat) :
  forall stack, List.length (flat_map (shown_order expanded) stack) <= f ->
  visible_stack f expanded stack = flat_map (shown_order expanded) stack.
Proof.
  induction f as [|f IH]; intros [|n rest] Hf; try done.
  - simpl in Hf. rewrite shown_order_unfold in Hf. simpl in Hf. lia.
  - simpl in Hf |- *. rewrite shown_order_unfold in Hf |- *. simpl in Hf |- *.
    rewrite IH; rewrite flat_map_app; [done|]. rewrite length_app in Hf |- *. lia.
Qed.

(** ** Rows and ids *)

Lemma sublist_map {A B} (f : A -> B) (l1 l2 : list A) :
  l1 `sublist_of` l2 -> map f l1 `sublist_of` map f l2.
Proof. induction 1; simpl; by constructor. Qed.

Lemma sublist_flat_map {A B} (f g : A -> list B) (l : list A) :
  Forall (fun x => f x `sublist_of` g x) l -> flat_map f l `sublist_of` flat_map g l.
Proof. induction 1; [constructor|]. simpl. by apply sublist_app. Qed.

(** The nodes on screen under [n], in order, are a sublist of the nodes
    of its subtree. *)
Lemma shown_order_sublist (expanded : gset string) (n : KnowledgeNode) :
  shown_order expanded n `sublist_of` subtree_nodes n.
Proof.
  induction n as [n IH] using node_ind.
  rewrite shown_order_unfold, subtree_nodes_unfold. constructor.
  unfold open_kids. destruct (hasChildren n && _); [by apply sublist_flat_map|apply sublist_nil_l].
Qed.

(** Each row carries the styles [getNodeStyles] gives its node. *)
Lemma rows_styles (expanded : gset string) (sel : option string) (n : KnowledgeNode) :
  forall d, Forall (fun row => row_styles row =
    getNodeStyles (type (row_node row)) (bool_decide (sel = Some (id (row_node row)))))
    (rendered_rows (renderNode expanded sel d n)).
Proof.
  induction n as [n IH] using node_ind. intros d. rewrite renderNode_unfold.
  destruct (hasChildren n && _); [|by repeat constructor].
  rewrite rendered_rows_some. constructor; [done|].
  induction IH as [|k ks Hk _ IHks]; simpl; [constructor|]. apply Forall_app. split; [apply Hk|exact IHks].
Qed.

Lemma forest_rows_styles (expanded : gset string) (sel : option string) (t : list KnowledgeNode) :
  Forall (fun row => row_styles row =
    getNodeStyles (type (row_node row)) (bool_decide (sel = Some (id (row_node row)))))
    (flat_map rendered_rows (map (renderNode expanded sel 0) t)).
Proof.
  induction t as [|k t IHt]; simpl; [constructor|].
  apply Forall_app. split; [apply rows_styles|apply IHt].
Qed.

Lemma selected_in_styles (ty : NodeType) (b : bool) :
  selectedStyles ∈ getNodeStyles ty b <-> ty = type_content /\ b = true.
Proof.
  rewrite list_elem_of_In.
  destruct ty, b; simpl; unfold selectedStyles, baseStyles; intuition (try discriminate; try congruence).
Qed.

(** Elements of a list with distinct keys that all have the same key:
    at most one. *)
Lemma NoDup_same_key_le1 {A B} (f : A -> B) (k : option B) (l : list A) :
  NoDup (map f l) -> Forall (fun x => Some (f x) = k) l -> List.length l <= 1.
Proof.
  destruct l as [|x [|y l]]; simpl; [lia|lia|].
  intros Hnd Hk. apply NoDup_cons in Hnd as [Hx _]. exfalso. apply Hx.
  inversion Hk as [|? ? Hkx Hk']. inversion Hk' as [|? ? Hky _].
  rewrite <- Hky in Hkx. injection Hkx as Hxy. rewrite Hxy. apply elem_of_cons. by left.
Qed.

(** ** Theorems *)

(** C35: Once the tree is loaded, the rows on screen are, in order, the
    nodes the explicit stack traversal emits from the roots, given the
    number of nodes of the tree as fuel: the code's recursive rendering
    and the stack-based one the spec allows are the same. *)
Theorem render_is_stack_traversal {Callback} (props : SidebarProps Callback)
    (st : SidebarState) (t : list KnowledgeNode) :
  loading st = false -> knowledgeTree st = Some t ->
  map row_node (view_rows (render props st)) =
    visible_stack (List.length (forest_nodes t)) (expandedNodes st) t.
Proof.
  intros Hl Ht. unfold render. rewrite Hl, Ht. simpl. rewrite rendered_nodes_map.
  rewrite (flat_map_ext _ _ (fun k => rendered_nodes_shown _ _ k 0)).
  rewrite visible_stack_flat; [done|]. apply length_flat_map_le.
  apply List.Forall_forall. intros n _. apply shown_order_length.
Qed.

Lemma render_is_stack_traversal_witness :
  map row_node (view_rows (render sample_props sample_state)) = [sample_root; sample_leaf].
Proof.
  rewrite (render_is_stack_traversal sample_props sample_state [sample_root]); reflexivity.
Defined.

(** C32: With the ids of the tree unique, as the spec requires of the
    document, at most one row on screen carries the selected styling;
    [two_highlights] shows two when two leaves share the selected id. *)
Theorem highlight_unique {Callback} (props : SidebarProps Callback) (st : SidebarState)
    (t : list KnowledgeNode) :
  loading st = false -> knowledgeTree st = Some t -> ids_unique t ->
  List.length (filter (fun row => selectedStyles ∈ row_styles row) (view_rows (render props st))) <= 1.
Proof.
  intros Hl Ht Hu. unfold render. rewrite Hl, Ht. simpl.
  set (sel := selectedNodeId props). set (e := expandedNodes st).
  set (rows := flat_map rendered_rows (map (renderNode e sel 0) t)).
  assert (Hrows : map row_node rows = flat_map (shown_order e) t).
  { subst rows. rewrite rendered_nodes_map. apply flat_map_ext. intros k. apply rendered_nodes_shown. }
  assert (Hst : Forall (fun row => row_styles row =
             getNodeStyles (type (row_node row)) (bool_decide (sel = Some (id (row_node row))))) rows).
  { apply forest_rows_styles. }
  apply (NoDup_same_key_le1 (fun row => id (row_node row)) sel).
  - apply (sublist_NoDup _ (map (fun row => id (row_node row)) rows));
      [|apply sublist_map, sublist_filter].
    rewrite <- (map_map row_node id), Hrows.
    apply (sublist_NoDup _ (forest_ids t)); [exact Hu|].
    apply sublist_map, sublist_flat_map, List.Forall_forall. intros n _. apply shown_order_sublist.
  - apply List.Forall_forall. intros row Hin. apply list_elem_of_In, list_elem_of_filter in Hin as [Hsel Hin].
    rewrite List.Forall_forall in Hst. rewrite (Hst row) in Hsel by by apply list_elem_of_In.
    apply selected_in_styles in Hsel as [_ Hb]. symmetry. by apply bool_decide_eq_true in Hb.
Qed.

Lemma highlight_unique_witness :
  List.length (filter (fun row => selectedStyles ∈ row_styles row)
    (view_rows (render sample_props sample_state))) <= 1.
Proof.
  apply (highlight_unique sample_props sample_state [sample_root]); [reflexivity|reflexivity|].
  apply (bool_decide_unpack _). vm_compute. reflexivity.
Defined.

(** Two leaves sharing the selected id are both highlighted. *)
Definition twin_leaf : KnowledgeNode := mkNode "rules" "规则 (副本)" type_content None None.
Definition twin_state : SidebarState :=
  loadKnowledgeTree (tree_fetched (Some [sample_leaf; twin_leaf])) initial.

Lemma two_highlights :
  List.length (filter (fun row => selectedStyles ∈ row_styles row)
    (view_rows (render sample_props twin_state))) = 2.
Proof. vm_compute. reflexivity. Qed.

End Traversal.
