(* ===== verification/ContentArea.v ===== *)
(** * The content panel (ContentArea.tsx 19-54, 309-424)

    State (lines 20-21): the text ([undefined] is possible, see below)
    and the loading flag.  [loadContent] (29-54) is split at its
    [await]: [loadContent_start] runs synchronously when the effect fires
    (lines 23-27: on every change of the selected node), and
    [loadContent_finish] runs when the fetch settles, later and in any
    order with respect to other events ([Layout] models the scheduling).

    [contentData[node.id]] is a property read on the object that
    [response.json()] built: an own key gives its value; a key that the
    object inherits from [Object.prototype] ([constructor], [toString],
    ...) gives a function, which is truthy and has no [content] field;
    any other key gives [undefined].  [nodeContent.content] is
    [undefined] when the entry is truthy but has no string [content]
    field, and [formatContent] then throws on [undefined.split]. *)

From stdpp Require Import base list strings gmap.
From Stdlib Require Import String.
From S2P Require Import Prelude KnowledgeNode Formatter DefaultContent.

Module ContentArea.

Import Formatter DefaultContent.

(** ** The content document *)

(** A value of the document, as far as the code looks at it: falsy
    ([null], [false], [0], [""]) or truthy, with its [content] field
    when that field is a string. *)
Inductive Entry :=
  | entry_falsy
  | entry_truthy (content_field : option string).

(** The outcome of [fetch('/data/cricket-content.json')] and
    [response.json()]: it threw, or it gave an object with these own
    keys. *)
Inductive ContentFetch :=
  | content_fetch_failed
  | content_fetched (doc : gmap string Entry).

(** The keys every plain object inherits from [Object.prototype]. *)
Definition object_prototype_keys : list string :=
  ["constructor"; "hasOwnProperty"; "isPrototypeOf"; "propertyIsEnumerable";
   "toLocaleString"; "toString"; "valueOf"; "__proto__";
   "__defineGetter__"; "__defineSetter__"; "__lookupGetter__"; "__lookupSetter__"].

(** [contentData[key]]. *)
Definition contentData_get (doc : gmap string Entry) (key : string) : Entry :=
  match doc !! key with
  | Some e => e
  | None => if bool_decide (key ∈ object_prototype_keys) then entry_truthy None else entry_falsy
  end.

(** ** State and the two halves of [loadContent] *)

Record ContentAreaState := mkContentAreaState {
  content : option string;
  loading : bool
}.

(** [useState<string>('')], [useState(false)]. *)
Definition initial : ContentAreaState := mkContentAreaState (Some "") false.

(** Up to the [await]: [setLoading(true)]. *)
Definition loadContent_start (st : ContentAreaState) : ContentAreaState :=
  mkContentAreaState (content st) true.

(** The text [loadContent] stores for the node once the fetch settled:
    the entry's [content] on a truthy entry, the placeholder on a falsy
    one or when the fetch threw. *)
Definition resolved_content (node : KnowledgeNode) (r : ContentFetch) : option string :=
  match r with
  | content_fetch_failed => Some (generateDefaultContent node)
  | content_fetched doc =>
      match contentData_get doc (id node) with
      | entry_truthy c => c
      | entry_falsy => Some (generateDefaultContent node)
      end
  end.

(** After the [await]: [setContent(...)], then [setLoading(false)]. *)
Definition loadContent_finish (node : KnowledgeNode) (r : ContentFetch)
    (st : ContentAreaState) : ContentAreaState :=
  mkContentAreaState (resolved_content node r) false.

(** ** The view *)

(** The six cards of the welcome screen (lines 320-327). *)
Definition welcome_cards : list (string * string * string) :=
  [("基础知识", "了解板球的历史、规则和基本概念", "bg-primary-500");
   ("技术技能", "学习击球、投球、守备等核心技术", "bg-semantic-success");
   ("战术策略", "掌握团队战术和个人策略", "bg-semantic-warning");
   ("训练方法", "科学的训练方法和计划", "bg-semantic-info");
   ("心理战术", "心理技能和压力管理", "bg-semantic-error");
   ("比赛管理", "赛前、赛中、赛后的管理", "bg-neutral-600")].

(** The article body: ten pulsing lines while loading, the formatted
    text, or the [TypeError] of [formatContent(undefined)]. *)
Inductive Body :=
  | body_skeleton (lines : nat)
  | body_blocks (blocks : list (nat * Block))
  | body_crash.

Inductive ContentView :=
  | welcome (cards : list (string * string * string))
  | article (crumbs : list Crumb) (level_badge : option (Level * string))
            (heading : string) (body : Body).

(** The level badge of the article (lines 368-373). *)
Definition article_badge (level : option Level) : option (Level * string) :=
  match level with
  | Some l => Some (l, levelText_of (Some l))
  | None => None
  end.

Definition render (selectedNode : option KnowledgeNode) (st : ContentAreaState) : ContentView :=
  match selectedNode with
  | None => welcome welcome_cards
  | Some node =>
      article (getBreadcrumbs (Some node)) (article_badge (level node)) (title node)
        (if loading st then body_skeleton 10
         else match content st with
              | Some c => body_blocks (formatContent c)
              | None => body_crash
              end)
  end.

(** ** Theorems *)

Definition article_of (node : KnowledgeNode) (body : Body) : ContentView :=
  article (getBreadcrumbs (Some node)) (article_badge (level node)) (title node) body.

(** C14: When the document has a truthy entry with a string [content] for the
    node's id, the panel shows that text verbatim, formatted, and stops
    loading. *)
Theorem loadContent_hit (node : KnowledgeNode) (doc : gmap string Entry) (c : string)
    (st : ContentAreaState) :
  doc !! id node = Some (entry_truthy (Some c)) ->
  render (Some node) (loadContent_finish node (content_fetched doc) st) =
    article_of node (body_blocks (formatContent c)).
Proof. intros H. unfold render, loadContent_finish, resolved_content, contentData_get. by rewrite H. Qed.

(** C10: A missing entry and a failed fetch are handled identically: both
    store the placeholder of the node and stop loading (for an id that
    is not inherited from [Object.prototype]). *)
Theorem loadContent_miss_is_failure (node : KnowledgeNode) (doc : gmap string Entry)
    (st st' : ContentAreaState) :
  doc !! id node = None -> id node ∉ object_prototype_keys ->
  loadContent_finish node (content_fetched doc) st = loadContent_finish node content_fetch_failed st' /\
  content (loadContent_finish node content_fetch_failed st') = Some (generateDefaultContent node).
Proof.
  intros H Hp. unfold loadContent_finish, resolved_content, contentData_get.
  rewrite H, bool_decide_eq_false_2 by done. done.
Qed.

(** C21: A node whose id is a key inherited from [Object.prototype] (such as
    ["constructor"]) and absent from the document makes the panel crash:
    the inherited value is truthy, its [content] is [undefined], and
    [formatContent(undefined)] throws. *)
Theorem loadContent_prototype_key (node : KnowledgeNode) (doc : gmap string Entry)
    (st : ContentAreaState) :
  id node ∈ object_prototype_keys -> doc !! id node = None ->
  render (Some node) (loadContent_finish node (content_fetched doc) st) = article_of node body_crash.
Proof.
  intros Hp H. unfold render, loadContent_finish, resolved_content, contentData_get.
  by rewrite H, bool_decide_eq_true_2 by done.
Qed.

(** From the start of a load until it finishes the panel shows the
    loading skeleton, whatever text it held before. *)
Lemma loadContent_start_skeleton (node : KnowledgeNode) (st : ContentAreaState) :
  render (Some node) (loadContent_start st) = article_of node (body_skeleton 10).
Proof. reflexivity. Qed.

(** ** Witnesses *)

Definition rules_node : KnowledgeNode := mkNode "rules" "规则" type_content (Some beginner) None.
Definition ctor_node : KnowledgeNode := mkNode "constructor" "构造" type_content None None.
Definition sample_doc : gmap string Entry := {[ "rules" := entry_truthy (Some "# 规则") ]}.

Lemma loadContent_hit_witness :
  sample_doc !! id rules_node = Some (entry_truthy (Some "# 规则")) /\
  render (Some rules_node) (loadContent_finish rules_node (content_fetched sample_doc) initial) =
    article_of rules_node (body_blocks [(0, h1 "规则")]).
Proof. split; [reflexivity|]. by rewrite (loadContent_hit rules_node sample_doc "# 规则"). Defined.

Lemma loadContent_miss_is_failure_witness :
  (∅ : gmap string Entry) !! id rules_node = None /\ id rules_node ∉ object_prototype_keys /\
  content (loadContent_finish rules_node content_fetch_failed initial) =
    Some (generateDefaultContent rules_node).
Proof.
  assert (Hp : id rules_node ∉ object_prototype_keys)
    by (rewrite list_elem_of_In; simpl; intuition discriminate).
  split; [reflexivity|split; [exact Hp|]].
  apply (loadContent_miss_is_failure rules_node ∅ initial initial); [reflexivity|exact Hp].
Defined.

Lemma loadContent_prototype_key_witness :
  id ctor_node ∈ object_prototype_keys /\ sample_doc !! id ctor_node = None /\
  render (Some ctor_node) (loadContent_finish ctor_node (content_fetched sample_doc) initial) =
    article_of ctor_node body_crash.
Proof.
  assert (Hp : id ctor_node ∈ object_prototype_keys)
    by (apply list_elem_of_In; left; reflexivity).
  split; [exact Hp|split; [reflexivity|]].
  apply loadContent_prototype_key; [exact Hp|reflexivity].
Defined.

End ContentArea.
