(* ===== verification/Header.v ===== *)
(** * The header (Header.tsx)

    State (line 17): the text of the search box.  Operations: the
    input's [onChange] (line 63), the form's submit [handleSearch]
    (19-24), which calls the [onSearch] prop with the trimmed text when
    the trimmed text is not empty, and the menu button (31-42), which
    calls [onMenuToggle] and shows a close icon while the menu is open.
    As in [Sidebar], a handler returns the calls it makes to its
    parent's callbacks.  The view (26-80): the icon, the titles, the
    controlled search input and the progress bar, and every [className]
    literal for the theme check of [Theme]. *)

From stdpp Require Import base list strings.
From Stdlib Require Import String.
From S2P Require Import Prelude JsString.

Module Header.

Record HeaderState := mkHeaderState { searchQuery : string }.

Definition initial : HeaderState := mkHeaderState "".

Record HeaderProps := mkHeaderProps {
  has_onSearch : bool;
  has_onMenuToggle : bool;
  isMobileMenuOpen : bool
}.

(** [onChange={(e) => setSearchQuery(e.target.value)}] *)
Definition onChange (value : string) (st : HeaderState) : HeaderState := mkHeaderState value.

(** [handleSearch]: the arguments of the [onSearch] calls it makes. *)
Definition handleSearch (props : HeaderProps) (st : HeaderState) : list string :=
  if has_onSearch props && negb (String.eqb (Js.trim (searchQuery st)) "")
  then [Js.trim (searchQuery st)]
  else [].

(** The menu button: the [onMenuToggle] calls it makes. *)
Definition onMenuButton (props : HeaderProps) : list unit :=
  if has_onMenuToggle props then [tt] else [].

(** The icon of the menu button. *)
Inductive MenuIcon := icon_X | icon_Menu.

Definition menuIcon (props : HeaderProps) : MenuIcon :=
  if isMobileMenuOpen props then icon_X else icon_Menu.

(** ** The view (lines 26-80) *)

(** What the header shows: the menu button's icon, the logo and titles,
    the search input (a controlled input: its [value] is the state), and
    the progress bar, whose fill is the fixed class [w-1/3]. *)
Record HeaderView := mkHeaderView {
  menu_button_icon : MenuIcon;
  logo_mark : string;
  site_title : string;
  site_subtitle : string;
  search_placeholder : string;
  search_value : string;
  progress_label : string;
  progress_fill : string
}.

Definition render (props : HeaderProps) (st : HeaderState) : HeaderView :=
  mkHeaderView (menuIcon props) "板" "板球学习指南" "从规则到技术的系统教程"
    "搜索板球知识点..." (searchQuery st) "学习进度" "w-1/3 h-full bg-primary-500 rounded-full".

(** Every [className] literal of the header, in source order (lines 27-74). *)
Definition class_literals : list string :=
  ["h-16 bg-neutral-850 border-b border-neutral-700 shadow-md";
   "h-full px-6 flex items-center justify-between";
   "flex items-center space-x-4"; "md:hidden"; "w-5 h-5"; "w-5 h-5";
   "flex items-center space-x-3";
   "w-8 h-8 bg-primary-500 rounded-lg flex items-center justify-center";
   "text-white font-bold text-sm"; "hidden sm:block";
   "text-xl font-bold text-neutral-50"; "text-xs text-neutral-400";
   "flex-1 max-w-md mx-6"; "relative";
   "absolute left-3 top-1/2 transform -translate-y-1/2 w-4 h-4 text-neutral-400";
   "pl-10 pr-4 h-10 w-full"; "flex items-center space-x-3";
   "hidden md:flex items-center space-x-2 text-sm text-neutral-300";
   "w-16 h-2 bg-neutral-700 rounded-full overflow-hidden";
   "w-1/3 h-full bg-primary-500 rounded-full"].

(** Submitting the search calls [onSearch] at most once, never with a
    text made only of white space, and with the text trimmed; a text
    with a visible character is always submitted. *)
Theorem handleSearch_spec (props : HeaderProps) (st : HeaderState) :
  has_onSearch props = true ->
  (handleSearch props st = [] <-> Js.is_blank (searchQuery st) = true) /\
  (Js.is_blank (searchQuery st) = false ->
   handleSearch props st = [Js.trim (searchQuery st)]).
Proof.
  intros Hp. unfold handleSearch. rewrite Hp. simpl.
  assert (Hb : String.eqb (Js.trim (searchQuery st)) "" = Js.is_blank (searchQuery st)).
  { apply Bool.eq_true_iff_eq. rewrite String.eqb_eq. apply Js.trim_empty_iff. }
  rewrite Hb. destruct (Js.is_blank (searchQuery st)); simpl; split; try done.
Qed.

Lemma handleSearch_spec_witness :
  has_onSearch (mkHeaderProps true true false) = true /\
  handleSearch (mkHeaderProps true true false) (mkHeaderState "  bowling ") = ["bowling"].
Proof.
  split; [reflexivity|].
  apply (proj2 (handleSearch_spec (mkHeaderProps true true false) (mkHeaderState "  bowling ") eq_refl)).
  reflexivity.
Defined.

End Header.
