(* ===== verification/Layout.v ===== *)
(** * The page: [Layout] composing the header, the sidebar and the panel

    [Layout.tsx] owns the selected node, the mobile-menu flag and the
    search text (lines 19-21) and the handlers [handleNodeSelect]
    (23-26), [handleSearch] (28-32), [handleMenuToggle] (34-36) and the
    overlay's [onClick] (55-59).  It passes [handleNodeSelect]
    and the selected id to the sidebar, the selected node to the panel.

    The page is one state record: the four components' states, the
    in-flight fetches (the tree document, and every content load with
    the node it was started for, tagged by a ticket) and the next
    ticket.  [step] applies one event: a user action on what is on
    screen, or a fetch settling.  A user action runs its handler and
    then, as React does after the re-render, the panel's effect, which
    starts a load when the selected node changed (ContentArea.tsx 23-27).  Fetches
    settle in any order: the event names the ticket.  A render that
    throws unmounts the whole page (there is no error boundary), after
    which no event has an effect.  [reachable] is the closure of [step]
    from the page as mounted. *)

From stdpp Require Import base list strings gmap sets.
From Stdlib Require Import String.
From S2P Require Import Prelude JsString KnowledgeNode Formatter DefaultContent Sidebar ContentArea Header.

Module Layout.

Import Formatter Sidebar ContentArea.

(** ** The layout's state and handlers *)

(** The only callback the layout hands to the sidebar. *)
Variant LayoutCallback := handleNodeSelect_cb.

Record LayoutState := mkLayoutState {
  selectedNode : option KnowledgeNode;
  isMobileMenuOpen : bool;
  searchQuery : string
}.

Definition layout_initial : LayoutState := mkLayoutState None false "".

(** [setSelectedNode(node); setIsMobileMenuOpen(false)] *)
Definition handleNodeSelect (node : KnowledgeNode) (st : LayoutState) : LayoutState :=
  mkLayoutState (Some node) false (searchQuery st).

(** [setSearchQuery(query)]; the search itself is not implemented. *)
Definition handleSearch (query : string) (st : LayoutState) : LayoutState :=
  mkLayoutState (selectedNode st) (isMobileMenuOpen st) query.

(** [setIsMobileMenuOpen(!isMobileMenuOpen)] *)
Definition handleMenuToggle (st : LayoutState) : LayoutState :=
  mkLayoutState (selectedNode st) (negb (isMobileMenuOpen st)) (searchQuery st).

(** The overlay's [onClick={() => setIsMobileMenuOpen(false)}]. *)
Definition closeMenu (st : LayoutState) : LayoutState :=
  mkLayoutState (selectedNode st) false (searchQuery st).

(** The layout keeps the sidebar's promise: delivering a call selects. *)
#[export] Instance layout_sink : SelectionSink LayoutCallback LayoutState := {
  deliver := fun _ node st => handleNodeSelect node st;
  sink_selection := selectedNode;
  deliver_selects := fun _ _ _ => eq_refl
}.

(** The props it passes down (lines 41-45, 68-71, 76-79). *)
Definition sidebarProps (st : LayoutState) : SidebarProps LayoutCallback :=
  mkSidebarProps (Some handleNodeSelect_cb) (option_map id (selectedNode st)).

Definition headerProps (st : LayoutState) : Header.HeaderProps :=
  Header.mkHeaderProps true true (isMobileMenuOpen st).

(** ** The page *)

Record Page := mkPage {
  layout : LayoutState;
  header : Header.HeaderState;
  sidebar : SidebarState;
  panel : ContentAreaState;
  tree_fetch_pending : bool;
  content_fetches : list (nat * KnowledgeNode);
  next_ticket : nat
}.

(** As mounted: the sidebar's effect has started the tree fetch; the
    panel's effect ran with no selected node and did nothing. *)
Definition page_initial : Page :=
  mkPage layout_initial Header.initial Sidebar.initial ContentArea.initial true [] 0.

(** What the page shows, and whether a render threw. *)
Definition sidebar_view (p : Page) : SidebarView :=
  Sidebar.render (sidebarProps (layout p)) (sidebar p).

Definition panel_view (p : Page) : ContentView :=
  ContentArea.render (selectedNode (layout p)) (panel p).

Definition crashed (p : Page) : bool :=
  match sidebar_view p with sidebar_crash => true | _ => false end
  || match panel_view p with article _ _ _ body_crash => true | _ => false end.

(** The panel's effect after a re-render in which [selectedNode] may have
    changed from [before]: a new defined node starts a load. *)
Definition content_effect (before : option KnowledgeNode) (p : Page) : Page :=
  if decide (selectedNode (layout p) = before) then p
  else match selectedNode (layout p) with
       | Some node =>
           mkPage (layout p) (header p) (sidebar p) (loadContent_start (panel p))
             (tree_fetch_pending p) (content_fetches p ++ [(next_ticket p, node)])
             (S (next_ticket p))
       | None => p
       end.

(** The node the load with ticket [t] was started for, while it is in flight. *)
Definition fetch_node (fetches : list (nat * KnowledgeNode)) (t : nat) : option KnowledgeNode :=
  snd <$> List.find (fun f => Nat.eqb f.1 t) fetches.

Inductive Event :=
  | ev_tree_settled (r : TreeFetch)
  | ev_click_row (node : KnowledgeNode)
  | ev_menu_button
  | ev_overlay_click
  | ev_search_input (value : string)
  | ev_search_submit
  | ev_content_settled (ticket : nat) (r : ContentFetch).

Definition with_layout (p : Page) (l : LayoutState) : Page :=
  mkPage l (header p) (sidebar p) (panel p) (tree_fetch_pending p) (content_fetches p)
    (next_ticket p).

(** One event.  [None]: the event cannot happen in this page (a click on
    a row that is not on screen, the overlay when the menu is closed, a
    settlement of a fetch that is not in flight, anything after a crash). *)
Definition step (p : Page) (e : Event) : option Page :=
  if crashed p then None else
  match e with
  | ev_tree_settled r =>
      if tree_fetch_pending p then
        Some (mkPage (layout p) (header p) (loadKnowledgeTree r (sidebar p)) (panel p)
                false (content_fetches p) (next_ticket p))
      else None
  | ev_click_row node =>
      if bool_decide (node ∈ map row_node (view_rows (sidebar_view p))) then
        let '(sb, calls) := onRowClick (sidebarProps (layout p)) node (sidebar p) in
        Some (content_effect (selectedNode (layout p))
                (mkPage (run_calls calls (layout p)) (header p) sb (panel p)
                   (tree_fetch_pending p) (content_fetches p) (next_ticket p)))
      else None
  | ev_menu_button =>
      Some (with_layout p (fold_left (fun l _ => handleMenuToggle l)
                             (Header.onMenuButton (headerProps (layout p))) (layout p)))
  | ev_overlay_click =>
      if isMobileMenuOpen (layout p) then Some (with_layout p (closeMenu (layout p))) else None
  | ev_search_input v =>
      Some (mkPage (layout p) (Header.onChange v (header p)) (sidebar p) (panel p)
              (tree_fetch_pending p) (content_fetches p) (next_ticket p))
  | ev_search_submit =>
      Some (with_layout p (fold_left (fun l q => handleSearch q l)
                             (Header.handleSearch (headerProps (layout p)) (header p)) (layout p)))
  | ev_content_settled t r =>
      match fetch_node (content_fetches p) t with
      | Some node =>
          Some (mkPage (layout p) (header p) (sidebar p) (loadContent_finish node r (panel p))
                  (tree_fetch_pending p) (filter (fun f => f.1 <> t) (content_fetches p))
                  (next_ticket p))
      | None => None
      end
  end.

Inductive reachable : Page -> Prop :=
  | reach_initial : reachable page_initial
  | reach_step p e p' : reachable p -> step p e = Some p' -> reachable p'.

(** A run of events, stopping at the first that cannot happen. *)
Fixpoint run (p : Page) (es : list Event) : option Page :=
  match es with
  | [] => Some p
  | e :: es' => match step p e with Some p' => run p' es' | None => None end
  end.

(** ** How each event changes the page *)

Lemma step_not_crashed (p : Page) (e : Event) (p' : Page) :
  step p e = Some p' -> crashed p = false.
Proof. unfold step. by destruct (crashed p). Qed.

(** The page after a click, before the panel's effect. *)
Definition after_click (p : Page) (node : KnowledgeNode) : Page :=
  mkPage (run_calls (snd (onRowClick (sidebarProps (layout p)) node (sidebar p))) (layout p))
    (header p) (fst (onRowClick (sidebarProps (layout p)) node (sidebar p))) (panel p)
    (tree_fetch_pending p) (content_fetches p) (next_ticket p).

Lemma step_click (p : Page) (node : KnowledgeNode) (p' : Page) :
  step p (ev_click_row node) = Some p' ->
  In node (map row_node (view_rows (sidebar_view p))) /\
  p' = content_effect (selectedNode (layout p)) (after_click p node).
Proof.
  unfold step. destruct (crashed p); [done|]. case_bool_decide as Hin; [|done].
  unfold after_click. destruct (onRowClick _ _ _) as [sb calls]. intros [= <-].
  split; [by apply list_elem_of_In|done].
Qed.

Lemma after_click_selection (p : Page) (node : KnowledgeNode) :
  selectedNode (layout (after_click p node)) =
    if isLeaf node then Some node else selectedNode (layout p).
Proof.
  unfold after_click, onRowClick, handleNodeClick. simpl. by destruct (isLeaf node).
Qed.

Lemma content_effect_parts (before : option KnowledgeNode) (p : Page) :
  layout (content_effect before p) = layout p /\ header (content_effect before p) = header p /\
  sidebar (content_effect before p) = sidebar p /\
  tree_fetch_pending (content_effect before p) = tree_fetch_pending p.
Proof. unfold content_effect. case_decide; [done|]. by destruct (selectedNode (layout p)). Qed.

Lemma content_effect_fetches (before : option KnowledgeNode) (p : Page) :
  (content_fetches (content_effect before p) = content_fetches p /\
   next_ticket (content_effect before p) = next_ticket p /\
   panel (content_effect before p) = panel p) \/
  (exists node, selectedNode (layout p) = Some node /\ selectedNode (layout p) <> before /\
   content_fetches (content_effect before p) = content_fetches p ++ [(next_ticket p, node)] /\
   next_ticket (content_effect before p) = S (next_ticket p) /\
   panel (content_effect before p) = loadContent_start (panel p)).
Proof.
  unfold content_effect. case_decide; [by left|].
  destruct (selectedNode (layout p)) as [node|] eqn:E; [right; by exists node|by left].
Qed.

Lemma step_settled (p : Page) (t : nat) (r : ContentFetch) (p' : Page) :
  step p (ev_content_settled t r) = Some p' ->
  exists node, fetch_node (content_fetches p) t = Some node /\
  p' = mkPage (layout p) (header p) (sidebar p) (loadContent_finish node r (panel p))
         (tree_fetch_pending p) (filter (fun f => f.1 <> t) (content_fetches p)) (next_ticket p).
Proof.
  unfold step. destruct (crashed p); [done|].
  destruct (fetch_node _ t) as [node|]; [|done]. intros [= <-]. by exists node.
Qed.

Lemma step_tree (p : Page) (r : TreeFetch) (p' : Page) :
  step p (ev_tree_settled r) = Some p' ->
  tree_fetch_pending p = true /\
  p' = mkPage (layout p) (header p) (loadKnowledgeTree r (sidebar p)) (panel p)
         false (content_fetches p) (next_ticket p).
Proof. unfold step. destruct (crashed p); [done|]. destruct (tree_fetch_pending p); by intros [= <-]. Qed.

(** The header's and the menu's events change the layout's menu flag and
    search text only. *)
Definition ui_event (e : Event) : Prop :=
  match e with
  | ev_menu_button | ev_overlay_click | ev_search_input _ | ev_search_submit => True
  | _ => False
  end.

Lemma fold_search_selected (qs : list string) (l : LayoutState) :
  selectedNode (fold_left (fun l q => handleSearch q l) qs l) = selectedNode l.
Proof. revert l. induction qs as [|q qs IH]; intros l; [done|]. simpl. by rewrite IH. Qed.

Lemma fold_search_menu (qs : list string) (l : LayoutState) :
  isMobileMenuOpen (fold_left (fun l q => handleSearch q l) qs l) = isMobileMenuOpen l.
Proof. revert l. induction qs as [|q qs IH]; intros l; [done|]. simpl. by rewrite IH. Qed.

Lemma step_ui (p : Page) (e : Event) (p' : Page) :
  ui_event e -> step p e = Some p' ->
  selectedNode (layout p') = selectedNode (layout p) /\ sidebar p' = sidebar p /\
  panel p' = panel p /\ content_fetches p' = content_fetches p /\
  next_ticket p' = next_ticket p /\ tree_fetch_pending p' = tree_fetch_pending p.
Proof.
  unfold step. destruct (crashed p); [done|].
  destruct e; simpl; try done; intros _.
  - by intros [= <-].
  - destruct (isMobileMenuOpen (layout p)); [|done]. by intros [= <-].
  - by intros [= <-].
  - intros [= <-]. simpl. by rewrite fold_search_selected.
Qed.

(** ** The invariant of reachable pages *)

(** Before the tree has settled the sidebar is as mounted and nothing is
    selected; a selected node is a leaf of the loaded tree; every load in
    flight is for a leaf and has a ticket below the next one, tickets are
    distinct; nothing is in flight while nothing is selected. *)
Definition page_inv (p : Page) : Prop :=
  (tree_fetch_pending p = true -> sidebar p = Sidebar.initial /\ selectedNode (layout p) = None) /\
  (forall n, selectedNode (layout p) = Some n ->
     isLeaf n = true /\ exists t, knowledgeTree (sidebar p) = Some t /\ In n (forest_nodes t)) /\
  (forall t n, In (t, n) (content_fetches p) -> t < next_ticket p /\ isLeaf n = true) /\
  NoDup (map fst (content_fetches p)) /\
  (selectedNode (layout p) = None -> content_fetches p = []).

Lemma NoDup_fst_filter (P : nat * KnowledgeNode -> Prop) `{!forall x, Decision (P x)}
    (l : list (nat * KnowledgeNode)) :
  NoDup (map fst l) -> NoDup (map fst (filter P l)).
Proof.
  induction l as [|x l IH]; [done|]. simpl. rewrite NoDup_cons. intros [Hx Hl].
  rewrite filter_cons. case_decide; simpl; [|by apply IH].
  apply NoDup_cons. split; [|by apply IH].
  intros Hin. apply Hx. apply list_elem_of_In in Hin. apply list_elem_of_In. apply in_map_iff in Hin as [y [<- Hy]].
  apply in_map. apply list_elem_of_In in Hy. apply list_elem_of_filter in Hy as [_ Hy].
  by apply list_elem_of_In.
Qed.

Lemma page_inv_initial : page_inv page_initial.
Proof.
  unfold page_inv; simpl. split; [by intros|]. split; [discriminate|].
  split; [by intros ? ? []|]. split; [constructor|done].
Qed.

Lemma page_inv_tree (p : Page) (r : TreeFetch) (p' : Page) :
  page_inv p -> step p (ev_tree_settled r) = Some p' -> page_inv p'.
Proof.
  intros (Ha & Hb & Hc & Hd & He) Hs. apply step_tree in Hs as [Hp ->].
  destruct (Ha Hp) as [_ Hsel]. unfold page_inv; simpl. rewrite Hsel.
  split; [discriminate|]. split; [discriminate|]. split; [exact Hc|].
  split; [exact Hd|]. intros _. by apply He.
Qed.

Lemma page_inv_click (p : Page) (n : KnowledgeNode) (p' : Page) :
  page_inv p -> step p (ev_click_row n) = Some p' -> page_inv p'.
Proof.
  intros (Ha & Hb & Hc & Hd & He) Hs. apply step_click in Hs as [Hvis ->].
  apply visible_in_tree in Hvis as [Hl [t [Ht Hn]]].
  assert (Hpend : tree_fetch_pending p = false).
  { destruct (tree_fetch_pending p) eqn:E; [|done]. destruct (Ha eq_refl) as [Hi _].
    by rewrite Hi in Hl. }
  set (q := after_click p n).
  assert (Hbq : forall m, selectedNode (layout q) = Some m ->
            isLeaf m = true /\ exists t, knowledgeTree (sidebar q) = Some t /\ In m (forest_nodes t)).
  { intros m. subst q. rewrite after_click_selection.
    change (sidebar (after_click p n)) with (fst (onRowClick (sidebarProps (layout p)) n (sidebar p))).
    rewrite (proj1 (onRowClick_tree _ _ _)).
    destruct (isLeaf n) eqn:En; [intros [= <-]; eauto|apply Hb]. }
  assert (Hq : tree_fetch_pending q = false /\ content_fetches q = content_fetches p /\
                next_ticket q = next_ticket p) by (subst q; split; [exact Hpend|done]).
  destruct Hq as (Hq1 & Hq2 & Hq3).
  destruct (content_effect_parts (selectedNode (layout p)) q) as (El & _ & Es & Ep).
  destruct (content_effect_fetches (selectedNode (layout p)) q)
    as [(Ef & Et & _)|(m & Hm & Hch & Ef & Et & _)];
    unfold page_inv; rewrite El, Es, Ep, Ef, Et, Hq1, Hq2, Hq3;
    (split; [discriminate|]); (split; [exact Hbq|]).
  - split; [exact Hc|]. split; [exact Hd|].
    intros Hnone. apply He. revert Hnone. subst q. rewrite after_click_selection.
    by destruct (isLeaf n).
  - destruct (Hbq m Hm) as [Hml _]. split; [|split; [|congruence]].
    + intros t' n' Hin. apply in_app_or in Hin as [Hin|[[= <- <-]|[]]]; [|split; [lia|done]].
      destruct (Hc t' n' Hin). split; [lia|done].
    + rewrite map_app. apply NoDup_app. split; [done|split; [|apply NoDup_singleton]].
      intros x Hx Hx'. apply list_elem_of_In in Hx, Hx'. simpl in Hx'.
      destruct Hx' as [<-|[]]. apply in_map_iff in Hx as [[t' n'] [Heq Hin]]. simpl in Heq; subst.
      destruct (Hc _ _ Hin). lia.
Qed.

Lemma page_inv_settled (p : Page) (t : nat) (r : ContentFetch) (p' : Page) :
  page_inv p -> step p (ev_content_settled t r) = Some p' -> page_inv p'.
Proof.
  intros (Ha & Hb & Hc & Hd & He) Hs. apply step_settled in Hs as [node [_ ->]].
  unfold page_inv; simpl. split; [exact Ha|]. split; [exact Hb|]. split; [|split].
  - intros t' n' Hin. apply list_elem_of_In, list_elem_of_filter in Hin as [_ Hin].
    apply Hc. by apply list_elem_of_In.
  - by apply NoDup_fst_filter.
  - intros Hnone. by rewrite (He Hnone).
Qed.

Lemma page_inv_ui (p : Page) (e : Event) (p' : Page) :
  ui_event e -> page_inv p -> step p e = Some p' -> page_inv p'.
Proof.
  intros Hui (Ha & Hb & Hc & Hd & He) Hs.
  destruct (step_ui p e p' Hui Hs) as (Hsel & Hsb & _ & Hf & Ht & Hpend).
  unfold page_inv. rewrite Hsel, Hsb, Hf, Ht, Hpend. done.
Qed.

Lemma page_inv_reachable (p : Page) : reachable p -> page_inv p.
Proof.
  induction 1 as [|p e p' _ IH Hs]; [apply page_inv_initial|].
  destruct e; [eapply page_inv_tree|eapply page_inv_click|eapply page_inv_ui|eapply page_inv_ui
    |eapply page_inv_ui|eapply page_inv_ui|eapply page_inv_settled]; eauto; done.
Qed.

Lemma run_reachable (p : Page) (es : list Event) (p' : Page) :
  reachable p -> run p es = Some p' -> reachable p'.
Proof.
  revert p. induction es as [|e es IH]; intros p Hp; simpl; [by intros [= <-]|].
  destruct (step p e) as [q|] eqn:Hs; [|done]. apply IH. by apply (reach_step p e q).
Qed.

(** ** A page with two loads in flight *)

Definition rules : KnowledgeNode := mkNode "rules" "规则" type_content (Some beginner) None.
Definition history : KnowledgeNode := mkNode "history" "历史" type_content (Some beginner) None.
Definition basics : KnowledgeNode :=
  mkNode "basics" "基础知识" type_category None (Some [rules; history]).
Definition content_doc : gmap string Entry :=
  {[ "rules" := entry_truthy (Some "# Rules"); "history" := entry_truthy (Some "# History") ]}.

(** The tree loads, the user clicks "rules" then "history"; the load for
    "history" (ticket 1) settles first, the one for "rules" (ticket 0)
    second. *)
Definition race_events : list Event :=
  [ev_tree_settled (tree_fetched (Some [basics])); ev_click_row rules; ev_click_row history;
   ev_content_settled 1 (content_fetched content_doc);
   ev_content_settled 0 (content_fetched content_doc)].

(** ** Theorems *)

(** C5: In every reachable page the selected node, when there is one, is a
    leaf of the loaded tree: a node with children can never be selected. *)
Theorem selected_is_leaf (p : Page) (n : KnowledgeNode) :
  reachable p -> selectedNode (layout p) = Some n ->
  isLeaf n = true /\ exists t, knowledgeTree (sidebar p) = Some t /\ In n (forest_nodes t).
Proof. intros Hr. apply (page_inv_reachable p Hr). Qed.

Lemma selected_is_leaf_witness :
  match run page_initial (take 3 race_events) with
  | Some p => reachable p /\ selectedNode (layout p) = Some history /\ isLeaf history = true
  | None => False
  end.
Proof.
  assert (Hr : reachable (default page_initial (run page_initial (take 3 race_events)))).
  { apply (run_reachable page_initial (take 3 race_events)); [constructor|reflexivity]. }
  simpl in Hr |- *. split; [exact Hr|]. split; [reflexivity|].
  apply (selected_is_leaf _ history Hr). reflexivity.
Defined.

(** C13: In every reachable page no content load is in flight while nothing is
    selected, every load in flight is for a leaf, and the loads in flight
    carry distinct tickets below the next one. *)
Theorem fetches_in_flight (p : Page) :
  reachable p ->
  (selectedNode (layout p) = None -> content_fetches p = []) /\
  (forall t n, In (t, n) (content_fetches p) -> t < next_ticket p /\ isLeaf n = true) /\
  NoDup (map fst (content_fetches p)).
Proof. intros Hr. destruct (page_inv_reachable p Hr) as (_ & _ & Hc & Hd & He). auto. Qed.

Lemma fetches_in_flight_witness :
  reachable page_initial /\ content_fetches page_initial = [].
Proof. split; [constructor|]. apply (proj1 (fetches_in_flight page_initial reach_initial)). done. Defined.

(** C12: A click on a leaf row selects it and closes the mobile menu; when the
    leaf was not already selected, a load for it is started and the panel
    shows its loading state. *)
Theorem click_leaf_selects (p p' : Page) (n : KnowledgeNode) :
  step p (ev_click_row n) = Some p' -> isLeaf n = true ->
  selectedNode (layout p') = Some n /\ isMobileMenuOpen (layout p') = false /\
  (selectedNode (layout p) <> Some n ->
   content_fetches p' = content_fetches p ++ [(next_ticket p, n)] /\
   ContentArea.loading (panel p') = true).
Proof.
  intros Hs Hl. apply step_click in Hs as [_ ->].
  destruct (content_effect_parts (selectedNode (layout p)) (after_click p n)) as (El & _).
  pose proof (after_click_selection p n) as Hsel. rewrite Hl in Hsel.
  rewrite El, Hsel. split; [done|]. split.
  - unfold after_click, onRowClick, handleNodeClick. simpl. by rewrite Hl.
  - intros Hne. destruct (content_effect_fetches (selectedNode (layout p)) (after_click p n))
      as [(_ & _ & _)|(m & Hm & _ & Ef & _ & Ep)].
    + unfold content_effect in *. rewrite Hsel in *. by case_decide.
    + rewrite Hsel in Hm. injection Hm as <-. rewrite Ef, Ep. done.
Qed.

(** C23: Clicking the leaf that is already selected starts no load and leaves
    the panel as it is: a failed or stale text cannot be reloaded by
    clicking the topic again. *)
Theorem reclick_no_reload (p p' : Page) (n : KnowledgeNode) :
  step p (ev_click_row n) = Some p' -> selectedNode (layout p) = Some n ->
  content_fetches p' = content_fetches p /\ panel p' = panel p.
Proof.
  intros Hs Hsel. apply step_click in Hs as [_ ->].
  pose proof (after_click_selection p n) as Ha.
  unfold content_effect. case_decide as Hd; [done|].
  exfalso. apply Hd. rewrite Ha, Hsel. by destruct (isLeaf n).
Qed.

(** C8: When any load settles, its node's text replaces the panel's content
    and clears the loading flag, whatever node is selected by then: the
    settlement is not checked against the current selection. *)
Theorem settled_overwrites (p p' : Page) (t : nat) (r : ContentFetch) :
  step p (ev_content_settled t r) = Some p' ->
  exists node, fetch_node (content_fetches p) t = Some node /\
    content (panel p') = resolved_content node r /\ ContentArea.loading (panel p') = false /\
    layout p' = layout p.
Proof. intros Hs. apply step_settled in Hs as [node [Hn ->]]. by exists node. Qed.

(** C7: The race is reachable: after clicking "rules" then "history", if the
    second load settles first, the page ends with "history" selected, no
    load in flight, and the article titled "history" showing the text of
    "rules". *)
Theorem stale_content_reachable :
  exists p, reachable p /\ selectedNode (layout p) = Some history /\ content_fetches p = [] /\
    panel_view p = article_of history (body_blocks (formatContent "# Rules")) /\
    content_doc !! id history = Some (entry_truthy (Some "# History")).
Proof.
  exists (default page_initial (run page_initial race_events)).
  split; [apply (run_reachable page_initial race_events); [constructor|reflexivity]|].
  vm_compute. repeat split; reflexivity.
Qed.

(** The pages of the race: after the first four events, and after all. *)
Definition race_page4 : Page := default page_initial (run page_initial (take 4 race_events)).
Definition race_page5 : Page := default page_initial (run page_initial race_events).

Lemma settled_overwrites_witness :
  step race_page4 (ev_content_settled 0 (content_fetched content_doc)) = Some race_page5 /\
  exists node, fetch_node (content_fetches race_page4) 0 = Some node /\
    content (panel race_page5) = resolved_content node (content_fetched content_doc) /\
    ContentArea.loading (panel race_page5) = false /\ layout race_page5 = layout race_page4.
Proof.
  assert (Hs : step race_page4 (ev_content_settled 0 (content_fetched content_doc)) = Some race_page5)
    by (vm_compute; reflexivity).
  split; [exact Hs|]. exact (settled_overwrites _ _ _ _ Hs).
Defined.

Lemma click_leaf_selects_witness :
  step (default page_initial (run page_initial (take 1 race_events))) (ev_click_row rules) =
    run page_initial (take 2 race_events) /\
  selectedNode (layout (default page_initial (run page_initial (take 2 race_events)))) = Some rules.
Proof.
  assert (Hs : step (default page_initial (run page_initial (take 1 race_events))) (ev_click_row rules) =
               Some (default page_initial (run page_initial (take 2 race_events))))
    by (vm_compute; reflexivity).
  split; [exact Hs|]. apply (click_leaf_selects _ _ rules Hs). reflexivity.
Defined.

Lemma reclick_no_reload_witness :
  content_fetches (default page_initial (run page_initial (take 3 race_events ++ [ev_click_row history]))) =
  content_fetches (default page_initial (run page_initial (take 3 race_events))).
Proof.
  apply (reclick_no_reload _ _ history); vm_compute; reflexivity.
Defined.

(** C27: The search box is dead: typing and submitting change only the search
    text; the tree, the selection, the menu, the panel and the loads are
    untouched. *)
Theorem search_has_no_effect (p p' : Page) (e : Event) :
  (e = ev_search_submit \/ exists v, e = ev_search_input v) ->
  step p e = Some p' ->
  sidebar p' = sidebar p /\ panel p' = panel p /\ content_fetches p' = content_fetches p /\
  selectedNode (layout p') = selectedNode (layout p) /\
  isMobileMenuOpen (layout p') = isMobileMenuOpen (layout p).
Proof.
  intros He Hs. assert (Hui : ui_event e) by (destruct He as [->|[v ->]]; done).
  destruct (step_ui p e p' Hui Hs) as (Hsel & Hsb & Hpn & Hf & _).
  split; [done|split; [done|split; [done|split; [done|]]]].
  destruct He as [->|[v ->]]; unfold step in Hs; destruct (crashed p); try done;
    injection Hs as <-; simpl; [|done].
  apply fold_search_menu.
Qed.

Lemma search_has_no_effect_witness :
  sidebar (default page_initial (run page_initial (take 3 race_events ++ [ev_search_submit]))) =
  sidebar (default page_initial (run page_initial (take 3 race_events))).
Proof.
  apply (search_has_no_effect _ _ ev_search_submit); [by left|vm_compute; reflexivity].
Defined.

End Layout.
