(* ===== verification/LayoutView.v ===== *)
(** * What the page shows: the layout's view (Layout.tsx 38-83)

    [Layout] renders the header, then a row with the sidebar inside a
    drawer and the content panel.  On small screens the drawer is
    [hidden] while the mobile menu is closed; while it is open the drawer
    covers the page ([fixed inset-0 z-50]), slides in
    ([translate-x-0]) and an overlay is mounted under it, whose click
    closes the menu.  From the [md] breakpoint up the drawer is always
    shown and the overlay is hidden by [md:hidden].

    Here: the view of a page as a record (the class strings with their
    template whitespace collapsed to single spaces), every [className]
    literal of the layout, the transition table of the menu flag over all
    events with what it does to the overlay and the drawer, and the round
    trip of the header's controlled search input. *)

From stdpp Require Import base list strings gmap sets.
From Stdlib Require Import String.
From S2P Require Import Prelude JsString KnowledgeNode Formatter Sidebar ContentArea Header Layout.

Module LayoutView.

Import Formatter Sidebar ContentArea Layout.

(** The drawer's classes (lines 50-53). *)
Definition drawer_classes (isMobileMenuOpen : bool) : string :=
  (if isMobileMenuOpen then "fixed inset-0 z-50" else "hidden") +:+ " md:relative md:z-auto md:block".

(** The sliding panel's classes (lines 63-67). *)
Definition slide_classes (isMobileMenuOpen : bool) : string :=
  "relative transform transition-transform duration-300 ease-in-out " +:+
  (if isMobileMenuOpen then "translate-x-0" else "-translate-x-full") +:+ " md:translate-x-0".

(** The overlay's classes (line 57). *)
Definition overlay_classes : string := "fixed inset-0 bg-background-overlay md:hidden".

Record View := mkView {
  header_v : Header.HeaderView;
  drawer : string;
  overlay_mounted : bool;
  slide : string;
  sidebar_v : SidebarView;
  panel_v : ContentView
}.

Definition view (p : Page) : View :=
  let o := isMobileMenuOpen (layout p) in
  mkView (Header.render (headerProps (layout p)) (header p)) (drawer_classes o) o
    (slide_classes o) (sidebar_view p) (panel_view p).

(** Every [className] of the layout, in source order (lines 39-78). *)
Definition class_literals : list string :=
  ["h-screen bg-background-primary flex flex-col"; "flex-1 flex overflow-hidden";
   drawer_classes true; drawer_classes false; overlay_classes;
   slide_classes true; slide_classes false; "flex-1"].

(** [App] (App.tsx 6-17): the router renders the layout, mounted afresh,
    at the path ["/"] and nothing at any other path. *)
Definition App (path : string) : option Page :=
  if String.eqb path "/" then Some page_initial else None.

(** ** Lemmas *)

Lemma after_click_menu (p : Page) (n : KnowledgeNode) :
  isMobileMenuOpen (layout (after_click p n)) =
    if isLeaf n then false else isMobileMenuOpen (layout p).
Proof. unfold after_click, onRowClick, handleNodeClick. simpl. by destruct (isLeaf n). Qed.

(** The events the header and the overlay handle, unfolded. *)
Ltac step_ui_unfold Hs :=
  unfold step in Hs; destruct (crashed _); [done|]; injection Hs as <-.

(** ** Theorems *)

(** C33: The menu flag, and with it the overlay and the drawer, changes
    only this way: the menu button flips it; the overlay's click and a
    click on a leaf close it; every other event keeps it.  The spec
    (section 4.5) names only the first two transitions. *)
Theorem menu_transitions (p p' : Page) (e : Event) :
  step p e = Some p' ->
  overlay_mounted (view p') =
    match e with
    | ev_menu_button => negb (overlay_mounted (view p))
    | ev_overlay_click => false
    | ev_click_row n => if isLeaf n then false else overlay_mounted (view p)
    | _ => overlay_mounted (view p)
    end /\
  drawer (view p') = drawer_classes (overlay_mounted (view p')).
Proof.
  intros Hs. split; [|reflexivity]. simpl.
  destruct e as [r|n| | |v| |t r].
  - by apply step_tree in Hs as [_ ->].
  - apply step_click in Hs as [_ ->]. rewrite (proj1 (content_effect_parts _ _)).
    apply after_click_menu.
  - by step_ui_unfold Hs.
  - unfold step in Hs. destruct (crashed p); [done|].
    destruct (isMobileMenuOpen (layout p)); [|done]. by injection Hs as <-.
  - by step_ui_unfold Hs.
  - step_ui_unfold Hs. apply fold_search_menu.
  - by apply step_settled in Hs as [? [_ ->]].
Qed.

Lemma menu_transitions_witness :
  step page_initial ev_menu_button = Some (with_layout page_initial (handleMenuToggle layout_initial)) /\
  overlay_mounted (view (with_layout page_initial (handleMenuToggle layout_initial))) = true.
Proof.
  assert (Hs : step page_initial ev_menu_button =
               Some (with_layout page_initial (handleMenuToggle layout_initial))) by reflexivity.
  split; [exact Hs|]. exact (proj1 (menu_transitions _ _ _ Hs)).
Defined.

(** C34: The search input is controlled: after typing [v] the box shows
    [v], and it still shows [v] after the submit, which records the
    trimmed text in the layout when it is not blank and nothing
    otherwise. *)
Theorem search_box_roundtrip (p p1 p2 : Page) (v : string) :
  step p (ev_search_input v) = Some p1 -> step p1 ev_search_submit = Some p2 ->
  Header.search_value (header_v (view p1)) = v /\ Header.search_value (header_v (view p2)) = v /\
  searchQuery (layout p2) = if Js.is_blank v then searchQuery (layout p) else Js.trim v.
Proof.
  intros H1 H2. step_ui_unfold H1. step_ui_unfold H2. simpl.
  split; [done|split; [done|]]. unfold Header.handleSearch. simpl.
  rewrite trim_blank_b. by destruct (Js.is_blank v).
Qed.

Lemma search_box_roundtrip_witness :
  searchQuery (layout (default page_initial
    (run page_initial [ev_search_input " bowling "; ev_search_submit]))) = "bowling".
Proof.
  set (p1 := default page_initial (run page_initial [ev_search_input " bowling "])).
  set (p2 := default page_initial (run page_initial [ev_search_input " bowling "; ev_search_submit])).
  destruct (search_box_roundtrip page_initial p1 p2 " bowling ") as (_ & _ & ->);
    [vm_compute; reflexivity|vm_compute; reflexivity|reflexivity].
Defined.

End LayoutView.
