(* ===== verification/Progress.v ===== *)
(** * Progress of the page: every fetch settles, and then nothing loads

    The two fetches of the program ([loadKnowledgeTree] at mount,
    Sidebar.tsx 29-46, and [loadContent] per selection, ContentArea.tsx
    29-54) are the only work that is not done synchronously.  The
    environment settles them, in any order and with any outcome.

    Here: the invariant tying the two skeletons to the fetches in flight
    (the sidebar shows its skeleton exactly while the tree fetch is in
    flight; the panel shows its skeleton only while a load is in flight),
    the measure of settlement (each takes one fetch out of flight and
    none starts one), and the liveness theorem in the style
    of an omni-semantics: from every reachable page, whatever the fetches
    return, settling them reaches a quiet page, one with nothing in
    flight and no skeleton, or a crashed one.  Settlements do not touch
    the layout, so the selection and the menu are those of the start. *)

From stdpp Require Import base list strings gmap sets.
From Stdlib Require Import String Lia.
From S2P Require Import Prelude KnowledgeNode Sidebar ContentArea Layout.

(** ** Eventually, over a step that names all its outcomes *)

Section Eventually.

Context {State : Type}.

(** [omni s Q]: [s] can take a step, and every state it can step to
    satisfies [Q]. *)
Context (omni : State -> (State -> Prop) -> Prop).

Inductive eventually (P : State -> Prop) (s : State) : Prop :=
  | eventually_done : P s -> eventually P s
  | eventually_step (Q : State -> Prop) :
      omni s Q -> (forall s', Q s' -> eventually P s') -> eventually P s.

End Eventually.

Module Progress.

Import Sidebar ContentArea Layout.

(** The events by which a fetch in flight completes. *)
Definition settlement (e : Event) : bool :=
  match e with
  | ev_tree_settled _ | ev_content_settled _ _ => true
  | _ => false
  end.

Definition settles (p q : Page) : Prop := exists e, settlement e = true /\ step p e = Some q.

(** The environment settles one fetch in flight, with an outcome of its
    choosing: the tree fetch, or the load with some ticket. *)
Definition settle_omni (p : Page) (Q : Page -> Prop) : Prop :=
  (tree_fetch_pending p = true /\
   forall r, exists q, step p (ev_tree_settled r) = Some q /\ Q q) \/
  (exists t n, fetch_node (content_fetches p) t = Some n /\
   forall r, exists q, step p (ev_content_settled t r) = Some q /\ Q q).

(** The number of fetches in flight. *)
Definition in_flight (p : Page) : nat :=
  List.length (content_fetches p) + (if tree_fetch_pending p then 1 else 0).

(** Quiet, with the given layout: crashed, or nothing in flight and
    neither skeleton shown. *)
Definition quiet (l : LayoutState) (p : Page) : Prop :=
  crashed p = true \/
  (in_flight p = 0 /\ Sidebar.loading (sidebar p) = false /\
   ContentArea.loading (panel p) = false /\ layout p = l).

(** The skeletons and the fetches. *)
Definition load_inv (p : Page) : Prop :=
  Sidebar.loading (sidebar p) = tree_fetch_pending p /\
  (ContentArea.loading (panel p) = true -> content_fetches p <> []).

(** ** Lemmas *)

Lemma fetch_node_filter_length (l : list (nat * KnowledgeNode)) (t : nat) (n : KnowledgeNode) :
  fetch_node l t = Some n -> List.length (filter (fun f => f.1 <> t) l) < List.length l.
Proof.
  unfold fetch_node. induction l as [|[t' m] l IH]; [done|]. simpl.
  rewrite filter_cons. destruct (Nat.eqb_spec t' t) as [->|Hne]; simpl.
  - intros _. case_decide; [done|]. pose proof (length_filter (fun f : nat * KnowledgeNode => f.1 <> t) l). lia.
  - intros Hf. case_decide; [|done]. simpl. specialize (IH Hf). lia.
Qed.

Lemma fetch_node_head (t : nat) (n : KnowledgeNode) (l : list (nat * KnowledgeNode)) :
  fetch_node ((t, n) :: l) t = Some n.
Proof. unfold fetch_node. simpl. by rewrite Nat.eqb_refl. Qed.

(** Every settlement makes [in_flight] smaller. *)
Lemma settles_in_flight (p q : Page) : settles p q -> in_flight q < in_flight p.
Proof.
  intros [[r| | | | | |t r] [He Hs]]; try done.
  - apply step_tree in Hs as [Hp ->]. unfold in_flight. simpl. rewrite Hp. lia.
  - apply step_settled in Hs as [n [Hn ->]]. unfold in_flight. simpl.
    pose proof (fetch_node_filter_length _ _ _ Hn). lia.
Qed.

(** The two settlements, enabled on any page that has not crashed. *)
Lemma step_tree_enabled (p : Page) (r : TreeFetch) :
  crashed p = false -> tree_fetch_pending p = true ->
  step p (ev_tree_settled r) =
    Some (mkPage (layout p) (header p) (loadKnowledgeTree r (sidebar p)) (panel p)
            false (content_fetches p) (next_ticket p)).
Proof. intros Hc Hp. unfold step. by rewrite Hc, Hp. Qed.

Lemma step_settled_enabled (p : Page) (t : nat) (n : KnowledgeNode) (r : ContentFetch) :
  crashed p = false -> fetch_node (content_fetches p) t = Some n ->
  step p (ev_content_settled t r) =
    Some (mkPage (layout p) (header p) (sidebar p) (loadContent_finish n r (panel p))
            (tree_fetch_pending p) (filter (fun f => f.1 <> t) (content_fetches p)) (next_ticket p)).
Proof. intros Hc Hn. unfold step. by rewrite Hc, Hn. Qed.

Lemma load_inv_step (p : Page) (e : Event) (p' : Page) :
  load_inv p -> step p e = Some p' -> load_inv p'.
Proof.
  intros [Hs Hc] Hst. unfold load_inv. destruct e as [r|n| | |v| |t r];
    try (match type of Hst with
         | step p ?e = Some p' => destruct (step_ui p e p' I Hst) as (_ & -> & -> & -> & _ & ->)
         end; by split).
  - apply step_tree in Hst as [Hp ->]. split; [by destruct r as [|[]]|exact Hc].
  - apply step_click in Hst as [_ ->].
    destruct (content_effect_parts (selectedNode (layout p)) (after_click p n)) as (_ & _ & Hsb & Hpd).
    split.
    + rewrite Hsb, Hpd. unfold after_click. cbn [sidebar tree_fetch_pending].
      by rewrite (proj2 (onRowClick_tree _ _ _)).
    + destruct (content_effect_fetches (selectedNode (layout p)) (after_click p n))
        as [(-> & _ & ->)|(m & _ & _ & -> & _ & _)]; [exact Hc|].
      intros _. by destruct (content_fetches (after_click p n)).
  - apply step_settled in Hst as [m [_ ->]]. by split.
Qed.

Lemma load_inv_reachable (p : Page) : reachable p -> load_inv p.
Proof.
  induction 1 as [|p e p' _ IH Hs]; [by split|]. by apply (load_inv_step p e).
Qed.

(** A settlement from a reachable page leads to a reachable page with
    the same layout and fewer fetches in flight. *)
Definition smaller (p q : Page) : Prop :=
  reachable q /\ in_flight q < in_flight p /\ layout q = layout p.

Lemma settle_smaller (p : Page) (e : Event) (q : Page) :
  reachable p -> settlement e = true -> step p e = Some q -> smaller p q.
Proof.
  intros Hr He Hs. split; [by apply (reach_step p e q)|].
  split; [apply settles_in_flight; by exists e|].
  destruct e as [r| | | | | |t r]; try done.
  - by apply step_tree in Hs as [_ ->].
  - by apply step_settled in Hs as [? [_ ->]].
Qed.

(** From a reachable page that has not crashed and has a fetch in flight,
    the environment can settle one, whatever it returns. *)
Lemma settle_available (p : Page) :
  reachable p -> crashed p = false -> in_flight p <> 0 -> settle_omni p (smaller p).
Proof.
  intros Hr Hc Hf. destruct (tree_fetch_pending p) eqn:Hp.
  - left. split; [done|]. intros r. eexists. split; [by apply step_tree_enabled|].
    apply (settle_smaller p (ev_tree_settled r)); [done|done|by apply step_tree_enabled].
  - right. unfold in_flight in Hf. rewrite Hp in Hf.
    destruct (content_fetches p) as [|[t n] l] eqn:Hl; [simpl in Hf; lia|].
    exists t, n. split; [apply fetch_node_head|]. intros r. eexists.
    assert (Hn : fetch_node (content_fetches p) t = Some n) by (rewrite Hl; apply fetch_node_head).
    split; [by apply step_settled_enabled|].
    apply (settle_smaller p (ev_content_settled t r)); [done|done|by apply step_settled_enabled].
Qed.

(** ** Theorems *)

(** C30: In every reachable page the sidebar shows its skeleton exactly
    while the tree fetch is in flight, and the panel shows its skeleton
    only while some load is in flight. *)
Theorem loading_reflects_fetches (p : Page) :
  reachable p ->
  Sidebar.loading (sidebar p) = tree_fetch_pending p /\
  (ContentArea.loading (panel p) = true -> content_fetches p <> []).
Proof. apply load_inv_reachable. Qed.

Lemma loading_reflects_fetches_witness :
  reachable page_initial /\ Sidebar.loading (sidebar page_initial) = true.
Proof. split; [constructor|]. exact (proj1 (loading_reflects_fetches page_initial reach_initial)). Defined.

(** C29: From every reachable page, whatever the fetches in flight
    return, settling them eventually reaches a quiet page: nothing in
    flight and no skeleton on screen, with the selection and menu of the
    start; or a page that crashed on what a fetch returned. *)
Theorem settle_eventually_quiet (p : Page) :
  reachable p -> eventually settle_omni (quiet (layout p)) p.
Proof.
  intros Hr. remember (layout p) as l eqn:Hl. remember (in_flight p) as k eqn:Hk.
  revert p Hr Hl Hk. induction k as [k IH] using lt_wf_ind. intros p Hr Hl Hk.
  destruct (crashed p) eqn:Hc; [by left; left|].
  destruct (decide (in_flight p = 0)) as [H0|H0].
  - left. right. destruct (load_inv_reachable p Hr) as [Hs Hp].
    assert (Hpd : tree_fetch_pending p = false)
      by (unfold in_flight in H0; destruct (tree_fetch_pending p); [lia|done]).
    assert (Hf : content_fetches p = [])
      by (unfold in_flight in H0; destruct (content_fetches p); [done|simpl in H0; lia]).
    split; [done|split; [by rewrite Hs|split; [|done]]].
    destruct (ContentArea.loading (panel p)); [by destruct Hp|done].
  - apply (eventually_step _ _ _ (smaller p)); [by apply settle_available|].
    intros q (Hq & Hlt & Hlq). apply (IH (in_flight q)); [lia|done|congruence|done].
Qed.

Lemma settle_eventually_quiet_witness :
  reachable page_initial /\ eventually settle_omni (quiet layout_initial) page_initial.
Proof. split; [constructor|]. exact (settle_eventually_quiet page_initial reach_initial). Defined.

End Progress.
