(* ===== verification/InOrder.v ===== *)
(** * The content resolver's contract when responses arrive in order

    The spec (section 4.3) requires that a late result never overwrite
    the content of a newer selection, and notes that the code does not
    guard against it; [Layout.stale_content_reachable] shows the race.
    Here: the other half.  The server is fixed as a function [srv] giving
    the response to a load for each node (a constant document, or a
    failure for some nodes), and the loads are delivered in the order
    they were started (the oldest in flight first, as over a single
    in-order connection).  Then the code meets the contract: once nothing
    is in flight, the panel shows, without its skeleton, exactly the text
    [loadContent] resolves from the server's answer for the node that is
    selected.  [out_of_order_breaks] shows the race page of [Layout]
    failing that equation, so the ordering hypothesis is needed.

    [reachable_in_order srv] is the closure of [step] from the mounted
    page under the user's events, the tree's settlement, and the
    settlement of the oldest load with the server's answer; [io_inv] is
    its invariant (the newest load in flight is for the selected node;
    with nothing in flight the panel holds the selected node's text). *)

From stdpp Require Import base list strings gmap sets.
From Stdlib Require Import String Lia.
From S2P Require Import Prelude KnowledgeNode Sidebar ContentArea Layout Progress.

Module InOrder.

Import Sidebar ContentArea Layout Progress.

Section Server.

(** The server's answer to a load for each node. *)
Variable srv : KnowledgeNode -> ContentFetch.

(** The events the user and the tree fetch produce. *)
Definition content_settlement (e : Event) : bool :=
  match e with ev_content_settled _ _ => true | _ => false end.

(** The next settlement when loads are delivered in order: the oldest
    load in flight, with the server's answer for its node. *)
Definition next_settlement (p : Page) : option Event :=
  match content_fetches p with
  | (t, n) :: _ => Some (ev_content_settled t (srv n))
  | [] => None
  end.

Inductive reachable_in_order : Page -> Prop :=
  | rio_initial : reachable_in_order page_initial
  | rio_user p e p' :
      reachable_in_order p -> content_settlement e = false -> step p e = Some p' ->
      reachable_in_order p'
  | rio_deliver p e p' :
      reachable_in_order p -> next_settlement p = Some e -> step p e = Some p' ->
      reachable_in_order p'.

(** A move of the environment: an event of the user or the tree fetch,
    or the delivery of the oldest load. *)
Inductive Move := user (e : Event) | settle_oldest.

Definition move_event (p : Page) (m : Move) : option Event :=
  match m with
  | user e => if content_settlement e then None else Some e
  | settle_oldest => next_settlement p
  end.

(** A run of moves, each of which must happen. *)
Fixpoint run_in_order (p : Page) (ms : list Move) : option Page :=
  match ms with
  | [] => Some p
  | m :: ms' =>
      match move_event p m with
      | Some e => match step p e with Some p' => run_in_order p' ms' | None => None end
      | None => None
      end
  end.

Record io_inv (p : Page) : Prop := {
  io_newest : forall n, selectedNode (layout p) = Some n -> content_fetches p <> [] ->
                exists t, last (content_fetches p) = Some (t, n);
  io_settled : forall n, selectedNode (layout p) = Some n -> content_fetches p = [] ->
                content (panel p) = resolved_content n (srv n)
}.

(** ** Lemmas *)

Lemma reachable_in_order_reachable (p : Page) : reachable_in_order p -> reachable p.
Proof. induction 1; [constructor| |]; by eapply reach_step. Qed.

Lemma run_in_order_reachable (p : Page) (ms : list Move) (p' : Page) :
  reachable_in_order p -> run_in_order p ms = Some p' -> reachable_in_order p'.
Proof.
  revert p. induction ms as [|m ms IH]; intros p Hp; simpl; [by intros [= <-]|].
  destruct (move_event p m) as [e|] eqn:Hm; [|done].
  destruct (step p e) as [q|] eqn:Hs; [|done]. apply IH.
  destruct m as [e'|]; simpl in Hm.
  - destruct (content_settlement e') eqn:Hc; [done|]. injection Hm as <-.
    by apply (rio_user p e' q).
  - by apply (rio_deliver p e q).
Qed.

Lemma filter_fst_notin (t : nat) (l : list (nat * KnowledgeNode)) :
  t ∉ map fst l -> filter (fun f => f.1 <> t) l = l.
Proof.
  induction l as [|[t' m] l IH]; [done|]. simpl. rewrite not_elem_of_cons. intros [Ht Hl].
  rewrite filter_cons_True by done. by rewrite IH.
Qed.

Lemma last_cons_ne {A} (x : A) (l : list A) : l <> [] -> last (x :: l) = last l.
Proof. by destruct l. Qed.

(** Delivering the oldest load takes exactly it out of flight and
    finishes the panel with the server's answer for its node. *)
Lemma deliver_oldest (p : Page) (e : Event) (p' : Page) :
  NoDup (map fst (content_fetches p)) -> next_settlement p = Some e -> step p e = Some p' ->
  exists t n l, content_fetches p = (t, n) :: l /\ content_fetches p' = l /\
    panel p' = loadContent_finish n (srv n) (panel p) /\ layout p' = layout p.
Proof.
  intros Hnd He Hs. unfold next_settlement in He.
  destruct (content_fetches p) as [|[t m] l] eqn:Hl; [done|]. injection He as <-.
  apply step_settled in Hs as [n [Hn ->]].
  rewrite Hl in Hn. unfold fetch_node in Hn. simpl in Hn.
  rewrite Nat.eqb_refl in Hn. injection Hn as ->.
  exists t, n, l. split; [done|]. simpl. split; [|done]. rewrite Hl.
  rewrite filter_cons_False by (simpl; lia). apply filter_fst_notin.
  simpl in Hnd. by apply NoDup_cons in Hnd as [? _].
Qed.

(** After a click either the selection, the loads and the panel are as
    before, or one load for the new selection was started. *)
Lemma click_effect_cases (p : Page) (n : KnowledgeNode) :
  let q := content_effect (selectedNode (layout p)) (after_click p n) in
  (selectedNode (layout q) = selectedNode (layout p) /\ content_fetches q = content_fetches p /\
   panel q = panel p) \/
  (exists m, selectedNode (layout q) = Some m /\
   content_fetches q = content_fetches p ++ [(next_ticket p, m)] /\
   panel q = loadContent_start (panel p)).
Proof.
  cbv zeta. unfold content_effect. case_decide as Heq; [by left|].
  destruct (selectedNode (layout (after_click p n))) as [m|] eqn:E; [right; by exists m|].
  left. rewrite after_click_selection in E. by destruct (isLeaf n).
Qed.

Lemma io_inv_initial : io_inv page_initial.
Proof. split; done. Qed.

(** The user's events and the tree's settlement keep the invariant. *)
Lemma io_inv_user (p : Page) (e : Event) (p' : Page) :
  io_inv p -> content_settlement e = false -> step p e = Some p' -> io_inv p'.
Proof.
  intros [Hnew Hset] Ho Hs.
  destruct e as [r|n| | |v| |t r];
    try (match type of Hs with
         | step p ?e = Some p' => destruct (step_ui p e p' I Hs) as (Hl & _ & Hp & Hf & _ & _)
         end; split; rewrite ?Hl, ?Hp, ?Hf; assumption).
  - apply step_tree in Hs as [_ ->]. by split.
  - apply step_click in Hs as [_ ->].
    destruct (click_effect_cases p n) as [(Hl & Hf & Hp)|(m & Hl & Hf & Hp)]; split;
      rewrite ?Hl, ?Hf, ?Hp; [exact Hnew|exact Hset| |].
    + intros n' [= <-] _. exists (next_ticket p). apply last_snoc.
    + intros n' _ Hnil. by destruct (content_fetches p).
  - done.
Qed.

(** Delivering the oldest load keeps it. *)
Lemma io_inv_deliver (p : Page) (e : Event) (p' : Page) :
  reachable p -> io_inv p -> next_settlement p = Some e -> step p e = Some p' -> io_inv p'.
Proof.
  intros Hr [Hnew Hset] He Hs. destruct (page_inv_reachable p Hr) as (_ & _ & _ & Hd & _).
  destruct (deliver_oldest p e p' Hd He Hs) as (t & m & l & Hl & Hf & Hp & Hly).
  split; rewrite ?Hf, ?Hp, ?Hly.
  - intros n Hn Hne. destruct (Hnew n Hn) as [t' Ht']; [by rewrite Hl|].
    exists t'. rewrite Hl, last_cons_ne in Ht' by done. exact Ht'.
  - intros n Hn Hnil. rewrite Hnil in Hl.
    destruct (Hnew n Hn) as [t' Ht']; [by rewrite Hl|].
    rewrite Hl in Ht'. cbn in Ht'. injection Ht' as _ ->. done.
Qed.

Lemma io_inv_reachable (p : Page) : reachable_in_order p -> io_inv p.
Proof.
  intros H. induction H as [|p e p' Hp IH Ho Hs|p e p' Hp IH He Hs]; [apply io_inv_initial| |].
  - by apply (io_inv_user p e).
  - apply (io_inv_deliver p e); [by apply reachable_in_order_reachable|done..].
Qed.

(** ** Theorem *)

(** C26: When the loads are delivered in the order they were started,
    with the server's answer for each node, the code meets the spec's
    contract for the content panel: once nothing is in flight, the panel
    shows no skeleton and holds exactly the text [loadContent] resolves
    from the server's answer for the selected node. *)
Theorem in_order_shows_selection (p : Page) (n : KnowledgeNode) :
  reachable_in_order p -> selectedNode (layout p) = Some n -> content_fetches p = [] ->
  ContentArea.loading (panel p) = false /\ content (panel p) = resolved_content n (srv n).
Proof.
  intros Hr Hn Hnil. split.
  - destruct (load_inv_reachable p (reachable_in_order_reachable p Hr)) as [_ Hl].
    destruct (ContentArea.loading (panel p)); [by destruct Hl|done].
  - by apply (io_settled p (io_inv_reachable p Hr)).
Qed.

End Server.

(** The server of the race: the same document for every load. *)
Definition doc_server (_ : KnowledgeNode) : ContentFetch := content_fetched content_doc.

(** The clicks of the race of [Layout], with the two loads delivered in order. *)
Definition ordered_moves : list Move :=
  [user (ev_tree_settled (tree_fetched (Some [basics]))); user (ev_click_row rules);
   user (ev_click_row history); settle_oldest; settle_oldest].

Definition ordered_page : Page :=
  default page_initial (run_in_order doc_server page_initial ordered_moves).

Lemma in_order_shows_selection_witness :
  reachable_in_order doc_server ordered_page /\ ContentArea.loading (panel ordered_page) = false /\
  content (panel ordered_page) = Some "# History".
Proof.
  assert (Hr : reachable_in_order doc_server ordered_page).
  { apply (run_in_order_reachable doc_server page_initial ordered_moves);
      [constructor|vm_compute; reflexivity]. }
  split; [exact Hr|].
  destruct (in_order_shows_selection doc_server ordered_page history Hr) as [Hl Hc];
    [vm_compute; reflexivity|vm_compute; reflexivity|].
  split; [exact Hl|]. rewrite Hc. vm_compute. reflexivity.
Defined.

(** With the same server, the race page of [Layout], where the loads
    settled out of order, does not hold the selected node's text: the
    in-order hypothesis cannot be dropped. *)
Lemma out_of_order_breaks :
  reachable race_page5 /\ selectedNode (layout race_page5) = Some history /\
  content_fetches race_page5 = [] /\
  content (panel race_page5) <> resolved_content history (doc_server history).
Proof.
  split; [apply (run_reachable page_initial race_events); [constructor|reflexivity]|].
  vm_compute. split; [reflexivity|split; [reflexivity|discriminate]].
Qed.

End InOrder.
