(* ===== verification/Safety.v ===== *)
(** * The page never crashes on well-formed documents

    Two renders of the program can throw, and an error thrown while
    rendering unmounts the whole page (there is no error boundary):
    the sidebar's [knowledgeTree.map] when the tree document has no
    [categories] array ([Sidebar.loadKnowledgeTree_no_categories]), and
    the panel's [formatContent(content)] when [loadContent] stored
    [undefined] ([ContentArea.loadContent_prototype_key]).  Here: the
    converse.  When the tree document has a [categories] array whose ids
    are not keys of [Object.prototype], and every entry of the content
    document that is truthy has a string [content], no reachable page
    has crashed, whatever the order of the events and whichever fetches
    fail.

    [sound_event] states what the environment promises of a settlement;
    [reachable_sound] is the closure of [step] from the mounted page
    under such events; [sound_inv] is its invariant (a tree is loaded
    whose ids are safe, the panel's text is defined, and every load in
    flight is for a node with a safe id). *)

From stdpp Require Import base list strings gmap sets.
From Stdlib Require Import String Lia.
From S2P Require Import Prelude KnowledgeNode Sidebar ContentArea Layout.

Module Safety.

Import Sidebar ContentArea Layout.

(** An id that [contentData[id]] cannot find on [Object.prototype]. *)
Definition safe_id (i : string) : bool := negb (bool_decide (i ∈ object_prototype_keys)).

(** A tree document with a [categories] array of safe ids (or a failed
    fetch, which the code catches). *)
Definition sound_tree (r : TreeFetch) : bool :=
  match r with
  | tree_fetch_failed => true
  | tree_fetched None => false
  | tree_fetched (Some cats) => forallb safe_id (forest_ids cats)
  end.

(** An entry whose [.content] the code can format. *)
Definition entry_ok (e : Entry) : bool :=
  match e with entry_truthy None => false | _ => true end.

(** A content document whose truthy entries all have a string [content]
    (or a failed fetch). *)
Definition sound_doc (r : ContentFetch) : bool :=
  match r with
  | content_fetch_failed => true
  | content_fetched doc => bool_decide (map_Forall (fun _ e => entry_ok e = true) doc)
  end.

Definition sound_event (e : Event) : bool :=
  match e with
  | ev_tree_settled r => sound_tree r
  | ev_content_settled _ r => sound_doc r
  | _ => true
  end.

Inductive reachable_sound : Page -> Prop :=
  | rs_initial : reachable_sound page_initial
  | rs_step p e p' :
      reachable_sound p -> sound_event e = true -> step p e = Some p' -> reachable_sound p'.

(** A run of events, each of which must be sound and happen. *)
Fixpoint run_sound (p : Page) (es : list Event) : option Page :=
  match es with
  | [] => Some p
  | e :: es' =>
      if sound_event e then
        match step p e with Some p' => run_sound p' es' | None => None end
      else None
  end.

Record sound_inv (p : Page) : Prop := {
  si_tree : exists t, knowledgeTree (sidebar p) = Some t /\ forallb safe_id (forest_ids t) = true;
  si_content : content (panel p) <> None;
  si_fetches : forall t n, In (t, n) (content_fetches p) -> safe_id (id n) = true
}.

(** ** Lemmas *)

Lemma reachable_sound_reachable (p : Page) : reachable_sound p -> reachable p.
Proof. induction 1; [constructor|]. by eapply reach_step. Qed.

Lemma run_sound_reachable (p : Page) (es : list Event) (p' : Page) :
  reachable_sound p -> run_sound p es = Some p' -> reachable_sound p'.
Proof.
  revert p. induction es as [|e es IH]; intros p Hp; simpl; [by intros [= <-]|].
  destruct (sound_event e) eqn:He; [|done].
  destruct (step p e) as [q|] eqn:Hs; [|done]. apply IH. by apply (rs_step p e q).
Qed.

Lemma fetch_node_in (l : list (nat * KnowledgeNode)) (t : nat) (n : KnowledgeNode) :
  fetch_node l t = Some n -> In (t, n) l.
Proof.
  unfold fetch_node. destruct (List.find _ l) as [[t' m]|] eqn:E; [|done]. intros [= ->].
  apply List.find_some in E as [Hin Ht]. simpl in Ht. apply Nat.eqb_eq in Ht. by subst.
Qed.

(** A node of the tree has a safe id when all the tree's ids are. *)
Lemma forest_safe (t : list KnowledgeNode) (n : KnowledgeNode) :
  forallb safe_id (forest_ids t) = true -> In n (forest_nodes t) -> safe_id (id n) = true.
Proof.
  intros Ht Hn. apply forallb_forall with (x := id n) in Ht; [done|].
  unfold forest_ids. by apply in_map.
Qed.

(** The text [loadContent] stores for a node with a safe id from a sound
    document is defined. *)
Lemma resolved_content_defined (n : KnowledgeNode) (r : ContentFetch) :
  safe_id (id n) = true -> sound_doc r = true -> resolved_content n r <> None.
Proof.
  intros Hid Hr. destruct r as [|doc]; [done|]. simpl in Hr. apply bool_decide_eq_true in Hr.
  unfold resolved_content, contentData_get. destruct (doc !! id n) as [e|] eqn:E.
  - specialize (Hr _ _ E). by destruct e as [|[c|]].
  - unfold safe_id in Hid. apply negb_true_iff in Hid. by rewrite Hid.
Qed.

Lemma sound_inv_initial : sound_inv page_initial.
Proof. split; [by exists []|discriminate|done]. Qed.

Lemma sound_inv_tree (p : Page) (r : TreeFetch) (p' : Page) :
  sound_inv p -> sound_tree r = true -> step p (ev_tree_settled r) = Some p' -> sound_inv p'.
Proof.
  intros [Ht Hc Hf] Hr Hs. apply step_tree in Hs as [_ ->]. split; [|done|done]. simpl.
  destruct r as [|[cats|]]; [done|by exists cats|done].
Qed.

Lemma sound_inv_click (p : Page) (n : KnowledgeNode) (p' : Page) :
  reachable p -> sound_inv p -> step p (ev_click_row n) = Some p' -> sound_inv p'.
Proof.
  intros Hr [Ht Hc Hf] Hs. pose proof (reach_step p _ p' Hr Hs) as Hr'.
  destruct (page_inv_reachable p' Hr') as (_ & Hsel & _).
  apply step_click in Hs as [_ Hp']. set (q := after_click p n) in Hp'.
  destruct (content_effect_parts (selectedNode (layout p)) q) as (El & _ & Es & _).
  assert (Htq : knowledgeTree (sidebar p') = knowledgeTree (sidebar p))
    by (rewrite Hp', Es; apply onRowClick_tree).
  assert (Ht' : exists t, knowledgeTree (sidebar p') = Some t /\ forallb safe_id (forest_ids t) = true)
    by by rewrite Htq.
  split; [exact Ht'| |].
  - destruct (content_effect_fetches (selectedNode (layout p)) q)
      as [(_ & _ & Ep)|(m & _ & _ & _ & _ & Ep)]; rewrite Hp', Ep; [exact Hc|exact Hc].
  - destruct (content_effect_fetches (selectedNode (layout p)) q)
      as [(Ef & _)|(m & Hm & _ & Ef & _)]; rewrite Hp', Ef; [exact Hf|].
    intros t' n' Hin. apply in_app_or in Hin as [Hin|[[= <- <-]|[]]]; [by apply (Hf t')|].
    rewrite <- El, <- Hp' in Hm. destruct (Hsel m Hm) as [_ [t [Htt Hin]]].
    destruct Ht' as [t0 [Ht0 Hsafe]]. rewrite Ht0 in Htt. injection Htt as <-.
    by apply (forest_safe t0).
Qed.

Lemma sound_inv_settled (p : Page) (t : nat) (r : ContentFetch) (p' : Page) :
  sound_inv p -> sound_doc r = true -> step p (ev_content_settled t r) = Some p' -> sound_inv p'.
Proof.
  intros [Ht Hc Hf] Hr Hs. apply step_settled in Hs as [node [Hn ->]].
  split; [exact Ht| |]; simpl.
  - apply resolved_content_defined; [|exact Hr]. apply (Hf t). by apply fetch_node_in.
  - intros t' n' Hin. apply list_elem_of_In, list_elem_of_filter in Hin as [_ Hin].
    apply (Hf t'). by apply list_elem_of_In.
Qed.

Lemma sound_inv_step (p : Page) (e : Event) (p' : Page) :
  reachable p -> sound_inv p -> sound_event e = true -> step p e = Some p' -> sound_inv p'.
Proof.
  intros Hr Hi He Hs. destruct e as [r|n| | |v| |t r];
    try (destruct Hi as [Ht Hc Hf];
         match type of Hs with
         | step p ?e = Some p' => destruct (step_ui p e p' I Hs) as (_ & Hsb & Hp & Hfs & _ & _)
         end; split; rewrite ?Hsb, ?Hp, ?Hfs; assumption).
  - by apply (sound_inv_tree p r).
  - by apply (sound_inv_click p n).
  - by apply (sound_inv_settled p t r).
Qed.

Lemma sound_inv_reachable (p : Page) : reachable_sound p -> sound_inv p.
Proof.
  induction 1 as [|p e p' Hp IH He Hs]; [apply sound_inv_initial|].
  apply (sound_inv_step p e); [by apply reachable_sound_reachable|done..].
Qed.

(** ** Theorem *)

(** C4: When the documents are well formed (a [categories] array whose ids
    are not keys of [Object.prototype]; a string [content] in every
    truthy entry), no reachable page has crashed, whatever the order in
    which the fetches settle and whichever of them fail. *)
Theorem sound_never_crashes (p : Page) : reachable_sound p -> crashed p = false.
Proof.
  intros Hp. destruct (sound_inv_reachable p Hp) as [[t [Ht _]] Hc _].
  unfold crashed, sidebar_view, panel_view, Sidebar.render, ContentArea.render.
  rewrite Ht. destruct (Sidebar.loading (sidebar p)), (selectedNode (layout p)); try done;
    destruct (ContentArea.loading (panel p)); try done;
    destruct (content (panel p)); done.
Qed.

(** The race's events are sound: the page they reach has not crashed. *)
Definition sound_page : Page := default page_initial (run_sound page_initial race_events).

Lemma sound_never_crashes_witness :
  reachable_sound sound_page /\ crashed sound_page = false.
Proof.
  assert (Hr : reachable_sound sound_page).
  { apply (run_sound_reachable page_initial race_events); [constructor|vm_compute; reflexivity]. }
  split; [exact Hr|]. exact (sound_never_crashes sound_page Hr).
Defined.

End Safety.
