(* ===== verification/TailwindConfig.v ===== *)
(** * The Tailwind configuration ([tailwind.config.js])

    The object the file exports (lines 2-146), field by field, as the
    file writes it: the dark-mode strategy, the [content] globs whose
    files Tailwind scans for class names, the [container] options, and
    the [theme.extend] scales (colours, font families, font sizes with
    their line heights, spacing, radii, shadows, animations and their
    keyframes), and the plugins.  [Theme] reads the class names of the
    components against it. *)

From stdpp Require Import base list strings.
From Stdlib Require Import String.
From S2P Require Import Prelude.

Module TailwindConfig.

(** A [content] glob ["./ROOT/**/*.{ts,tsx}"]: any file under [ROOT],
    at any depth, with one of the extensions. *)
Record Glob := mkGlob { glob_root : string; glob_exts : list string }.

(** [darkMode] (line 3). *)
Definition darkMode : list string := ["class"].

(** [content] (lines 4-9). *)
Definition content : list Glob :=
  [mkGlob "pages" ["ts"; "tsx"]; mkGlob "components" ["ts"; "tsx"];
   mkGlob "app" ["ts"; "tsx"]; mkGlob "src" ["ts"; "tsx"]].

(** [theme.container] (lines 11-17). *)
Record Container := mkContainer {
  container_center : bool;
  container_padding : string;
  container_screens : list (string * string)
}.

Definition container : Container := mkContainer true "2rem" [("2xl", "1400px")].

(** A colour of [theme.extend.colors]: one CSS value, or a scale of
    named shades. *)
Inductive ColorValue :=
  | color_leaf (css : string)
  | color_scale (shades : list (string * string)).

(** [theme.extend.colors] (lines 19-83), in source order. *)
Definition config_colors : list (string * ColorValue) :=
  [("primary", color_scale [("50", "#e3f2fd"); ("100", "#bbdefb"); ("500", "#2196f3");
     ("700", "#1976d2"); ("900", "#0d47a1"); ("DEFAULT", "#2196f3"); ("foreground", "#ffffff")]);
   ("neutral", color_scale [("50", "#fafafa"); ("100", "#f5f5f5"); ("200", "#e0e0e0");
     ("300", "#bdbdbd"); ("700", "#616161"); ("800", "#424242"); ("850", "#303030");
     ("900", "#212121"); ("950", "#121212")]);
   ("semantic", color_scale [("success", "#4caf50"); ("warning", "#ff9800");
     ("error", "#f44336"); ("info", "#2196f3")]);
   ("background", color_scale [("primary", "#212121"); ("secondary", "#303030");
     ("elevated", "#424242"); ("overlay", "rgba(0, 0, 0, 0.6)"); ("DEFAULT", "#212121")]);
   ("border", color_leaf "hsl(var(--border))");
   ("input", color_leaf "hsl(var(--input))");
   ("ring", color_leaf "hsl(var(--ring))");
   ("foreground", color_leaf "hsl(var(--foreground))");
   ("secondary", color_scale [("DEFAULT", "hsl(var(--secondary))");
     ("foreground", "hsl(var(--secondary-foreground))")]);
   ("destructive", color_scale [("DEFAULT", "hsl(var(--destructive))");
     ("foreground", "hsl(var(--destructive-foreground))")]);
   ("muted", color_scale [("DEFAULT", "hsl(var(--muted))");
     ("foreground", "hsl(var(--muted-foreground))")]);
   ("accent", color_scale [("DEFAULT", "hsl(var(--accent))");
     ("foreground", "hsl(var(--accent-foreground))")]);
   ("popover", color_scale [("DEFAULT", "hsl(var(--popover))");
     ("foreground", "hsl(var(--popover-foreground))")]);
   ("card", color_scale [("DEFAULT", "hsl(var(--card))");
     ("foreground", "hsl(var(--card-foreground))")])].

(** [theme.extend.fontFamily] (lines 84-89). *)
Definition fontFamily : list (string * list string) :=
  [("display", ["Noto Serif SC"; "Georgia"; "serif"]);
   ("heading", ["Noto Sans SC"; "-apple-system"; "BlinkMacSystemFont"; "Segoe UI"; "sans-serif"]);
   ("body", ["Noto Sans SC"; "-apple-system"; "BlinkMacSystemFont"; "Segoe UI"; "sans-serif"]);
   ("mono", ["Fira Code"; "Courier New"; "monospace"])].

(** [theme.extend.fontSize] (lines 90-100): size and line height. *)
Definition fontSize : list (string * (string * string)) :=
  [("xs", ("0.75rem", "1.2")); ("sm", ("0.875rem", "1.4")); ("base", ("1rem", "1.6"));
   ("lg", ("1.125rem", "1.8")); ("xl", ("1.25rem", "1.4")); ("2xl", ("1.5rem", "1.2"));
   ("3xl", ("1.875rem", "1.2")); ("4xl", ("2.25rem", "1.2")); ("5xl", ("3rem", "1.2"))].

(** [theme.extend.spacing] (lines 101-115). *)
Definition spacing : list (string * string) :=
  [("1", "4px"); ("2", "8px"); ("3", "12px"); ("4", "16px"); ("5", "20px"); ("6", "24px");
   ("8", "32px"); ("10", "40px"); ("12", "48px"); ("16", "64px"); ("20", "80px");
   ("24", "96px"); ("32", "128px")].

(** [theme.extend.borderRadius] (lines 116-122). *)
Definition borderRadius : list (string * string) :=
  [("sm", "4px"); ("md", "8px"); ("lg", "12px"); ("xl", "16px"); ("full", "9999px")].

(** [theme.extend.boxShadow] (lines 123-128). *)
Definition boxShadow : list (string * string) :=
  [("sm", "0 1px 2px 0 rgba(0, 0, 0, 0.3)"); ("md", "0 4px 6px -1px rgba(0, 0, 0, 0.4)");
   ("lg", "0 10px 15px -3px rgba(0, 0, 0, 0.5)"); ("xl", "0 20px 25px -5px rgba(0, 0, 0, 0.5)")].

(** [theme.extend.animation] (lines 129-132). *)
Definition animation : list (string * string) :=
  [("accordion-down", "accordion-down 0.2s ease-out"); ("accordion-up", "accordion-up 0.2s ease-out")].

(** [theme.extend.keyframes] (lines 133-142): each step's declarations. *)
Definition keyframes : list (string * list (string * list (string * string))) :=
  [("accordion-down", [("from", [("height", "0")]);
                       ("to", [("height", "var(--radix-accordion-content-height)")])]);
   ("accordion-up", [("from", [("height", "var(--radix-accordion-content-height)")]);
                     ("to", [("height", "0")])])].

(** [plugins] (line 145). *)
Definition plugins : list string := ["tailwindcss-animate"].

(** The exported object (lines 2-146). *)
Record Config := mkConfig {
  cfg_darkMode : list string;
  cfg_content : list Glob;
  cfg_container : Container;
  cfg_colors : list (string * ColorValue);
  cfg_fontFamily : list (string * list string);
  cfg_fontSize : list (string * (string * string));
  cfg_spacing : list (string * string);
  cfg_borderRadius : list (string * string);
  cfg_boxShadow : list (string * string);
  cfg_animation : list (string * string);
  cfg_keyframes : list (string * list (string * list (string * string)));
  cfg_plugins : list string
}.

Definition config : Config :=
  mkConfig darkMode content container config_colors fontFamily fontSize spacing borderRadius
    boxShadow animation keyframes plugins.

End TailwindConfig.
