(* ===== verification/Theme.v ===== *)
(** * The theme: which class names of the components style anything

    [tailwind.config.js] (see [TailwindConfig]) extends Tailwind's colour palette
    with the design tokens [primary], [neutral], [semantic],
    [background] and the shadcn/ui variables.  Tailwind generates a rule
    for a colour utility such as [bg-primary-500] only when
    [primary-500] is a key of the flattened palette: a nested entry
    [primary: { 500: ... }] gives the key [primary-500], a [DEFAULT]
    entry gives [primary].  [extend] merges the config's palette into the
    default palette of Tailwind v3 (families [slate] to [rose], shades
    [50] to [950], and [inherit], [current], [transparent], [black],
    [white]), so [neutral-400] comes from the defaults while [neutral-850]
    comes from the config.  A class with no rule is silently ignored by
    the browser.  The border width scale is not extended: the widths are
    Tailwind's [0], [2], [4], [8] and the bare [border].

    The plugins are not extended either: only [tailwindcss-animate] is
    loaded, so the typography plugin's [prose] classes give nothing.

    Here: the config's palette as the file writes it, the flattening and
    merge, the colour and border-width part of a class name (variants
    such as [hover:] and an opacity [/15] stripped), every [className] of
    the components, and the theorem that lists the class names that
    generate nothing; the other scales ([TailwindConfig]'s font sizes,
    radii, shadows, animations and spacing, over Tailwind's defaults),
    the [content] globs against the source files, and the classes that
    would need dark mode or a configured font family.  The default
    palette and scales are Tailwind's, not the repository's: they are
    the lists [default_families], [default_shades], [border_width_scale],
    [default_font_sizes], [default_radii], [default_shadows],
    [default_animations] and [default_spacing] below, with the
    animations the [tailwindcss-animate] plugin adds. *)

From stdpp Require Import base list strings.
From Stdlib Require Import String Ascii ZArith.
From S2P Require Import Prelude JsString KnowledgeNode Badge Formatter Sidebar ContentArea Header LayoutView TailwindConfig.

Module Theme.

Import Formatter Sidebar ContentArea TailwindConfig.

(** ** The palette *)

(** Tailwind v3's default palette: its families, each with the same
    shades, and its single colours. *)
Definition default_families : list string :=
  ["slate"; "gray"; "zinc"; "neutral"; "stone"; "red"; "orange"; "amber"; "yellow";
   "lime"; "green"; "emerald"; "teal"; "cyan"; "sky"; "blue"; "indigo"; "violet";
   "purple"; "fuchsia"; "pink"; "rose"].

Definition default_shades : list string :=
  ["50"; "100"; "200"; "300"; "400"; "500"; "600"; "700"; "800"; "900"; "950"].

Definition default_singles : list string := ["inherit"; "current"; "transparent"; "black"; "white"].

(** [flattenColorPalette]: the utility keys of a palette. *)
Definition flatten (c : list (string * ColorValue)) : list string :=
  flat_map (fun kv =>
    match kv.2 with
    | color_leaf _ => [kv.1]
    | color_scale sh =>
        map (fun s => if String.eqb s.1 "DEFAULT" then kv.1 else kv.1 +:+ "-" +:+ s.1) sh
    end) c.

(** The keys of the merged palette ([extend] merges families deeply). *)
Definition color_keys : list string :=
  flatten config_colors ++ default_singles ++
  flat_map (fun f => map (fun s => f +:+ "-" +:+ s) default_shades) default_families.

(** The names a colour value can start with. *)
Definition color_families : list string :=
  map fst config_colors ++ default_families ++ default_singles.

(** Tailwind's default border widths ([border-0], [border-2], ...). *)
Definition border_width_scale : list string := ["0"; "2"; "4"; "8"].

(** Tailwind v3's default keys of the other scales the code uses; the
    config's keys are added to them ([extend]). *)
Definition default_font_sizes : list string :=
  ["xs"; "sm"; "base"; "lg"; "xl"; "2xl"; "3xl"; "4xl"; "5xl"; "6xl"; "7xl"; "8xl"; "9xl"].

Definition default_radii : list string :=
  ["none"; "sm"; "DEFAULT"; "md"; "lg"; "xl"; "2xl"; "3xl"; "full"].

Definition default_shadows : list string :=
  ["sm"; "DEFAULT"; "md"; "lg"; "xl"; "2xl"; "inner"; "none"].

Definition default_animations : list string := ["none"; "spin"; "ping"; "pulse"; "bounce"].

(** The animation utilities [tailwindcss-animate] adds. *)
Definition plugin_animations : list string := ["in"; "out"].

Definition default_spacing : list string :=
  ["0"; "px"; "0.5"; "1"; "1.5"; "2"; "2.5"; "3"; "3.5"; "4"; "5"; "6"; "7"; "8"; "9"; "10";
   "11"; "12"; "14"; "16"; "20"; "24"; "28"; "32"; "36"; "40"; "44"; "48"; "52"; "56"; "60";
   "64"; "72"; "80"; "96"].

(** ** Reading a class name *)

Definition utility (cls : string) : string := List.last (Js.split ":" cls) cls.

Definition family (v : string) : string := List.hd v (Js.split "-" v).

(** The colour a class asks for, without its opacity modifier: the value
    after a colour utility ([bg-], [text-], [border-], [ring-]) when it
    starts with a colour's name. *)
Definition color_value (cls : string) : option string :=
  let u := utility cls in
  match List.find (fun p => Js.startsWith u p) ["bg-"; "text-"; "border-"; "ring-"] with
  | Some p =>
      let v := Js.substring_from u (Z.of_nat (String.length p)) in
      if bool_decide (family v ∈ color_families) then Some (List.hd v (Js.split "/" v)) else None
  | None => None
  end.

Definition is_digits (s : string) : bool :=
  bool_decide (s <> "") && forallb (fun c => bool_decide (c ∈ ["0"; "1"; "2"; "3"; "4"; "5"; "6"; "7"; "8"; "9"]%char))
    (list_ascii_of_string s).

(** The width a border utility asks for: [border-3], [border-l-3]. *)
Definition border_width (cls : string) : option string :=
  match Js.split "-" (utility cls) with
  | ["border"; n] => if is_digits n then Some n else None
  | ["border"; side; n] =>
      if bool_decide (side ∈ ["x"; "y"; "t"; "r"; "b"; "l"; "s"; "e"]) && is_digits n
      then Some n else None
  | _ => None
  end.

(** The scales of the theme other than the colours. *)
Inductive Scale := scale_font_size | scale_radius | scale_shadow | scale_animation | scale_spacing.

(** The keys of a scale: the config's, then Tailwind's. *)
Definition scale_keys (sc : Scale) : list string :=
  match sc with
  | scale_font_size => map fst (cfg_fontSize config) ++ default_font_sizes
  | scale_radius => map fst (cfg_borderRadius config) ++ default_radii
  | scale_shadow => map fst (cfg_boxShadow config) ++ default_shadows
  | scale_animation =>
      map fst (cfg_animation config) ++ default_animations ++
      (if bool_decide ("tailwindcss-animate" ∈ cfg_plugins config) then plugin_animations else [])
  | scale_spacing => map fst (cfg_spacing config) ++ default_spacing
  end.

Definition size_like (v : string) : bool :=
  bool_decide (v ∈ ["xs"; "sm"; "base"; "lg"]) || Js.endsWith v "xl".

Definition is_numeric (v : string) : bool :=
  match Js.split "." v with
  | [a] => is_digits a
  | [a; b] => is_digits a && is_digits b
  | _ => false
  end.

(** The utilities whose numeric values come from the spacing scale. *)
Definition spacing_utilities : list string :=
  ["p"; "px"; "py"; "pt"; "pr"; "pb"; "pl"; "m"; "mx"; "my"; "mt"; "mr"; "mb"; "ml";
   "space-x"; "space-y"; "gap"; "inset"; "top"; "right"; "bottom"; "left";
   "translate-x"; "translate-y"; "w"; "h"].

Definition after (u p : string) : string := Js.substring_from u (Z.of_nat (String.length p)).

(** The scale and key a class asks for: a font size ([text-xl]), a radius
    ([rounded], [rounded-md]), a shadow, an animation, or a numeric
    spacing value ([px-2.5], [-translate-x-0]). *)
Definition scale_key (cls : string) : option (Scale * string) :=
  let u0 := utility cls in
  let u := if Js.startsWith u0 "-" then after u0 "-" else u0 in
  if String.eqb u "rounded" then Some (scale_radius, "DEFAULT")
  else if String.eqb u "shadow" then Some (scale_shadow, "DEFAULT")
  else if Js.startsWith u "text-" then
    (if size_like (after u "text-") then Some (scale_font_size, after u "text-") else None)
  else if Js.startsWith u "rounded-" then Some (scale_radius, after u "rounded-")
  else if Js.startsWith u "shadow-" then Some (scale_shadow, after u "shadow-")
  else if Js.startsWith u "animate-" then Some (scale_animation, after u "animate-")
  else match List.find (fun p => Js.startsWith u (p +:+ "-") && is_numeric (after u (p +:+ "-")))
               spacing_utilities with
       | Some p => Some (scale_spacing, after u (p +:+ "-"))
       | None => None
       end.

Definition token_off_scale (c : string) : bool :=
  match scale_key c with
  | Some (sc, k) => negb (bool_decide (k ∈ scale_keys sc))
  | None => false
  end.

Definition off_scale_tokens (classes : list string) : list string :=
  filter (fun c => token_off_scale c = true) classes.

(** Classes behind the [dark:] variant, which [darkMode: ['class']]
    enables only under a [.dark] ancestor. *)
Definition dark_classes (classes : list string) : list string :=
  filter (fun c => bool_decide ("dark" ∈ removelast (Js.split ":" c))) classes.

(** Classes that apply one of the config's font families. *)
Definition font_family_classes (classes : list string) : list string :=
  filter (fun c => bool_decide (utility c ∈ map (fun f => "font-" +:+ f.1) (cfg_fontFamily config)))
    classes.

(** The utilities of the official plugins a class may need, by package:
    [@tailwindcss/typography] gives [prose] and its size and colour
    modifiers; without the plugin in [plugins] these classes have no
    rule. *)
Definition plugin_utilities : list (string * list string) :=
  [("@tailwindcss/typography",
    ["prose"; "prose-sm"; "prose-base"; "prose-lg"; "prose-xl"; "prose-2xl"; "prose-invert";
     "prose-slate"; "prose-gray"; "prose-zinc"; "prose-neutral"; "prose-stone"; "not-prose"])].

(** Classes that need a plugin the config does not load. *)
Definition classes_without_plugin (classes : list string) : list string :=
  filter (fun c => bool_decide (Exists (fun pu => utility c ∈ pu.2 /\ pu.1 ∉ cfg_plugins config)
                                 plugin_utilities)) classes.

(** A [content] glob matches a path relative to the config's directory. *)
Definition glob_matches (g : Glob) (path : string) : bool :=
  Js.startsWith path (glob_root g +:+ "/") &&
  existsb (fun e => Js.endsWith path ("." +:+ e)) (glob_exts g).

Definition scanned (path : string) : bool := existsb (fun g => glob_matches g path) (cfg_content config).

(** The source files, relative to the directory of [tailwind.config.js]. *)
Definition source_files : list string :=
  ["src/App.tsx"; "src/components/ContentArea.tsx"; "src/components/Header.tsx";
   "src/components/Layout.tsx"; "src/components/Sidebar.tsx"; "src/components/ui/badge.tsx"].

(** The class names of a [className] string. *)
Definition tokens (s : string) : list string := filter (fun t => t <> "") (Js.split " " s).

(** Class names that ask for a colour the palette lacks. *)
Definition color_missing (c : string) : bool :=
  match color_value c with
  | Some v => negb (bool_decide (v ∈ color_keys))
  | None => false
  end.

Definition unresolved_colors (classes : list string) : list string :=
  filter (fun c => color_missing c = true) classes.

(** Class names that ask for a border width off the scale. *)
Definition border_off_scale (c : string) : bool :=
  match border_width c with
  | Some n => negb (bool_decide (n ∈ border_width_scale))
  | None => false
  end.

Definition off_scale_borders (classes : list string) : list string :=
  filter (fun c => border_off_scale c = true) classes.

(** ** The class names of the components *)

(** The sidebar's [className]s not produced by [getNodeIcon] and
    [getNodeStyles] (Sidebar.tsx 112-175). *)
Definition sidebar_class_literals : list string :=
  ["select-none"; "flex items-center flex-1"; "mr-2"; "w-4 h-4 text-neutral-400";
   "w-4 h-4 text-neutral-400"; "mr-3"; "flex-1"; "ml-2 text-xs"; "mt-1";
   "w-80 bg-neutral-850 border-r border-neutral-700 p-6"; "space-y-3";
   "h-8 bg-neutral-800 rounded animate-pulse";
   "w-80 bg-neutral-850 border-r border-neutral-700 overflow-y-auto"; "p-6";
   "text-xl font-bold text-neutral-50 mb-6"; "space-y-2"].

Definition icon_class (i : NodeIcon) : string :=
  match i with BookOpen c | Dot c => c end.

(** The panel's [className]s (ContentArea.tsx 311-417), with the
    [className] prop ["flex-1"] that [Layout] passes and each welcome
    card's colour substituted. *)
Definition content_class_literals : list string :=
  ["flex-1 bg-background-primary p-8 flex-1"; "max-w-4xl mx-auto"; "text-center py-20";
   "w-16 h-16 text-neutral-600 mx-auto mb-6"; "text-3xl font-bold text-neutral-50 mb-4";
   "text-xl text-neutral-400 mb-8";
   "grid grid-cols-1 md:grid-cols-2 lg:grid-cols-3 gap-6 max-w-4xl mx-auto";
   "bg-neutral-800 rounded-lg p-6 hover:bg-neutral-750 transition-colors"]
  ++ map (fun c => "w-12 h-12 " +:+ c.2 +:+ " rounded-lg flex items-center justify-center mb-4")
       welcome_cards
  ++ ["w-6 h-6 text-white"; "text-lg font-semibold text-neutral-100 mb-2"; "text-neutral-400 text-sm";
      "flex-1 bg-background-primary overflow-y-auto flex-1"; "max-w-4xl mx-auto p-8";
      "flex items-center space-x-2 text-sm text-neutral-300 mb-8";
      "hover:text-primary-500 transition-colors"; "w-4 h-4"; "text-neutral-100 font-medium";
      "hover:text-primary-500 transition-colors"; "mb-8"; "flex items-center space-x-3 mb-4";
      "flex items-center space-x-4 text-sm text-neutral-400"; "flex items-center space-x-1"; "w-4 h-4";
      "flex items-center space-x-1"; "w-4 h-4"; "text-4xl font-bold text-neutral-50 leading-tight";
      "prose prose-invert max-w-none"; "space-y-4"; "h-4 bg-neutral-800 rounded animate-pulse";
      "text-neutral-200"; "mt-12 pt-8 border-t border-neutral-700"; "flex items-center justify-between";
      "flex space-x-4"; "w-4 h-4 mr-2"; "text-sm text-neutral-400"].

Definition all_types : list NodeType := [type_category; type_section; type_subsection; type_content].

(** Every class name the components can put on the page. *)
Definition code_classes : list string :=
  flat_map tokens
    (map block_class [h1 ""; h2 ""; h3 ""; h4 ""; li ""; spacer; note ""; para ""]
     ++ map (fun ty => icon_class (getNodeIcon ty)) all_types
     ++ flat_map (fun ty => getNodeStyles ty true) all_types
     ++ sidebar_class_literals
     ++ Badge.base_classes :: map snd Badge.variant_table
     ++ content_class_literals
     ++ Header.class_literals
     ++ LayoutView.class_literals).

(** ** Theorems *)

(** C31: The theme check of every class name the components use: exactly
    two ask for a colour the theme does not define, [bg-primary-300]
    (the dot of a subsection row, which is therefore invisible) and
    [hover:bg-neutral-750] (the hover of a welcome card); exactly one
    asks for a border width off the scale, [border-l-3] (the bar of the
    selected row, which therefore has no width); exactly two need a
    plugin the config does not load, [prose] and [prose-invert] (the
    article body, which needs [@tailwindcss/typography]); every font size,
    radius, shadow, animation and numeric spacing they ask for is on its
    scale; every source file is scanned by the [content] globs; and no
    class depends on dark mode or applies one of the configured font
    families, which are therefore never used. *)
Theorem dead_theme_classes :
  unresolved_colors code_classes = ["bg-primary-300"; "hover:bg-neutral-750"] /\
  off_scale_borders code_classes = ["border-l-3"] /\
  classes_without_plugin code_classes = ["prose"; "prose-invert"] /\
  off_scale_tokens code_classes = [] /\
  forallb scanned source_files = true /\
  dark_classes code_classes = [] /\
  font_family_classes code_classes = [].
Proof. repeat split; vm_compute; reflexivity. Qed.

End Theme.
